(** * Sales-scraper: the PhantomBuster job orchestration of [main.py]

    A shallow embedding of the request handler [search_sales_navigator] and
    of the classes it drives ([PhantomBusterClient], [LinkedInDataProcessor])
    together with the properties stated about them.

    Outbound HTTP calls, [time.sleep] and the Firestore documents are the
    effects of the program.  They are modelled by a state-and-exception monad
    over a [world] that records every effect in a chronological [trace]; the
    answers of the outside world come from an [environment].  Logging has no
    observable effect on the results and is left out. *)

From Stdlib Require Import ZArith String Ascii List Bool Lia PrimFloat DecimalString.
From stdpp Require Import base gmap strings.

Set Warnings "-register-all".

Local Open Scope Z_scope.
Local Open Scope string_scope.
Local Open Scope list_scope.

(** ** Decoded JSON values

    What [json.loads] / [response.json()] give back: [None], [bool], [int],
    [float], [str], [list] and [dict].  A dict keeps its items in insertion
    order; a lookup takes the first item with the key. *)

Inductive json : Type :=
| JNull
| JBool (b : bool)
| JInt (z : Z)
| JFloat (f : float)
| JStr (s : string)
| JList (items : list json)
| JDict (items : list (string * json)).

Fixpoint dict_lookup (key : string) (items : list (string * json)) : option json :=
  match items with
  | [] => None
  | (k, v) :: rest => if String.eqb k key then Some v else dict_lookup key rest
  end.

(** [d.get(key, default)] *)
Definition dict_get (key : string) (default : json) (items : list (string * json)) : json :=
  match dict_lookup key items with
  | Some v => v
  | None => default
  end.

(** [key in d] *)
Definition dict_mem (key : string) (items : list (string * json)) : bool :=
  match dict_lookup key items with
  | Some _ => true
  | None => false
  end.

Definition dict_keys (items : list (string * json)) : list string := map fst items.

(** Python truth value of a decoded value, as used by [or]. *)
Definition py_truthy (v : json) : bool :=
  match v with
  | JNull => false
  | JBool b => b
  | JInt z => negb (Z.eqb z 0)
  | JFloat f => negb (PrimFloat.eqb f 0%float)
  | JStr s => negb (String.eqb s "")
  | JList items => match items with [] => false | _ => true end
  | JDict items => match items with [] => false | _ => true end
  end.

(** [a or b] *)
Definition py_or (a b : json) : json := if py_truthy a then a else b.

(** [str(type(v))], which the format-error message interpolates. *)
Definition py_type (v : json) : string :=
  match v with
  | JNull => "<class 'NoneType'>"
  | JBool _ => "<class 'bool'>"
  | JInt _ => "<class 'int'>"
  | JFloat _ => "<class 'float'>"
  | JStr _ => "<class 'str'>"
  | JList _ => "<class 'list'>"
  | JDict _ => "<class 'dict'>"
  end.

(** [needle in haystack] on strings. *)
Fixpoint str_contains (needle haystack : string) : bool :=
  String.prefix needle haystack
  || match haystack with
     | EmptyString => false
     | String _ rest => str_contains needle rest
     end.

(** ** Exceptions *)

Inductive exn : Type :=
| HTTPException (status_code : Z) (detail : string)
    (* fastapi.HTTPException *)
| RequestException (msg : string)
    (* requests.exceptions.RequestException: connection errors, timeouts and
       the JSONDecodeError of [response.json()], which subclasses it *)
| PyError (kind : string) (msg : string).
    (* any other Exception: AttributeError, KeyError, TypeError, ValueError,
       json.JSONDecodeError, errors of the Firestore client *)

Definition is_HTTPException (e : exn) : bool :=
  match e with HTTPException _ _ => true | _ => false end.

Definition is_RequestException (e : exn) : bool :=
  match e with RequestException _ => true | _ => false end.

Definition is_JSONDecodeError (e : exn) : bool :=
  match e with PyError kind _ => String.eqb kind "JSONDecodeError" | _ => false end.

Definition is_Exception (e : exn) : bool := true.

(** ** The outside world *)

Definition headers_t : Type := list (string * string).

Inductive request : Type :=
| GET (url : string) (headers : headers_t)
| POST (url : string) (payload : json) (headers : headers_t).

Record response : Type := mkResponse {
  status_code : Z;
  text : string
}.

Inductive reply : Type :=
| Response (r : response)
| ConnectionError (msg : string).

(** Firestore field values: what a document holds, and what a write sends
    ([firestore.SERVER_TIMESTAMP] is a sentinel the server replaces by its
    own time). *)
Inductive fval : Type :=
| FStr (s : string)
| FTime (server_time : nat).

Inductive wval : Type :=
| WStr (s : string)
| SERVER_TIMESTAMP.

(** A document is addressed by collection name and document id. *)
Definition docref : Type := string * string.

Inductive event : Type :=
| Request (r : request)
| Sleep (seconds : Z)
| StoreGet (ref : docref)
| StoreSet (ref : docref) (data : gmap string wval)
| StoreUpdate (ref : docref) (data : gmap string wval).

Definition is_store_write (ev : event) : bool :=
  match ev with StoreSet _ _ | StoreUpdate _ _ => true | _ => false end.

Definition is_store_event (ev : event) : bool :=
  match ev with StoreGet _ | StoreSet _ _ | StoreUpdate _ _ => true | _ => false end.

Definition is_request (ev : event) : bool :=
  match ev with Request _ => true | _ => false end.

(** [tick] counts the outbound calls made so far (HTTP and Firestore); the
    environment answers the call made at a given tick. *)
Record world : Type := mkWorld {
  tick : nat;
  trace : list event;
  store : gmap docref (gmap string fval)
}.

Record environment : Type := mkEnv {
  PHANTOM_KEY : option string;          (* os.getenv("PHANTOM_KEY") *)
  respond : nat -> request -> reply;     (* the HTTP peer *)
  store_fault : nat -> option string;    (* a Firestore call that raises *)
  verify_id_token : string -> option (list (string * json))
                                        (* firebase auth; None = it raises *)
}.

(** Library functions of the Python runtime the program calls and that are
    not part of the repository. *)
Class Runtime : Type := mkRuntime {
  json_loads : string -> option json;   (* json.loads; None = JSONDecodeError *)
  py_str : json -> string;              (* str(v), also inside f-strings *)
  exc_str : exn -> string;              (* str(e) *)
  document_error : string -> string -> option string
                                        (* db.collection(c).document(id):
                                           the message of the ValueError it
                                           raises for a path that names no
                                           document; None = the reference *)
}.

(** ** The effect monad *)

Inductive outcome (A : Type) : Type :=
| Return (a : A)
| Raise (e : exn).
Arguments Return {A} a.
Arguments Raise {A} e.

Definition M (A : Type) : Type := world -> outcome A * world.

Definition ret {A} (a : A) : M A := fun w => (Return a, w).

Definition raise {A} (e : exn) : M A := fun w => (Raise e, w).

Definition bind {A B} (m : M A) (k : A -> M B) : M B :=
  fun w =>
    match m w with
    | (Return a, w') => k a w'
    | (Raise e, w') => (Raise e, w')
    end.

Notation "'let*' x ':=' m 'in' k" := (bind m (fun x => k))
  (at level 10, x name, m at level 100, k at level 200).
Notation "m '>>' k" := (bind m (fun _ => k))
  (at level 90, right associativity).

(** [try: body except <catches> as e: handler e] *)
Definition try_except {A} (body : M A) (catches : exn -> bool) (handler : exn -> M A) : M A :=
  fun w =>
    match body w with
    | (Raise e, w') => if catches e then handler e w' else (Raise e, w')
    | r => r
    end.

(** What one iteration of a loop body asks for. *)
Inductive ctl (A : Type) : Type :=
| Next
| Done (a : A).
Arguments Next {A}.
Arguments Done {A} a.

Definition when (b : bool) (m : M unit) : M unit := if b then m else ret tt.

Definition log_event (ev : event) (w : world) : world :=
  mkWorld (S (tick w)) (trace w ++ [ev]) (store w).

Definition slept (seconds : Z) (w : world) : world :=
  mkWorld (tick w) (trace w ++ [Sleep seconds]) (store w).

(** [time.sleep(seconds)] *)
Definition sleep (seconds : Z) : M unit :=
  fun w => (Return tt, slept seconds w).

(** ** Request and response models *)

Record SalesNavQueryData : Type := mkQuery {
  q_url : string;
  q_cookie : string;
  q_userId : string
}.

(** The fields the model [LinkedInProfile] declares. *)
Definition LinkedInProfile_fields : list string :=
  [ "firstName"; "lastName"; "title"; "companyName"; "industry";
    "companyLocation"; "profileLocation"; "connectionDegree";
    "profileImageUrl"; "sharedConnectionsCount"; "defaultProfileUrl";
    "companyUrl" ].

Record PhantomBusterClient : Type := mkClient {
  api_key : string;
  headers : headers_t;
  phantom_ids : list string;
  base_url : string;
  max_retries : nat;
  retry_delay : Z
}.

(** What the endpoint returns. *)
Record scrape_result : Type := mkResult {
  events : list (list (string * json));
  userId : string;
  message : string
}.

Section Program.

Context {RT : Runtime}.
Variable env : environment.

(** *** Primitive effects *)

Definition http_call (rq : request) : M response :=
  fun w =>
    match respond env (tick w) rq with
    | Response r => (Return r, log_event (Request rq) w)
    | ConnectionError msg => (Raise (RequestException msg), log_event (Request rq) w)
    end.

(** [requests.get(url, headers=...)], [requests.post(url, json=..., headers=...)] *)
Definition requests_get (url : string) (hs : headers_t) : M response :=
  http_call (GET url hs).

Definition requests_post (url : string) (payload : json) (hs : headers_t) : M response :=
  http_call (POST url payload hs).

(** [response.json()] *)
Definition resp_json (r : response) : M json :=
  match json_loads (text r) with
  | Some v => ret v
  | None => raise (RequestException "JSONDecodeError")
  end.

(** [v.get(key, default)]: only a dict has the method. *)
Definition method_get (v : json) (key : string) (default : json) : M json :=
  match v with
  | JDict items => ret (dict_get key default items)
  | _ => raise (PyError "AttributeError" "get")
  end.

(** [v[key]] with a string key. *)
Definition subscript (v : json) (key : string) : M json :=
  match v with
  | JDict items =>
      match dict_lookup key items with
      | Some x => ret x
      | None => raise (PyError "KeyError" key)
      end
  | _ => raise (PyError "TypeError" "subscript")
  end.

(** [v == s] for a string literal [s]. *)
Definition eq_str (v : json) (s : string) : bool :=
  match v with
  | JStr t => String.eqb t s
  | _ => false
  end.

(** *** PhantomBusterClient *)

(** [__init__] (main.py 52-65): the attributes it sets, and the check of the key. *)
Definition init_client (key : string) : PhantomBusterClient :=
  mkClient key
    [("Content-Type", "application/json"); ("X-Phantombuster-Key-1", key)]
    ["2696753432671290"; "2786592566218024"; "8109199544661391"]
    "https://api.phantombuster.com/api/v2"
    5%nat
    60.

Definition new_client : M PhantomBusterClient :=
  match PHANTOM_KEY env with
  | Some key =>
      if String.eqb key "" then
        raise (PyError "ValueError" "PhantomBuster API key not found in environment variables")
      else ret (init_client key)
  | None =>
      raise (PyError "ValueError" "PhantomBuster API key not found in environment variables")
  end.

Definition agent_url (self : PhantomBusterClient) (phantom_id : string) : string :=
  base_url self +:+ "/agents/fetch?id=" +:+ phantom_id.

(** [is_phantom_running] (main.py 85-94) *)
Definition is_phantom_running (self : PhantomBusterClient) (phantom_id : string) : M bool :=
  let url := agent_url self phantom_id in
  let* response := requests_get url (headers self) in
  if negb (Z.eqb (status_code response) 200) then
    raise (HTTPException 500 ("Error checking phantom status: " +:+ text response))
  else
    let* body := resp_json response in
    let* status := method_get body "status" JNull in
    ret (eq_str status "RUNNING").

(** [wait_for_phantom_availability] (main.py 67-83): the
    [for attempt in range(self.max_retries)] loop, over the attempts still to
    make. *)
Fixpoint wait_attempts (self : PhantomBusterClient) (phantom_id : string)
    (attempts : list nat) : M bool :=
  match attempts with
  | [] => ret false
  | attempt :: rest =>
      let* c :=
        try_except
          (let* running := is_phantom_running self phantom_id in
           if negb running then ret (Done true)
           else
             when (Nat.ltb attempt (max_retries self - 1)) (sleep (retry_delay self)) >>
             ret Next)
          is_HTTPException
          (fun e =>
             when (Nat.ltb attempt (max_retries self - 1)) (sleep (retry_delay self)) >>
             ret Next) in
      match c with
      | Done b => ret b
      | Next => wait_attempts self phantom_id rest
      end
  end.

Definition wait_for_phantom_availability (self : PhantomBusterClient)
    (phantom_id : string) : M bool :=
  wait_attempts self phantom_id (seq 0 (max_retries self)).

(** [get_available_phantom] (main.py 96-105): the
    [for phantom_id in self.phantom_ids] loop. *)
Fixpoint first_available (self : PhantomBusterClient) (ids : list string) : M string :=
  match ids with
  | [] =>
      raise (HTTPException 503 "All phantoms are busy and maximum retry attempts reached")
  | phantom_id :: rest =>
      let* ok := wait_for_phantom_availability self phantom_id in
      if ok then ret phantom_id else first_available self rest
  end.

Definition get_available_phantom (self : PhantomBusterClient) : M string :=
  first_available self (phantom_ids self).

Definition launch_url (self : PhantomBusterClient) : string :=
  base_url self +:+ "/agents/launch".

Definition launch_payload (phantom_id linkedin_cookies search_url : string) : json :=
  JDict [ ("id", JStr phantom_id);
          ("argument", JDict [ ("searches", JStr search_url);
                               ("sessionCookie", JStr linkedin_cookies) ]) ].

(** [trigger_phantom] (main.py 107-148): its
    [for attempt in range(self.max_retries)] loop. *)
Fixpoint launch_attempts (self : PhantomBusterClient) (url : string) (payload : json)
    (attempts : list nat) : M json :=
  match attempts with
  | [] =>
      raise (HTTPException 503 "Maximum retry attempts reached while launching phantom")
  | attempt :: rest =>
      let* c :=
        try_except
          (let* response := requests_post url payload (headers self) in
           if Z.eqb (status_code response) 200 then
             let* body := resp_json response in
             let* cid := subscript body "containerId" in
             ret (Done cid)
           else
             let* error_data := resp_json response in
             let fall_through :=
               raise (HTTPException 500 ("Error launching phantom: " +:+ text response)) in
             if str_contains "maxParallelismReached" (py_str error_data) then
               if Nat.ltb attempt (max_retries self - 1) then
                 sleep (retry_delay self) >> ret Next
               else fall_through
             else fall_through)
          is_RequestException
          (fun e =>
             if Nat.eqb attempt (max_retries self - 1) then
               raise (HTTPException 500 ("Network error launching phantom: " +:+ exc_str e))
             else sleep (retry_delay self) >> ret Next) in
      match c with
      | Done cid => ret cid
      | Next => launch_attempts self url payload rest
      end
  end.

Definition trigger_phantom (self : PhantomBusterClient)
    (phantom_id linkedin_cookies search_url : string) : M json :=
  launch_attempts self (launch_url self)
    (launch_payload phantom_id linkedin_cookies search_url)
    (seq 0 (max_retries self)).

Definition container_url (self : PhantomBusterClient) (container_id : json) : string :=
  base_url self +:+ "/containers/fetch?id=" +:+ py_str container_id.

(** [check_container_status] (main.py 150-186): its
    [while retry_count < max_retries] loop,
    over [remaining = max_retries - retry_count]: every pass that neither
    returns nor raises adds one to [retry_count]. *)
Fixpoint poll_attempts (self : PhantomBusterClient) (url : string)
    (remaining : nat) : M unit :=
  match remaining with
  | O => raise (HTTPException 504 "Container execution timed out")
  | S remaining' =>
      let* c :=
        try_except
          (let* response := requests_get url (headers self) in
           if negb (Z.eqb (status_code response) 200) then
             raise (HTTPException 500
                      ("Failed to check container status: " +:+ text response))
           else
             let* body := resp_json response in
             let* status := method_get body "status" JNull in
             if eq_str status "finished" then ret (Done tt)
             else if eq_str status "failed" then
               let* body' := resp_json response in
               let* error_message := method_get body' "error" (JStr "Unknown error") in
               raise (HTTPException 500
                        ("Container execution failed: " +:+ py_str error_message))
             else sleep 10 >> ret Next)
          is_RequestException
          (fun e => sleep 10 >> ret Next) in
      match c with
      | Done _ => ret tt
      | Next => poll_attempts self url remaining'
      end
  end.

Definition check_container_status (self : PhantomBusterClient)
    (container_id : json) : M unit :=
  poll_attempts self (container_url self container_id) 30.

(** *** LinkedInDataProcessor *)

(** [process_profile] (main.py 192-207); [item.get] needs [item] to be a dict. *)
Definition process_profile (item : json) : M (list (string * json)) :=
  match item with
  | JDict item =>
      ret [ ("firstName", dict_get "firstName" (JStr "") item);
            ("lastName", dict_get "lastName" (JStr "") item);
            ("title", dict_get "title" (JStr "") item);
            ("companyName", dict_get "companyName" (JStr "") item);
            ("industry", dict_get "industry" (JStr "") item);
            ("companyLocation", dict_get "companyLocation" (JStr "") item);
            ("profileLocation", dict_get "location" (JStr "") item);
            ("connectionDegree", dict_get "connectionDegree" (JStr "") item);
            ("profileImageUrl", dict_get "profileImageUrl" (JStr "") item);
            ("sharedConnectionsCount", dict_get "sharedConnectionsCount" (JInt 0) item);
            ("defaultProfileUrl", dict_get "defaultProfileUrl" (JStr "") item);
            ("companyUrl", py_or (dict_get "CompanyUrl" (JStr "") item)
                                 (dict_get "regularCompanyUrl" (JStr "") item)) ]
  | _ => raise (PyError "AttributeError" "get")
  end.

(** [[f(item) for item in data]] *)
Fixpoint for_each {A B} (f : A -> M B) (data : list A) : M (list B) :=
  match data with
  | [] => ret []
  | item :: rest =>
      let* y := f item in
      let* ys := for_each f rest in
      ret (y :: ys)
  end.

Definition result_url (self : PhantomBusterClient) (container_id : json) : string :=
  base_url self +:+ "/containers/fetch-result-object?id=" +:+ py_str container_id.

(** [fetch_and_clean_data] (main.py 210-291) *)
Definition fetch_and_clean_data (container_id : json)
    (phantom_client : PhantomBusterClient) : M (list (list (string * json))) :=
  let url := result_url phantom_client container_id in
  let* response := requests_get url (headers phantom_client) in
  if negb (Z.eqb (status_code response) 200) then
    raise (HTTPException 500 ("Failed to fetch data: " +:+ text response))
  else
    try_except
      (let* response_json := resp_json response in
       let* result := method_get response_json "resultObject" JNull in
       match result with
       | JNull => raise (HTTPException 500 "No data received from PhantomBuster")
       | _ =>
           let* data :=
             match result with
             | JStr s =>
                 try_except
                   (match json_loads s with
                    | Some v => ret v
                    | None => raise (PyError "JSONDecodeError" s)
                    end)
                   is_JSONDecodeError
                   (fun e =>
                      raise (HTTPException 500
                               "Invalid data format received from PhantomBuster"))
             | _ => ret result
             end in
           let* data :=
             match data with
             | JDict items =>
                 if dict_mem "jsonUrl" items then
                   let* target := subscript data "jsonUrl" in
                   let* json_response :=
                     match target with
                     | JStr u => requests_get u []
                     | _ => raise (RequestException "MissingSchema")
                     end in
                   if negb (Z.eqb (status_code json_response) 200) then
                     raise (HTTPException 500 "Failed to fetch JSON from external URL")
                   else resp_json json_response
                 else ret data
             | _ => ret data
             end in
           match data with
           | JNull => ret []
           | _ =>
               let data := match data with JDict _ => JList [data] | _ => data end in
               match data with
               | JList items => for_each process_profile items
               | _ =>
                   raise (HTTPException 500
                            ("Unexpected data format received from PhantomBuster: "
                             +:+ py_type data))
               end
           end
       end)
      is_Exception
      (fun e => raise (HTTPException 500 ("Error processing data: " +:+ exc_str e))).

(** *** Firestore documents *)

Definition resolve (now : nat) (v : wval) : fval :=
  match v with
  | WStr s => FStr s
  | SERVER_TIMESTAMP => FTime now
  end.

Definition store_call {A} (ev : event)
    (act : world -> outcome A * gmap docref (gmap string fval)) : M A :=
  fun w =>
    match store_fault env (tick w) with
    | Some msg => (Raise (PyError "GoogleAPICallError" msg), log_event ev w)
    | None =>
        let '(r, st) := act w in
        (r, mkWorld (S (tick w)) (trace w ++ [ev]) st)
    end.

(** [doc_ref.get()]: the snapshot, [None] when the document does not exist. *)
Definition doc_get (ref : docref) : M (option (gmap string fval)) :=
  store_call (StoreGet ref) (fun w => (Return (store w !! ref), store w)).

(** [doc_ref.set(data)]: the document becomes [data]. *)
Definition doc_set (ref : docref) (data : gmap string wval) : M unit :=
  store_call (StoreSet ref data)
    (fun w => (Return tt, <[ref := resolve (tick w) <$> data]> (store w))).

(** [doc_ref.update(data)]: the fields of [data] are overwritten, the
    others kept; a missing document is an error. *)
Definition doc_update (ref : docref) (data : gmap string wval) : M unit :=
  store_call (StoreUpdate ref data)
    (fun w =>
       match store w !! ref with
       | Some old => (Return tt, <[ref := (resolve (tick w) <$> data) ∪ old]> (store w))
       | None => (Raise (PyError "NotFound" (snd ref)), store w)
       end).

(** [db.collection(collection_name).document(document_id)]: the reference is
    built by the client library without a call to the store; it raises a
    [ValueError] when the path does not name a document. *)
Definition document (collection_name document_id : string) : M docref :=
  match document_error collection_name document_id with
  | Some msg => raise (PyError "ValueError" msg)
  | None => ret (collection_name, document_id)
  end.

Definition snapshot_exists (snap : option (gmap string fval)) : bool :=
  match snap with Some _ => true | None => false end.

Definition wdict_get (key : string) (default : wval) (data : gmap string wval) : wval :=
  match data !! key with
  | Some v => v
  | None => default
  end.

(** [check_user_exists], [create_new_user], [updateUser] (main.py 295-341).
    Each builds its reference inside the [try] that guards the call made on
    it, so a reference that cannot be built meets the same handler as a call
    that fails: it is one of the faults [store_fault] stands for. *)
Definition check_user_exists (user_id : string) : M bool :=
  try_except
    (let* snap := doc_get ("users", user_id) in
     ret (snapshot_exists snap))
    is_Exception
    (fun e => ret false).

Definition create_new_user (user_id : string) (data : gmap string wval) : M bool :=
  try_except
    (let initial_data : gmap string wval :=
       <["sessionCookie" := wdict_get "sessionCookie" (WStr "") data]>
         {[ "Events_URL" := wdict_get "Events_URL" (WStr "") data ]} in
     doc_set ("users", user_id) initial_data >>
     ret true)
    is_Exception
    (fun e => raise (HTTPException 500 "Failed to create new user")).

Definition updateUser (collection_name document_id field_name field_value : string) : M bool :=
  try_except
    (let user_id := document_id in
     let* user_exists := check_user_exists user_id in
     let data : gmap string wval :=
       <["last_updated" := SERVER_TIMESTAMP]> {[ field_name := WStr field_value ]} in
     if negb user_exists then create_new_user user_id data
     else
       doc_update (collection_name, user_id) data >>
       ret true)
    is_Exception
    (fun e => raise (HTTPException 500 "Failed to process user data")).

(** *** The endpoint *)

(** [verify_token] (main.py 343-349) *)
Definition verify_token (token : string) : M (list (string * json)) :=
  match verify_id_token env token with
  | Some decoded_token => ret decoded_token
  | None => raise (HTTPException 401 "Invalid authentication credentials")
  end.

Definition user_data_of (query_data : SalesNavQueryData) : gmap string wval :=
  <["sessionCookie" := WStr (q_cookie query_data)]>
    {[ "Events_URL" := WStr (q_url query_data) ]}.

(** [search_sales_navigator] (main.py 365-427) *)
Definition search_sales_navigator (query_data : SalesNavQueryData)
    (user : list (string * json)) : M scrape_result :=
  try_except
    (if negb (py_truthy (JDict user)) || negb (dict_mem "uid" user) then
       raise (HTTPException 400 "Invalid user data")
     else
       let* phantom_client := new_client in
       let* uid := subscript (JDict user) "uid" in
       let user_id := py_str uid in
       let* user_doc_ref := document "users" user_id in
       let* phantom_id := get_available_phantom phantom_client in
       let* container_id :=
         trigger_phantom phantom_client phantom_id
           (q_cookie query_data) (q_url query_data) in
       check_container_status phantom_client container_id >>
       let* results := fetch_and_clean_data container_id phantom_client in
       try_except
         (let user_data := user_data_of query_data in
          let* user_doc := doc_get user_doc_ref in
          if negb (snapshot_exists user_doc) then doc_set user_doc_ref user_data
          else doc_update user_doc_ref user_data)
         is_Exception
         (fun e =>
            raise (HTTPException 500 ("Failed to handle user document: " +:+ exc_str e))) >>
       ret (mkResult results user_id (q_url query_data)))
    (fun e => negb (is_HTTPException e))
    (fun e => raise (HTTPException 500 ("Internal server error: " +:+ exc_str e))).

(** [POST /scrape] with its [Depends(verify_token)]. *)
Definition scrape (token : string) (query_data : SalesNavQueryData) : M scrape_result :=
  let* user := verify_token token in
  search_sales_navigator query_data user.

End Program.

(** ** Vocabulary of the statements *)

Section Vocabulary.

Context {RT : Runtime}.

Definition agent_request (self : PhantomBusterClient) (phantom_id : string) : request :=
  GET (agent_url self phantom_id) (headers self).

Definition launch_request (self : PhantomBusterClient)
    (phantom_id linkedin_cookies search_url : string) : request :=
  POST (launch_url self) (launch_payload phantom_id linkedin_cookies search_url)
    (headers self).

Definition container_request (self : PhantomBusterClient) (container_id : json) : request :=
  GET (container_url self container_id) (headers self).

Definition result_request (self : PhantomBusterClient) (container_id : json) : request :=
  GET (result_url self container_id) (headers self).

(** The ["status"] a 200 answer with an object body carries ([None] of
    Python, here [JNull], when the key is missing). *)
Definition status_of (rp : reply) : option json :=
  match rp with
  | Response r =>
      if Z.eqb (status_code r) 200 then
        match json_loads (text r) with
        | Some (JDict items) => Some (dict_get "status" JNull items)
        | _ => None
        end
      else None
  | ConnectionError _ => None
  end.

(** The provider answered, with a status code other than 200. *)
Definition error_response (rp : reply) : bool :=
  match rp with
  | Response r => negb (Z.eqb (status_code r) 200)
  | ConnectionError _ => false
  end.

Definition reports_running (rp : reply) : bool :=
  match status_of rp with
  | Some s => eq_str s "RUNNING"
  | None => false
  end.

(** A job status that is neither ["finished"] nor ["failed"]. *)
Definition reports_pending (rp : reply) : bool :=
  match status_of rp with
  | Some s => negb (eq_str s "finished") && negb (eq_str s "failed")
  | None => false
  end.

Definition reports_finished (rp : reply) : bool :=
  match status_of rp with
  | Some s => eq_str s "finished"
  | None => false
  end.

(** The launch was refused with the "maximum parallelism reached" condition. *)
Definition max_parallelism (rp : reply) : bool :=
  match rp with
  | Response r =>
      negb (Z.eqb (status_code r) 200)
      && match json_loads (text r) with
         | Some error_data => str_contains "maxParallelismReached" (py_str error_data)
         | None => false
         end
  | ConnectionError _ => false
  end.

(** The world after one status check of a worker that was answered "busy". *)
Definition after_busy_check (self : PhantomBusterClient) (phantom_id : string)
    (attempt : nat) (w : world) : world :=
  let w' := log_event (Request (agent_request self phantom_id)) w in
  if Nat.ltb attempt (max_retries self - 1) then slept (retry_delay self) w' else w'.

(** The effects of the checks [attempts] of one worker that is busy throughout. *)
Definition busy_trace (self : PhantomBusterClient) (phantom_id : string)
    (attempts : list nat) : list event :=
  flat_map
    (fun attempt =>
       Request (agent_request self phantom_id)
       :: (if Nat.ltb attempt (max_retries self - 1) then [Sleep (retry_delay self)] else []))
    attempts.

Definition pool_busy_trace (self : PhantomBusterClient) (ids : list string) : list event :=
  flat_map (fun phantom_id => busy_trace self phantom_id (seq 0 (max_retries self))) ids.

Definition count_requests (evs : list event) : nat :=
  length (List.filter is_request evs).

(** A status check answered "busy", or by a provider error. *)
Definition busy_reply (rp : reply) : bool :=
  reports_running rp || error_response rp.

(** Worker after worker, from tick [t] on, each of the [max_retries] status
    checks of each worker is answered by a reply satisfying [P]. *)
Fixpoint pool_answers (env : environment) (P : reply -> bool)
    (self : PhantomBusterClient) (t : nat) (ids : list string) : Prop :=
  match ids with
  | [] => True
  | phantom_id :: rest =>
      (forall i, (i < max_retries self)%nat ->
                 P (respond env (t + i) (agent_request self phantom_id)) = true)
      /\ pool_answers env P self (t + max_retries self) rest
  end.

(** The effects of launch attempts that are all refused and retried. *)
Definition launch_trace (self : PhantomBusterClient) (rq : request)
    (attempts : list nat) : list event :=
  flat_map
    (fun attempt =>
       Request rq
       :: (if Nat.ltb attempt (max_retries self - 1) then [Sleep (retry_delay self)] else []))
    attempts.

(** The effects of [n] polls of a job that is still going. *)
Fixpoint poll_trace (rq : request) (n : nat) : list event :=
  match n with
  | O => []
  | S n' => Request rq :: Sleep 10 :: poll_trace rq n'
  end.

(** The value the normalizer works on: the result field, decoded when it is a
    string.  [None] when the field is null or is a string that does not decode. *)
Definition decoded_result (result : json) : option json :=
  match result with
  | JNull => None
  | JStr s => json_loads s
  | _ => Some result
  end.

(** The result field of a 200 answer with an object body. *)
Definition result_field (rp : reply) : option json :=
  match rp with
  | Response r =>
      if Z.eqb (status_code r) 200 then
        match json_loads (text r) with
        | Some (JDict items) => Some (dict_get "resultObject" JNull items)
        | _ => None
        end
      else None
  | ConnectionError _ => None
  end.

(** [w'] comes after [w] with the session store left alone: same documents,
    and the effects added to the trace are no store calls. *)
Definition extends (w w' : world) : Prop :=
  store w' = store w
  /\ exists evs,
       trace w' = trace w ++ evs
       /\ List.filter is_store_event evs = [].

(** A computation that leaves the session store alone. *)
Definition quiet {A} (m : M A) : Prop :=
  forall w, extends w (snd (m w)).

End Vocabulary.

(** ** One pass of each retry loop, as a function of the reply

    What one pass through the body of a loop does once the reply to its
    request is known: leave the loop with a value, leave it with an
    exception, or go on to the next pass (after a sleep or not).  The passes
    are proved equal to the loops of the program below
    ([wait_attempts_pass], [launch_attempts_pass], [poll_attempts_pass]). *)

Inductive pass (A : Type) : Type :=
| Leave (a : A)
| Fail (e : exn)
| Again (sleeps : bool).
Arguments Leave {A} a.
Arguments Fail {A} e.
Arguments Again {A} sleeps.

Section Passes.

Context {RT : Runtime}.

Definition wait_pass (self : PhantomBusterClient) (attempt : nat) (rp : reply) : pass bool :=
  match rp with
  | ConnectionError msg => Fail (RequestException msg)
  | Response r =>
      if negb (Z.eqb (status_code r) 200) then Again (Nat.ltb attempt (max_retries self - 1))
      else
        match json_loads (text r) with
        | None => Fail (RequestException "JSONDecodeError")
        | Some (JDict items) =>
            if eq_str (dict_get "status" JNull items) "RUNNING"
            then Again (Nat.ltb attempt (max_retries self - 1))
            else Leave true
        | Some _ => Fail (PyError "AttributeError" "get")
        end
  end.

Definition launch_pass (self : PhantomBusterClient) (attempt : nat) (rp : reply) : pass json :=
  let network_error (e : exn) : pass json :=
    if Nat.eqb attempt (max_retries self - 1)
    then Fail (HTTPException 500 ("Network error launching phantom: " +:+ exc_str e))
    else Again true in
  match rp with
  | ConnectionError msg => network_error (RequestException msg)
  | Response r =>
      match json_loads (text r) with
      | None => network_error (RequestException "JSONDecodeError")
      | Some body =>
          if Z.eqb (status_code r) 200 then
            match body with
            | JDict items =>
                match dict_lookup "containerId" items with
                | Some cid => Leave cid
                | None => Fail (PyError "KeyError" "containerId")
                end
            | _ => Fail (PyError "TypeError" "subscript")
            end
          else if str_contains "maxParallelismReached" (py_str body)
                  && Nat.ltb attempt (max_retries self - 1)
          then Again true
          else Fail (HTTPException 500 ("Error launching phantom: " +:+ text r))
      end
  end.

Definition poll_pass (rp : reply) : pass unit :=
  match rp with
  | ConnectionError msg => Again true
  | Response r =>
      if negb (Z.eqb (status_code r) 200) then
        Fail (HTTPException 500 ("Failed to check container status: " +:+ text r))
      else
        match json_loads (text r) with
        | None => Again true
        | Some (JDict items) =>
            if eq_str (dict_get "status" JNull items) "finished" then Leave tt
            else if eq_str (dict_get "status" JNull items) "failed" then
              Fail (HTTPException 500
                      ("Container execution failed: "
                       +:+ py_str (dict_get "error" (JStr "Unknown error") items)))
            else Again true
        | Some _ => Fail (PyError "AttributeError" "get")
        end
  end.

(** The world after a pass over request [rq] that goes on. *)
Definition after_pass (rq : request) (sleeps : bool) (seconds : Z) (w : world) : world :=
  if sleeps then slept seconds (log_event (Request rq) w) else log_event (Request rq) w.

(** The outcome of a loop whose first pass is [p] and whose later passes are [rest]. *)
Definition run_pass {A} (p : pass A) (rq : request) (seconds : Z)
    (rest : M A) (w : world) : outcome A * world :=
  match p with
  | Leave a => (Return a, log_event (Request rq) w)
  | Fail e => (Raise e, log_event (Request rq) w)
  | Again sleeps => rest (after_pass rq sleeps seconds w)
  end.

Definition count_sleeps (evs : list event) : nat :=
  length (List.filter (fun ev => match ev with Sleep _ => true | _ => false end) evs).

(** Every exception a computation can raise satisfies [P]. *)
Definition raises_only {A} (P : exn -> Prop) (m : M A) : Prop :=
  forall w e w', m w = (Raise e, w') -> P e.

(** An exception that, when it is an [HTTPException], has one of the status
    codes [codes]. *)
Definition http_codes (codes : list Z) (e : exn) : Prop :=
  match e with
  | HTTPException code _ => In code codes
  | _ => True
  end.

(** The job reported ["failed"], with the error message read from the body. *)
Definition reports_failed (rp : reply) : option json :=
  match rp with
  | Response r =>
      if Z.eqb (status_code r) 200 then
        match json_loads (text r) with
        | Some (JDict items) =>
            if eq_str (dict_get "status" JNull items) "failed"
            then Some (dict_get "error" (JStr "Unknown error") items)
            else None
        | _ => None
        end
      else None
  | ConnectionError _ => None
  end.

(** A poll that is neither a terminal status nor fatal: a status other than
    ["finished"] and ["failed"], a transport error, or a 200 answer whose body
    is not JSON. *)
Definition keeps_polling (rp : reply) : bool :=
  match rp with
  | ConnectionError _ => true
  | Response r =>
      Z.eqb (status_code r) 200
      && match json_loads (text r) with
         | None => true
         | Some (JDict items) =>
             negb (eq_str (dict_get "status" JNull items) "finished")
             && negb (eq_str (dict_get "status" JNull items) "failed")
         | Some _ => false
         end
  end.

(** A status check that finds the worker available: a 200 answer with an
    object body whose status is not ["RUNNING"]. *)
Definition reports_available (rp : reply) : bool :=
  match status_of rp with
  | Some s => negb (eq_str s "RUNNING")
  | None => false
  end.

(** The launch was accepted with container id [cid]. *)
Definition launch_accepted (rp : reply) : option json :=
  match rp with
  | Response r =>
      if Z.eqb (status_code r) 200 then
        match json_loads (text r) with
        | Some (JDict items) => dict_lookup "containerId" items
        | _ => None
        end
      else None
  | ConnectionError _ => None
  end.

(** The request did not get an answer. *)
Definition transport_error (rp : reply) : bool :=
  match rp with
  | ConnectionError _ => true
  | Response _ => false
  end.

(** A launch attempt that is retried when it is not the last one: refused
    for parallelism, or failed in transport. *)
Definition launch_retriable (rp : reply) : bool :=
  max_parallelism rp || transport_error rp.

Definition is_object (v : json) : bool :=
  match v with
  | JDict _ => true
  | _ => false
  end.

(** The keys [process_profile] reads from a raw record. *)
Definition profile_source_keys : list string :=
  [ "firstName"; "lastName"; "title"; "companyName"; "industry";
    "companyLocation"; "location"; "connectionDegree"; "profileImageUrl";
    "sharedConnectionsCount"; "defaultProfileUrl"; "CompanyUrl";
    "regularCompanyUrl" ].

(** The fields copied as they are: the key read and the key written. *)
Definition profile_direct_fields : list (string * string) :=
  [ ("firstName", "firstName"); ("lastName", "lastName"); ("title", "title");
    ("companyName", "companyName"); ("industry", "industry");
    ("companyLocation", "companyLocation"); ("location", "profileLocation");
    ("connectionDegree", "connectionDegree"); ("profileImageUrl", "profileImageUrl");
    ("sharedConnectionsCount", "sharedConnectionsCount");
    ("defaultProfileUrl", "defaultProfileUrl") ].

(** A computation whose calls to the session store all come after its last
    request, with at most one write among them, and which leaves the store
    as it was when it raises. *)
Definition ends_with_session {A} (m : M A) : Prop :=
  forall w,
    exists pre post,
      trace (snd (m w)) = trace w ++ pre ++ post
      /\ List.filter is_store_event pre = []
      /\ List.filter is_request post = []
      /\ (length (List.filter is_store_write post) <= 1)%nat
      /\ (forall e, fst (m w) = Raise e -> store (snd (m w)) = store w).

End Passes.

(** ** Concrete runs

    A reference runtime and scripted environments, used to run the model on
    concrete inputs.  The runtime is exact on the values that occur below:
    objects, lists, [null], and strings without quotes or escapes. *)

Module Fixture.

Definition dq : string := String "034"%char EmptyString.

Definition join (sep : string) (parts : list string) : string :=
  match parts with
  | [] => ""
  | p :: ps => fold_left (fun acc x => acc +:+ sep +:+ x) ps p
  end.

Definition decimal (z : Z) : string := NilZero.string_of_int (Z.to_int z).

(** The JSON text of a value (floats do not occur below). *)
Fixpoint dumps (v : json) : string :=
  match v with
  | JNull => "null"
  | JBool true => "true"
  | JBool false => "false"
  | JInt z => decimal z
  | JFloat _ => ""
  | JStr s => dq +:+ s +:+ dq
  | JList items => "[" +:+ join ", " (map dumps items) +:+ "]"
  | JDict items =>
      "{" +:+ join ", " (map (fun kv => dq +:+ fst kv +:+ dq +:+ ": " +:+ dumps (snd kv)) items)
      +:+ "}"
  end.

(** [repr(v)] *)
Fixpoint repr (v : json) : string :=
  match v with
  | JNull => "None"
  | JBool true => "True"
  | JBool false => "False"
  | JInt z => decimal z
  | JFloat _ => ""
  | JStr s => "'" +:+ s +:+ "'"
  | JList items => "[" +:+ join ", " (map repr items) +:+ "]"
  | JDict items =>
      "{" +:+ join ", " (map (fun kv => "'" +:+ fst kv +:+ "': " +:+ repr (snd kv)) items)
      +:+ "}"
  end.

Definition str (v : json) : string :=
  match v with
  | JStr s => s
  | _ => repr v
  end.

Definition str_of_exn (e : exn) : string :=
  match e with
  | HTTPException code detail => decimal code +:+ ": " +:+ detail
  | RequestException msg => msg
  | PyError _ msg => msg
  end.

(** Provider bodies. *)
Definition running : json := JDict [("status", JStr "RUNNING")].
Definition idle : json := JDict [("status", JStr "idle")].
Definition launched : json := JDict [("containerId", JStr "J1")].
Definition job_running : json := JDict [("status", JStr "running")].
Definition job_finished : json := JDict [("status", JStr "finished")].
Definition parallelism : json :=
  JDict [("status", JStr "error"); ("error", JStr "maxParallelismReached")].

Definition raw_record : json :=
  JDict [("firstName", JStr "A"); ("lastName", JStr "B"); ("CompanyUrl", JStr "x")].
Definition other_record : json :=
  JDict [("firstName", JStr "C"); ("CompanyUrl", JStr ""); ("regularCompanyUrl", JStr "y")].

Definition payload_null : json := JDict [("resultObject", JNull)].
Definition payload_null_text : json := JDict [("resultObject", JStr "null")].
Definition payload_object : json := JDict [("resultObject", raw_record)].
Definition payload_indirect : json :=
  JDict [("resultObject", JDict [("jsonUrl", JStr "https://cache.example/result.json")])].
Definition two_records : json := JList [raw_record; other_record].
Definition two_empty : json := JList [JDict []; JDict []].
Definition payload_two_text : json := JDict [("resultObject", JStr "[{}, {}]")].
Definition payload_one_text : json := JDict [("resultObject", JStr "{}")].

Definition known : list json :=
  [ running; idle; launched; job_running; job_finished; parallelism;
    payload_null; payload_null_text; payload_object; payload_indirect;
    payload_two_text; payload_one_text; two_records; two_empty;
    JNull; JList []; JDict [] ].

(** [json.loads] on the texts of the known values. *)
Definition loads (s : string) : option json :=
  List.find (fun v => String.eqb (dumps v) s) known.

(** The number of elements of a path: one more than its slashes. *)
Fixpoint path_elements (s : string) : nat :=
  match s with
  | EmptyString => 1
  | String c rest =>
      if Ascii.eqb c "/"%char then S (path_elements rest) else path_elements rest
  end.

(** The check the Firestore client makes on the path of a collection (an odd
    number of elements) and on the path of a document in it (an even one). *)
Definition path_error (collection_name document_id : string) : option string :=
  if Nat.even (path_elements collection_name) then
    Some "A collection must have an odd number of path elements"
  else if Nat.even (path_elements document_id) then
    Some "A document must have an even number of path elements"
  else None.

Definition runtime : Runtime := mkRuntime loads str str_of_exn path_error.

Definition ok (body : json) : reply := Response (mkResponse 200 (dumps body)).
Definition refused (code : Z) (body : json) : reply := Response (mkResponse code (dumps body)).

(** An environment that answers the call made at tick [n] with the [n]-th
    reply of a script. *)
Definition scripted (script : list reply) : environment :=
  mkEnv (Some "key-1")
    (fun n _ => nth n script (ConnectionError "unscripted"))
    (fun _ => None)
    (fun token => if String.eqb token "good" then Some [("uid", JStr "u1")] else None).

(** An environment that gives every call the same reply. *)
Definition constant (rp : reply) : environment :=
  mkEnv (Some "key-1") (fun _ _ => rp) (fun _ => None)
    (fun token => if String.eqb token "good" then Some [("uid", JStr "u1")] else None).

Definition w0 : world := mkWorld 0 [] ∅.

(** The end-to-end scenario: the first worker idle at once, the launch
    accepted with job id J1, the job finished on the third poll, and a result
    that is a JSON string encoding a list of two objects. *)
Definition happy : environment :=
  scripted [ ok idle; ok launched; ok job_running; ok job_running; ok job_finished;
             ok payload_two_text ].

Definition all_running : environment := constant (ok running).
Definition all_refused : environment := constant (refused 429 parallelism).
Definition all_failing : environment := constant (refused 500 JNull).
Definition unreachable : environment := constant (ConnectionError "connection refused").
Definition never_done : environment := constant (ok job_running).
Definition done_on_third : environment :=
  scripted [ ok job_running; ok job_running; ok job_finished ].
Definition gateway_error : environment :=
  scripted [ ok job_running; refused 502 JNull ].
Definition indirect : environment :=
  scripted [ ok payload_indirect; ok (JList []) ].

Definition client : PhantomBusterClient := init_client "key-1".

Definition query : SalesNavQueryData :=
  mkQuery "https://www.linkedin.com/sales/search/people?query=q" "sess123" "ignored".

Definition user : list (string * json) := [("uid", JStr "u1")].

End Fixture.

(** More provider answers and environments, for the runs of the properties
    of the loops, the normalizer, the endpoint and the user documents. *)

Module Scenario.

Import Fixture.

Definition agent_not_found : json :=
  JDict [("status", JStr "error"); ("error", JStr "Agent not found")].
Definition accepted_without_id : json := JDict [("status", JStr "success")].
Definition job_failed : json :=
  JDict [("status", JStr "failed"); ("error", JStr "Invalid session cookie")].
Definition job_failed_plain : json := JDict [("status", JStr "failed")].
Definition indirect_object : json :=
  JDict [("jsonUrl", JStr "https://cache.example/result.json")].
Definition payload_mixed : json := JDict [("resultObject", JList [JDict []; JInt 7])].
Definition payload_number : json := JDict [("resultObject", JInt 42)].
Definition payload_garbage : json := JDict [("resultObject", JStr "not json")].

Definition known : list json :=
  Fixture.known
  ++ [ agent_not_found; accepted_without_id; job_failed; job_failed_plain;
       indirect_object; payload_mixed; payload_number; payload_garbage ].

(** [json.loads] on the texts of the known values. *)
Definition loads (s : string) : option json :=
  List.find (fun v => String.eqb (dumps v) s) known.

Definition runtime : Runtime := mkRuntime loads str str_of_exn path_error.

Definition first_id : string := "2696753432671290".
Definition second_id : string := "2786592566218024".
Definition third_id : string := "8109199544661391".

(** Two launches retried, the third accepted. *)
Definition accepted_on_third : environment :=
  scripted [ refused 429 parallelism; ConnectionError "timed out"; ok launched ].

(** One launch retried, the next refused for another reason. *)
Definition refused_for_good : environment :=
  scripted [ refused 429 parallelism; refused 404 agent_not_found ].

Definition accepted_with_no_id : environment :=
  scripted [ refused 429 parallelism; ok accepted_without_id ].

(** The first worker busy throughout, the second available on its second check. *)
Definition second_worker_free : environment :=
  scripted [ ok running; refused 500 JNull; ok running; ok running; ok running;
             ok running; ok idle ].

Definition fails_on_second_poll : environment :=
  scripted [ ConnectionError "timed out"; ok job_failed ].
Definition fails_without_message : environment :=
  scripted [ ok job_failed_plain ].

(** Two polls that get no usable answer, then the job finished. *)
Definition done_after_failed_polls : environment :=
  scripted [ ConnectionError "timed out"; ok job_running; ok job_finished ].

Definition indirect_forbidden : environment :=
  scripted [ ok payload_indirect; refused 403 JNull ].
Definition indirect_list : environment :=
  scripted [ ok payload_indirect; ok two_empty ].
Definition indirect_twice : environment :=
  scripted [ ok payload_indirect; ok indirect_object ].


(** A store in which user u1 has a document with one more field. *)
Definition known_user : world :=
  mkWorld 0 []
    {[ ("users", "u1") :=
         <["plan" := FStr "pro"]> {[ "Events_URL" := FStr "https://old.example" ]} ]}.

End Scenario.

(** ** Properties *)

Section Acquisition.

Context {RT : Runtime}.
Variable env : environment.

Lemma status_of_inv rp s :
  status_of rp = Some s ->
  exists r items,
    rp = Response r /\ status_code r = 200
    /\ json_loads (text r) = Some (JDict items)
    /\ dict_get "status" JNull items = s.
Proof.
  unfold status_of. destruct rp as [r|msg]; [|discriminate].
  destruct (Z.eqb_spec (status_code r) 200) as [Hc|Hc]; [|discriminate].
  destruct (json_loads (text r)) as [[]|] eqn:Hl; try discriminate.
  intros [= <-]. eauto 10.
Qed.

Lemma is_phantom_running_status self phantom_id w s :
  status_of (respond env (tick w) (agent_request self phantom_id)) = Some s ->
  is_phantom_running env self phantom_id w
  = (Return (eq_str s "RUNNING"), log_event (Request (agent_request self phantom_id)) w).
Proof.
  intros Hs. apply status_of_inv in Hs as (r & items & Hr & Hc & Hl & Hg).
  unfold is_phantom_running, bind, requests_get, http_call.
  fold (agent_request self phantom_id). rewrite Hr, Hc. simpl.
  unfold resp_json. rewrite Hl. simpl. now rewrite Hg.
Qed.

Lemma is_phantom_running_error self phantom_id w r :
  respond env (tick w) (agent_request self phantom_id) = Response r ->
  status_code r <> 200 ->
  is_phantom_running env self phantom_id w
  = (Raise (HTTPException 500 ("Error checking phantom status: " +:+ text r)),
     log_event (Request (agent_request self phantom_id)) w).
Proof.
  intros Hr Hc.
  unfold is_phantom_running, bind, requests_get, http_call.
  fold (agent_request self phantom_id). rewrite Hr.
  destruct (Z.eqb_spec (status_code r) 200); [contradiction|reflexivity].
Qed.

Lemma is_phantom_running_transport self phantom_id w msg :
  respond env (tick w) (agent_request self phantom_id) = ConnectionError msg ->
  is_phantom_running env self phantom_id w
  = (Raise (RequestException msg),
     log_event (Request (agent_request self phantom_id)) w).
Proof.
  intros Hr.
  unfold is_phantom_running, bind, requests_get, http_call.
  fold (agent_request self phantom_id). now rewrite Hr.
Qed.

(** One check answered RUNNING: the attempt is used up and the loop goes on. *)
Lemma wait_attempts_running self phantom_id attempt rest w :
  reports_running (respond env (tick w) (agent_request self phantom_id)) = true ->
  wait_attempts env self phantom_id (attempt :: rest) w
  = wait_attempts env self phantom_id rest (after_busy_check self phantom_id attempt w).
Proof.
  unfold reports_running.
  destruct (status_of _) as [s|] eqn:Hs; [|discriminate]. intros Hrun.
  cbn [wait_attempts]. unfold bind at 1. unfold try_except, bind at 1.
  rewrite (is_phantom_running_status _ _ _ _ Hs), Hrun. cbn [negb].
  unfold after_busy_check, bind, when.
  destruct (Nat.ltb attempt (max_retries self - 1)); reflexivity.
Qed.

(** One check answered by a provider error: exactly the same continuation. *)
Lemma wait_attempts_error self phantom_id attempt rest w :
  error_response (respond env (tick w) (agent_request self phantom_id)) = true ->
  wait_attempts env self phantom_id (attempt :: rest) w
  = wait_attempts env self phantom_id rest (after_busy_check self phantom_id attempt w).
Proof.
  unfold error_response.
  destruct (respond _ _ _) as [r|msg] eqn:Hr; [|discriminate]. intros Hc.
  assert (status_code r <> 200) as Hne.
  { intros E. rewrite E in Hc. discriminate. }
  cbn [wait_attempts]. unfold bind at 1. unfold try_except, bind at 1.
  rewrite (is_phantom_running_error _ _ _ _ Hr Hne). cbn [is_HTTPException].
  unfold after_busy_check, bind, when.
  destruct (Nat.ltb attempt (max_retries self - 1)); reflexivity.
Qed.

(** A transport error is not caught by [except HTTPException]. *)
Lemma wait_attempts_transport self phantom_id attempt rest w msg :
  respond env (tick w) (agent_request self phantom_id) = ConnectionError msg ->
  wait_attempts env self phantom_id (attempt :: rest) w
  = (Raise (RequestException msg),
     log_event (Request (agent_request self phantom_id)) w).
Proof.
  intros Hr.
  cbn [wait_attempts]. unfold bind at 1. unfold try_except, bind at 1.
  now rewrite (is_phantom_running_transport _ _ _ _ Hr).
Qed.

(** One check answered with a status other than RUNNING: the worker is taken. *)
Lemma wait_attempts_idle self phantom_id attempt rest w s :
  status_of (respond env (tick w) (agent_request self phantom_id)) = Some s ->
  eq_str s "RUNNING" = false ->
  wait_attempts env self phantom_id (attempt :: rest) w
  = (Return true, log_event (Request (agent_request self phantom_id)) w).
Proof.
  intros Hs Hrun.
  cbn [wait_attempts]. unfold bind at 1. unfold try_except, bind at 1.
  now rewrite (is_phantom_running_status _ _ _ _ Hs), Hrun.
Qed.

Lemma wait_attempts_busy_step self phantom_id attempt rest w :
  busy_reply (respond env (tick w) (agent_request self phantom_id)) = true ->
  wait_attempts env self phantom_id (attempt :: rest) w
  = wait_attempts env self phantom_id rest (after_busy_check self phantom_id attempt w).
Proof.
  unfold busy_reply. intros [H|H]%orb_true_iff.
  - now apply wait_attempts_running.
  - now apply wait_attempts_error.
Qed.

Lemma after_busy_check_eq self phantom_id attempt w :
  after_busy_check self phantom_id attempt w
  = mkWorld (S (tick w)) (trace w ++ busy_trace self phantom_id [attempt]) (store w).
Proof.
  unfold after_busy_check, busy_trace, log_event, slept. cbn [flat_map].
  rewrite app_nil_r.
  destruct (Nat.ltb attempt (max_retries self - 1)); cbn [tick trace store].
  - now rewrite <- app_assoc.
  - reflexivity.
Qed.

Lemma busy_trace_cons self phantom_id attempt rest :
  busy_trace self phantom_id (attempt :: rest)
  = busy_trace self phantom_id [attempt] ++ busy_trace self phantom_id rest.
Proof. unfold busy_trace. cbn [flat_map]. now rewrite app_nil_r. Qed.

(** A worker that answers busy to every check is given up after all of them. *)
Lemma wait_attempts_busy self phantom_id attempts :
  forall w,
    (forall i, (i < length attempts)%nat ->
               busy_reply (respond env (tick w + i) (agent_request self phantom_id)) = true) ->
    wait_attempts env self phantom_id attempts w
    = (Return false,
       mkWorld (tick w + length attempts)
         (trace w ++ busy_trace self phantom_id attempts) (store w)).
Proof.
  induction attempts as [|attempt rest IH]; intros w Hbusy.
  - cbn. unfold ret. rewrite Nat.add_0_r, app_nil_r. now destruct w.
  - rewrite wait_attempts_busy_step.
    2:{ specialize (Hbusy 0%nat). rewrite Nat.add_0_r in Hbusy.
        apply Hbusy. cbn. lia. }
    rewrite after_busy_check_eq, IH; cbn [tick trace store].
    + rewrite (busy_trace_cons _ _ attempt rest), <- app_assoc.
      do 2 f_equal. cbn [length]. lia.
    + intros i Hi. replace (S (tick w) + i)%nat with (tick w + S i)%nat by lia.
      apply Hbusy. cbn. lia.
Qed.

(** A pool that answers busy throughout is exhausted: 503 after every check
    of every worker. *)
Lemma first_available_busy self ids :
  forall w,
    pool_answers env busy_reply self (tick w) ids ->
    first_available env self ids w
    = (Raise (HTTPException 503 "All phantoms are busy and maximum retry attempts reached"),
       mkWorld (tick w + length ids * max_retries self)
         (trace w ++ pool_busy_trace self ids) (store w)).
Proof.
  induction ids as [|phantom_id rest IH]; intros w Hpool.
  - cbn. unfold raise. rewrite Nat.add_0_r, app_nil_r. now destruct w.
  - destruct Hpool as [Hhere Hrest].
    cbn [first_available]. unfold bind, wait_for_phantom_availability.
    rewrite wait_attempts_busy by (rewrite length_seq; exact Hhere).
    rewrite length_seq, IH by exact Hrest. cbn [tick trace store].
    unfold pool_busy_trace. cbn [flat_map length]. rewrite <- app_assoc.
    do 2 f_equal. lia.
Qed.

Lemma count_requests_app evs evs' :
  count_requests (evs ++ evs') = (count_requests evs + count_requests evs')%nat.
Proof. unfold count_requests. now rewrite List.filter_app, length_app. Qed.

Lemma count_requests_busy_trace self phantom_id attempts :
  count_requests (busy_trace self phantom_id attempts) = length attempts.
Proof.
  induction attempts as [|attempt rest IH]; [reflexivity|].
  rewrite busy_trace_cons, count_requests_app, IH.
  unfold busy_trace. cbn [flat_map]. rewrite app_nil_r.
  destruct (Nat.ltb attempt (max_retries self - 1)); reflexivity.
Qed.

Lemma count_requests_pool_busy_trace self ids :
  count_requests (pool_busy_trace self ids) = (length ids * max_retries self)%nat.
Proof.
  induction ids as [|phantom_id rest IH]; [reflexivity|].
  unfold pool_busy_trace in *. cbn [flat_map length].
  rewrite count_requests_app, IH, count_requests_busy_trace, length_seq. lia.
Qed.

End Acquisition.

Section Launch.

Context {RT : Runtime}.
Variable env : environment.
Variable self : PhantomBusterClient.
Variables (url : string) (payload : json).

Let rq : request := POST url payload (headers self).

Lemma max_parallelism_inv rp :
  max_parallelism rp = true ->
  exists r error_data,
    rp = Response r /\ status_code r <> 200
    /\ json_loads (text r) = Some error_data
    /\ str_contains "maxParallelismReached" (py_str error_data) = true.
Proof.
  unfold max_parallelism. destruct rp as [r|msg]; [|discriminate].
  intros [Hc Hb]%andb_true_iff.
  destruct (json_loads (text r)) as [error_data|] eqn:Hl; [|discriminate].
  exists r, error_data. split; [reflexivity|]. split; [|split; [exact Hl|exact Hb]].
  intros E. rewrite E in Hc. discriminate.
Qed.

(** Refused for parallelism with attempts left: wait and try again. *)
Lemma launch_attempts_retry attempt rest w :
  max_parallelism (respond env (tick w) rq) = true ->
  Nat.ltb attempt (max_retries self - 1) = true ->
  launch_attempts env self url payload (attempt :: rest) w
  = launch_attempts env self url payload rest
      (slept (retry_delay self) (log_event (Request rq) w)).
Proof.
  intros (r & error_data & Hr & Hc & Hl & Hm)%max_parallelism_inv Hlt.
  cbn [launch_attempts]. unfold bind at 1. unfold try_except, bind at 1.
  unfold requests_post, http_call. fold rq. rewrite Hr.
  destruct (Z.eqb_spec (status_code r) 200) as [E|_]; [contradiction|].
  unfold bind at 1. unfold resp_json. rewrite Hl. unfold ret at 1.
  rewrite Hm, Hlt. reflexivity.
Qed.

(** Refused for parallelism on the last attempt: the guard of the [continue]
    fails and control falls through to the [raise] of the 500. *)
Lemma launch_attempts_last attempt rest w r :
  respond env (tick w) rq = Response r ->
  max_parallelism (Response r) = true ->
  Nat.ltb attempt (max_retries self - 1) = false ->
  launch_attempts env self url payload (attempt :: rest) w
  = (Raise (HTTPException 500 ("Error launching phantom: " +:+ text r)),
     log_event (Request rq) w).
Proof.
  intros Hr (r' & error_data & [= <-] & Hc & Hl & Hm)%max_parallelism_inv Hlt.
  cbn [launch_attempts]. unfold bind at 1. unfold try_except, bind at 1.
  unfold requests_post, http_call. fold rq. rewrite Hr.
  destruct (Z.eqb_spec (status_code r) 200) as [E|_]; [contradiction|].
  unfold bind at 1. unfold resp_json. rewrite Hl. unfold ret at 1.
  rewrite Hm, Hlt. reflexivity.
Qed.

Lemma launch_trace_cons attempt rest :
  launch_trace self rq (attempt :: rest)
  = launch_trace self rq [attempt] ++ launch_trace self rq rest.
Proof. unfold launch_trace. cbn [flat_map]. now rewrite app_nil_r. Qed.

(** Every remaining attempt refused for parallelism: the last one raises the
    500 of the fall-through, after a request per attempt. *)
Lemma launch_attempts_all_refused n :
  forall a w,
    (a + S n = max_retries self)%nat ->
    (forall i, (i <= n)%nat -> max_parallelism (respond env (tick w + i) rq) = true) ->
    exists r,
      respond env (tick w + n) rq = Response r
      /\ launch_attempts env self url payload (seq a (S n)) w
         = (Raise (HTTPException 500 ("Error launching phantom: " +:+ text r)),
            mkWorld (tick w + S n)
              (trace w ++ launch_trace self rq (seq a (S n))) (store w)).
Proof.
  induction n as [|n IH]; intros a w Ha Hall.
  - pose proof (Hall 0%nat (Nat.le_refl _)) as H0. rewrite Nat.add_0_r in *.
    destruct (max_parallelism_inv _ H0) as (r & _ & Hr & _).
    exists r. split; [exact Hr|].
    assert (Nat.ltb a (max_retries self - 1) = false) as Hlt
      by (apply Nat.ltb_ge; lia).
    cbn [seq]. rewrite (launch_attempts_last _ _ _ r Hr) by (rewrite <- ?Hr; auto).
    unfold log_event, launch_trace. cbn [flat_map]. rewrite Hlt, app_nil_r.
    do 2 f_equal. lia.
  - pose proof (Hall 0%nat (Nat.le_0_l _)) as H0. rewrite Nat.add_0_r in H0.
    assert (Nat.ltb a (max_retries self - 1) = true) as Hlt
      by (apply Nat.ltb_lt; lia).
    destruct (IH (S a) (slept (retry_delay self) (log_event (Request rq) w)))
      as (r & Hr & Hrun).
    { lia. }
    { intros i Hi. cbn [slept log_event tick].
      replace (S (tick w) + i)%nat with (tick w + S i)%nat by lia.
      apply Hall. lia. }
    cbn [slept log_event tick] in Hr.
    replace (S (tick w) + n)%nat with (tick w + S n)%nat in Hr by lia.
    exists r. split; [exact Hr|].
    change (seq a (S (S n))) with (a :: seq (S a) (S n)).
    rewrite launch_attempts_retry by assumption. rewrite Hrun.
    rewrite (launch_trace_cons a). cbn [slept log_event tick trace store].
    unfold launch_trace at 2. cbn [flat_map]. rewrite Hlt, app_nil_r.
    rewrite <- !app_assoc. cbn [app]. do 2 f_equal. lia.
Qed.

Lemma count_requests_launch_trace attempts :
  count_requests (launch_trace self rq attempts) = length attempts.
Proof.
  induction attempts as [|attempt rest IH]; [reflexivity|].
  rewrite launch_trace_cons, count_requests_app, IH.
  unfold launch_trace. cbn [flat_map]. rewrite app_nil_r.
  destruct (Nat.ltb attempt (max_retries self - 1)); reflexivity.
Qed.

End Launch.

Section Polling.

Context {RT : Runtime}.
Variable env : environment.
Variable self : PhantomBusterClient.
Variable url : string.

Let rq : request := GET url (headers self).

(** A poll answered with a status that is not terminal: one attempt is used
    up, ten seconds pass, and polling goes on. *)
Lemma poll_attempts_pending remaining w :
  reports_pending (respond env (tick w) rq) = true ->
  poll_attempts env self url (S remaining) w
  = poll_attempts env self url remaining (slept 10 (log_event (Request rq) w)).
Proof.
  unfold reports_pending.
  destruct (status_of _) as [s|] eqn:Hs; [|discriminate].
  intros [Hfin Hfail]%andb_true_iff.
  apply status_of_inv in Hs as (r & items & Hr & Hc & Hl & Hg).
  cbn [poll_attempts]. unfold bind at 1. unfold try_except, bind at 1.
  unfold requests_get, http_call. fold rq. rewrite Hr, Hc. cbn [Z.eqb Pos.eqb negb].
  unfold bind at 1. unfold resp_json at 1. rewrite Hl. unfold ret at 1.
  unfold bind at 1. cbn [method_get]. unfold ret at 1. rewrite Hg.
  apply negb_true_iff in Hfin, Hfail. rewrite Hfin, Hfail. reflexivity.
Qed.

(** A poll that fails in transport: the same continuation. *)
Lemma poll_attempts_transport remaining w msg :
  respond env (tick w) rq = ConnectionError msg ->
  poll_attempts env self url (S remaining) w
  = poll_attempts env self url remaining (slept 10 (log_event (Request rq) w)).
Proof.
  intros Hr.
  cbn [poll_attempts]. unfold bind at 1. unfold try_except, bind at 1.
  unfold requests_get, http_call. fold rq. rewrite Hr. reflexivity.
Qed.

(** A poll answered with a status code other than 200: the 500 raised inside
    the [try] is not a [RequestException] and leaves the loop at once. *)
Lemma poll_attempts_error remaining w r :
  respond env (tick w) rq = Response r ->
  status_code r <> 200 ->
  poll_attempts env self url (S remaining) w
  = (Raise (HTTPException 500 ("Failed to check container status: " +:+ text r)),
     log_event (Request rq) w).
Proof.
  intros Hr Hc.
  cbn [poll_attempts]. unfold bind at 1. unfold try_except, bind at 1.
  unfold requests_get, http_call. fold rq. rewrite Hr.
  destruct (Z.eqb_spec (status_code r) 200); [contradiction|reflexivity].
Qed.

(** A poll answered ["finished"]: the function returns. *)
Lemma poll_attempts_finished remaining w :
  reports_finished (respond env (tick w) rq) = true ->
  poll_attempts env self url (S remaining) w
  = (Return tt, log_event (Request rq) w).
Proof.
  unfold reports_finished.
  destruct (status_of _) as [s|] eqn:Hs; [|discriminate]. intros Hfin.
  apply status_of_inv in Hs as (r & items & Hr & Hc & Hl & Hg).
  cbn [poll_attempts]. unfold bind at 1. unfold try_except, bind at 1.
  unfold requests_get, http_call. fold rq. rewrite Hr, Hc. cbn [Z.eqb Pos.eqb negb].
  unfold bind at 1. unfold resp_json at 1. rewrite Hl. unfold ret at 1.
  unfold bind at 1. cbn [method_get]. unfold ret at 1. rewrite Hg, Hfin.
  reflexivity.
Qed.

(** [j] polls in a row answered with a status that is not terminal. *)
Lemma poll_attempts_pending_run j :
  forall remaining w,
    (forall i, (i < j)%nat -> reports_pending (respond env (tick w + i) rq) = true) ->
    poll_attempts env self url (j + remaining) w
    = poll_attempts env self url remaining
        (mkWorld (tick w + j) (trace w ++ poll_trace rq j) (store w)).
Proof.
  induction j as [|j IH]; intros remaining w Hpend.
  - cbn. rewrite Nat.add_0_r, app_nil_r. now destruct w.
  - cbn [Nat.add]. rewrite poll_attempts_pending.
    2:{ specialize (Hpend 0%nat). rewrite Nat.add_0_r in Hpend. apply Hpend. lia. }
    rewrite IH.
    + cbn [slept log_event tick trace store poll_trace].
      rewrite <- !app_assoc. cbn [app]. do 2 f_equal. lia.
    + intros i Hi. cbn [slept log_event tick].
      replace (S (tick w) + i)%nat with (tick w + S i)%nat by lia.
      apply Hpend. lia.
Qed.

Lemma count_requests_poll_trace n : count_requests (poll_trace rq n) = n.
Proof.
  induction n as [|n IH]; [reflexivity|].
  unfold count_requests in *. cbn. now rewrite IH.
Qed.

End Polling.

Section Normalizer.

Context {RT : Runtime}.
Variable env : environment.
Variable phantom_client : PhantomBusterClient.
Variable container_id : json.

Let rq : request := result_request phantom_client container_id.

Lemma result_field_inv rp result :
  result_field rp = Some result ->
  exists r items,
    rp = Response r /\ status_code r = 200
    /\ json_loads (text r) = Some (JDict items)
    /\ dict_get "resultObject" JNull items = result.
Proof.
  unfold result_field. destruct rp as [r|msg]; [|discriminate].
  destruct (Z.eqb_spec (status_code r) 200) as [Hc|Hc]; [|discriminate].
  destruct (json_loads (text r)) as [[]|] eqn:Hl; try discriminate.
  intros [= <-]. eauto 10.
Qed.

(** The projection never fails on an object, and touches nothing. *)
Lemma process_profile_object item w :
  exists p, process_profile (JDict item) w = (Return p, w)
            /\ map fst p = LinkedInProfile_fields.
Proof. eexists. split; reflexivity. Qed.

(** Enters [fetch_and_clean_data] up to its [try] block, given the answer to
    the result request. *)
Ltac enter_fetch Hr Hc Hl Hg :=
  unfold fetch_and_clean_data; unfold bind at 1;
  unfold requests_get, http_call;
  change (GET (result_url phantom_client container_id) (headers phantom_client)) with rq;
  rewrite Hr, Hc; cbn [Z.eqb Pos.eqb negb];
  unfold try_except at 1; unfold bind at 1; unfold resp_json at 1;
  rewrite Hl; unfold ret at 1;
  unfold bind at 1; cbn [method_get]; unfold ret at 1; rewrite Hg.

(** A null (or missing) result field is refused. *)
Lemma fetch_and_clean_data_null_field w :
  result_field (respond env (tick w) rq) = Some JNull ->
  fetch_and_clean_data env container_id phantom_client w
  = (Raise (HTTPException 500
              ("Error processing data: "
               +:+ exc_str (HTTPException 500 "No data received from PhantomBuster"))),
     log_event (Request rq) w).
Proof.
  intros (r & items & Hr & Hc & Hl & Hg)%result_field_inv.
  enter_fetch Hr Hc Hl Hg. reflexivity.
Qed.

(** A result field that is a string decoding to null gives no record. *)
Lemma fetch_and_clean_data_null_text w s :
  result_field (respond env (tick w) rq) = Some (JStr s) ->
  json_loads s = Some JNull ->
  fetch_and_clean_data env container_id phantom_client w
  = (Return [], log_event (Request rq) w).
Proof.
  intros (r & items & Hr & Hc & Hl & Hg)%result_field_inv Hs.
  enter_fetch Hr Hc Hl Hg.
  unfold bind at 1, try_except. rewrite Hs. reflexivity.
Qed.

(** C7 (amended).  A result payload whose value, decoded when it is a string,
    is a single JSON object without a ["jsonUrl"] key: [fetch_and_clean_data]
    returns the one-element sequence holding the projection
    [process_profile] gives of that object. *)
Theorem single_object_gives_one_record w result obj :
  result_field (respond env (tick w) rq) = Some result ->
  decoded_result result = Some (JDict obj) ->
  dict_mem "jsonUrl" obj = false ->
  exists p,
    process_profile (JDict obj) (log_event (Request rq) w)
    = (Return p, log_event (Request rq) w)
    /\ fetch_and_clean_data env container_id phantom_client w
       = (Return [p], log_event (Request rq) w).
Proof.
  intros (r & items & Hr & Hc & Hl & Hg)%result_field_inv Hdec Hurl.
  destruct (process_profile_object obj (log_event (Request rq) w)) as (p & Hp & _).
  exists p. split; [exact Hp|].
  enter_fetch Hr Hc Hl Hg.
  destruct result; cbn [decoded_result] in Hdec; try discriminate.
  - unfold bind at 1, try_except. rewrite Hdec. unfold ret at 1.
    unfold bind at 1. rewrite Hurl. unfold ret at 1.
    cbn [for_each]. unfold bind at 1. rewrite Hp. reflexivity.
  - injection Hdec as ->.
    unfold bind at 1, ret at 1. unfold bind at 1. rewrite Hurl. unfold ret at 1.
    cbn [for_each]. unfold bind at 1. rewrite Hp. reflexivity.
Qed.

End Normalizer.

Section Quiet.

Context {RT : Runtime}.
Variable env : environment.

Lemma extends_refl w : extends w w.
Proof. split; [reflexivity|]. exists []. now rewrite app_nil_r. Qed.

Lemma extends_trans w1 w2 w3 : extends w1 w2 -> extends w2 w3 -> extends w1 w3.
Proof.
  intros [Hs1 (evs1 & Ht1 & Hq1)] [Hs2 (evs2 & Ht2 & Hq2)].
  split; [congruence|]. exists (evs1 ++ evs2).
  rewrite Ht2, Ht1, <- app_assoc, List.filter_app, Hq1, Hq2. auto.
Qed.

Lemma quiet_run {A} (m : M A) w r w' : quiet m -> m w = (r, w') -> extends w w'.
Proof. intros Hq Hm. specialize (Hq w). now rewrite Hm in Hq. Qed.

Lemma quiet_ret {A} (a : A) : quiet (ret a).
Proof. intros w. apply extends_refl. Qed.

Lemma quiet_raise {A} e : quiet (@raise A e).
Proof. intros w. apply extends_refl. Qed.

Lemma quiet_bind {A B} (m : M A) (k : A -> M B) :
  quiet m -> (forall a, quiet (k a)) -> quiet (bind m k).
Proof.
  intros Hm Hk w. unfold bind. specialize (Hm w).
  destruct (m w) as [[a|e] w1]; cbn [snd] in *; [|exact Hm].
  eapply extends_trans; [exact Hm|apply Hk].
Qed.

Lemma quiet_try_except {A} (body : M A) catches handler :
  quiet body -> (forall e, quiet (handler e)) -> quiet (try_except body catches handler).
Proof.
  intros Hb Hh w. unfold try_except. specialize (Hb w).
  destruct (body w) as [[a|e] w1]; cbn [snd] in *; [exact Hb|].
  destruct (catches e); [|exact Hb].
  eapply extends_trans; [exact Hb|apply Hh].
Qed.

Lemma quiet_sleep seconds : quiet (sleep seconds).
Proof.
  intros w. split; [reflexivity|]. exists [Sleep seconds]. split; reflexivity.
Qed.

Lemma quiet_when b m : quiet m -> quiet (when b m).
Proof. destruct b; [auto|intros _; apply quiet_ret]. Qed.

Lemma quiet_http_call rq : quiet (http_call env rq).
Proof.
  intros w. unfold http_call.
  destruct (respond env (tick w) rq); (split; [reflexivity|]);
    exists [Request rq]; split; reflexivity.
Qed.

Lemma quiet_resp_json r : quiet (resp_json r).
Proof. unfold resp_json. destruct (json_loads (text r)); [apply quiet_ret|apply quiet_raise]. Qed.

Lemma quiet_method_get v key default : quiet (method_get v key default).
Proof. destruct v; first [apply quiet_ret|apply quiet_raise]. Qed.

Lemma quiet_subscript v key : quiet (subscript v key).
Proof.
  destruct v; cbn [subscript]; try apply quiet_raise.
  destruct (dict_lookup key items); [apply quiet_ret|apply quiet_raise].
Qed.

Lemma quiet_new_client : quiet (new_client env).
Proof.
  unfold new_client. destruct (PHANTOM_KEY env) as [key|]; [|apply quiet_raise].
  destruct (String.eqb key ""); [apply quiet_raise|apply quiet_ret].
Qed.

(** Takes a goal [quiet m] apart along the structure of [m]. *)
Ltac quiet_tac :=
  repeat first
    [ apply quiet_ret | apply quiet_raise | apply quiet_sleep
    | apply quiet_http_call | apply quiet_resp_json | apply quiet_method_get
    | apply quiet_subscript | apply quiet_new_client
    | apply quiet_when
    | apply quiet_bind; [|intros ?]
    | apply quiet_try_except; [|intros ?]
    | assumption
    | match goal with
      | |- quiet (if ?b then _ else _) => destruct b
      | |- quiet (match ?x with _ => _ end) => destruct x
      | |- quiet (let _ := _ in _) => cbv zeta
      end ].

Lemma quiet_is_phantom_running self phantom_id :
  quiet (is_phantom_running env self phantom_id).
Proof. unfold is_phantom_running, requests_get. quiet_tac. Qed.

Lemma quiet_wait_attempts self phantom_id attempts :
  quiet (wait_attempts env self phantom_id attempts).
Proof.
  induction attempts as [|attempt rest IH]; cbn [wait_attempts]; [apply quiet_ret|].
  pose proof (quiet_is_phantom_running self phantom_id). quiet_tac.
Qed.

Lemma quiet_get_available_phantom self : quiet (get_available_phantom env self).
Proof.
  unfold get_available_phantom.
  induction (phantom_ids self) as [|phantom_id rest IH]; cbn [first_available];
    [apply quiet_raise|].
  pose proof (quiet_wait_attempts self phantom_id (seq 0 (max_retries self))).
  unfold wait_for_phantom_availability. quiet_tac.
Qed.

Lemma quiet_trigger_phantom self phantom_id linkedin_cookies search_url :
  quiet (trigger_phantom env self phantom_id linkedin_cookies search_url).
Proof.
  unfold trigger_phantom.
  induction (seq 0 (max_retries self)) as [|attempt rest IH]; cbn [launch_attempts];
    [apply quiet_raise|].
  unfold requests_post. quiet_tac.
Qed.

Lemma quiet_check_container_status self container_id :
  quiet (check_container_status env self container_id).
Proof.
  unfold check_container_status.
  generalize 30%nat. intros remaining.
  induction remaining as [|remaining IH]; cbn [poll_attempts]; [apply quiet_raise|].
  unfold requests_get. quiet_tac.
Qed.

Lemma quiet_process_profile item : quiet (process_profile item).
Proof. destruct item; first [apply quiet_ret|apply quiet_raise]. Qed.

Lemma quiet_for_each {A B} (f : A -> M B) data :
  (forall a, quiet (f a)) -> quiet (for_each f data).
Proof.
  intros Hf. induction data as [|item rest IH]; cbn [for_each]; [apply quiet_ret|].
  pose proof (Hf item). quiet_tac.
Qed.

Lemma quiet_fetch_and_clean_data container_id phantom_client :
  quiet (fetch_and_clean_data env container_id phantom_client).
Proof.
  pose proof (fun items => quiet_for_each process_profile items quiet_process_profile) as Hfe.
  unfold fetch_and_clean_data, requests_get.
  apply quiet_bind; [apply quiet_http_call|intros response].
  destruct (negb _); [apply quiet_raise|].
  apply quiet_try_except; [|intros; apply quiet_raise].
  apply quiet_bind; [apply quiet_resp_json|intros response_json].
  apply quiet_bind; [apply quiet_method_get|intros result].
  assert (forall data : json,
             quiet (match data with
                    | JNull => ret []
                    | _ =>
                        let data := match data with JDict _ => JList [data] | _ => data end in
                        match data with
                        | JList items => for_each process_profile items
                        | _ =>
                            raise (HTTPException 500
                                     ("Unexpected data format received from PhantomBuster: "
                                      +:+ py_type data))
                        end
                    end)) as Htail.
  { intros []; cbv zeta; first [apply quiet_ret|apply quiet_raise|apply Hfe]. }
  destruct result; try apply quiet_raise;
    (apply quiet_bind; [|intros data1; apply quiet_bind; [|intros data2; apply Htail]]);
    quiet_tac.
Qed.

End Quiet.

Section Endpoint.

Context {RT : Runtime}.
Variable env : environment.

Lemma bind_Return_inv {A B} (m : M A) (k : A -> M B) w b w' :
  bind m k w = (Return b, w') ->
  exists a w1, m w = (Return a, w1) /\ k a w1 = (Return b, w').
Proof.
  unfold bind. destruct (m w) as [[a|e] w1]; [|discriminate]. eauto.
Qed.

Lemma try_except_raise_Return_inv {A} (body : M A) catches (f : exn -> exn) w a w' :
  try_except body catches (fun e => raise (f e)) w = (Return a, w') ->
  body w = (Return a, w').
Proof.
  unfold try_except, raise. destruct (body w) as [[a0|e] w1]; [auto|].
  destruct (catches e); discriminate.
Qed.

Lemma pool_answers_weaken (P Q : reply -> bool) self ids :
  (forall rp, P rp = true -> Q rp = true) ->
  forall t, pool_answers env P self t ids -> pool_answers env Q self t ids.
Proof.
  intros HPQ. induction ids as [|phantom_id rest IH]; intros t; cbn [pool_answers]; [auto|].
  intros [Hhere Hrest]. split; [|now apply IH].
  intros i Hi. apply HPQ, Hhere, Hi.
Qed.

Lemma pool_busy_trace_requests self ids rq :
  In (Request rq) (pool_busy_trace self ids) ->
  exists phantom_id, In phantom_id ids /\ rq = agent_request self phantom_id.
Proof.
  unfold pool_busy_trace, busy_trace.
  intros (phantom_id & Hin & (attempt & _ & Hev)%in_flat_map)%in_flat_map.
  exists phantom_id. split; [exact Hin|].
  destruct Hev as [[= <-]|Hev]; [reflexivity|].
  destruct (Nat.ltb attempt (max_retries self - 1)); cbn in Hev.
  - destruct Hev as [[=]|[]].
  - destruct Hev.
Qed.

(** The handler up to worker acquisition: a configured key and a user whose
    uid names a document lead to [get_available_phantom], and its
    [HTTPException] is passed on as it is. *)
Lemma search_sales_navigator_acquisition_fails query_data user key uid w code detail w' :
  PHANTOM_KEY env = Some key ->
  key <> "" ->
  dict_lookup "uid" user = Some uid ->
  document_error "users" (py_str uid) = None ->
  get_available_phantom env (init_client key) w = (Raise (HTTPException code detail), w') ->
  search_sales_navigator env query_data user w = (Raise (HTTPException code detail), w').
Proof.
  intros Hkey Hne Huid Hdoc Hget.
  unfold search_sales_navigator, try_except.
  assert (py_truthy (JDict user) = true) as Htruthy.
  { destruct user; [discriminate|reflexivity]. }
  assert (dict_mem "uid" user = true) as Hmem.
  { unfold dict_mem. now rewrite Huid. }
  rewrite Htruthy, Hmem. cbn [negb orb].
  unfold bind at 1. unfold new_client. rewrite Hkey.
  destruct (String.eqb_spec key ""); [contradiction|]. unfold ret at 1.
  unfold bind at 1. cbn [subscript]. rewrite Huid. unfold ret at 1.
  unfold bind at 1. unfold document. rewrite Hdoc. unfold ret at 1.
  unfold bind at 1. rewrite Hget. reflexivity.
Qed.

(** A uid that does not name a document ends the request before any stage:
    the [ValueError] of the reference is wrapped by the outer handler. *)
Lemma search_sales_navigator_bad_reference query_data user key uid msg w :
  PHANTOM_KEY env = Some key ->
  key <> "" ->
  dict_lookup "uid" user = Some uid ->
  document_error "users" (py_str uid) = Some msg ->
  search_sales_navigator env query_data user w
  = (Raise (HTTPException 500
              ("Internal server error: " +:+ exc_str (PyError "ValueError" msg))),
     w).
Proof.
  intros Hkey Hne Huid Hdoc.
  unfold search_sales_navigator, try_except.
  assert (py_truthy (JDict user) = true) as Htruthy.
  { destruct user; [discriminate|reflexivity]. }
  assert (dict_mem "uid" user = true) as Hmem.
  { unfold dict_mem. now rewrite Huid. }
  rewrite Htruthy, Hmem. cbn [negb orb].
  unfold bind at 1. unfold new_client. rewrite Hkey.
  destruct (String.eqb_spec key ""); [contradiction|]. unfold ret at 1.
  unfold bind at 1. cbn [subscript]. rewrite Huid. unfold ret at 1.
  unfold bind at 1. unfold document. rewrite Hdoc. reflexivity.
Qed.

(** What a request that succeeds went through: the provider stages, which
    leave the store alone, then the session stage. *)
Lemma search_sales_navigator_success query_data user w res w' :
  search_sales_navigator env query_data user w = (Return res, w') ->
  exists uid results w1,
    dict_lookup "uid" user = Some uid
    /\ document_error "users" (py_str uid) = None
    /\ res = mkResult results (py_str uid) (q_url query_data)
    /\ extends w w1
    /\ (let* user_doc := doc_get env ("users", py_str uid) in
        if negb (snapshot_exists user_doc)
        then doc_set env ("users", py_str uid) (user_data_of query_data)
        else doc_update env ("users", py_str uid) (user_data_of query_data)) w1
       = (Return tt, w').
Proof.
  unfold search_sales_navigator. intros Hrun%try_except_raise_Return_inv.
  destruct (negb (py_truthy (JDict user)) || negb (dict_mem "uid" user)); [discriminate|].
  apply bind_Return_inv in Hrun as (phantom_client & w1 & H1 & Hrun).
  apply bind_Return_inv in Hrun as (uid & w2 & H2 & Hrun).
  cbv zeta in Hrun.
  apply bind_Return_inv in Hrun as (user_doc_ref & w2' & Hdoc & Hrun).
  unfold document in Hdoc.
  destruct (document_error "users" (py_str uid)) eqn:Hpath; [discriminate|].
  injection Hdoc as <- <-.
  apply bind_Return_inv in Hrun as (phantom_id & w3 & H3 & Hrun).
  apply bind_Return_inv in Hrun as (container_id & w4 & H4 & Hrun).
  apply bind_Return_inv in Hrun as ([] & w5 & H5 & Hrun).
  apply bind_Return_inv in Hrun as (results & w6 & H6 & Hrun).
  apply bind_Return_inv in Hrun as ([] & w7 & H7 & Hrun).
  injection Hrun as <- <-.
  apply try_except_raise_Return_inv in H7.
  exists uid, results, w6. split; [|split; [exact Hpath|split; [reflexivity|split]]].
  - cbn [subscript] in H2. destruct (dict_lookup "uid" user); [|discriminate].
    now injection H2 as ->.
  - apply (quiet_run _ _ _ _ (quiet_new_client env)) in H1.
    apply (quiet_run _ _ _ _ (quiet_subscript _ _)) in H2.
    apply (quiet_run _ _ _ _ (quiet_get_available_phantom env _)) in H3.
    apply (quiet_run _ _ _ _ (quiet_trigger_phantom env _ _ _ _)) in H4.
    apply (quiet_run _ _ _ _ (quiet_check_container_status env _ _)) in H5.
    apply (quiet_run _ _ _ _ (quiet_fetch_and_clean_data env _ _)) in H6.
    repeat (eapply extends_trans; [eassumption|]). apply extends_refl.
  - exact H7.
Qed.

(** The session stage: one read, then one write. *)
Lemma session_stage_inv ref data w w' :
  (let* user_doc := doc_get env ref in
   if negb (snapshot_exists user_doc) then doc_set env ref data
   else doc_update env ref data) w = (Return tt, w') ->
  (store w !! ref = None
   /\ trace w' = trace w ++ [StoreGet ref; StoreSet ref data]
   /\ store w' = <[ref := resolve (S (tick w)) <$> data]> (store w))
  \/ (exists old,
        store w !! ref = Some old
        /\ trace w' = trace w ++ [StoreGet ref; StoreUpdate ref data]
        /\ store w' = <[ref := (resolve (S (tick w)) <$> data) ∪ old]> (store w)).
Proof.
  intros (user_doc & w1 & Hget & Hwrite)%bind_Return_inv.
  unfold doc_get, store_call in Hget.
  destruct (store_fault env (tick w)); [discriminate|].
  injection Hget as <- <-.
  destruct (store w !! ref) as [old|] eqn:Hold; cbn [snapshot_exists negb] in Hwrite.
  - right. exists old. split; [reflexivity|].
    unfold doc_update, store_call in Hwrite. cbn [tick trace store] in Hwrite.
    destruct (store_fault env (S (tick w))); [discriminate|].
    rewrite Hold in Hwrite. injection Hwrite as <-. cbn [trace store].
    now rewrite <- app_assoc.
  - left. split; [reflexivity|].
    unfold doc_set, store_call in Hwrite. cbn [tick trace store] in Hwrite.
    destruct (store_fault env (S (tick w))); [discriminate|].
    injection Hwrite as <-. cbn [trace store].
    now rewrite <- app_assoc.
Qed.

Lemma user_data_stored now query_data :
  resolve now <$> user_data_of query_data
  = <["sessionCookie" := FStr (q_cookie query_data)]>
      {[ "Events_URL" := FStr (q_url query_data) ]}.
Proof. unfold user_data_of. now rewrite fmap_insert, map_fmap_singleton. Qed.

Lemma user_data_fields query_data :
  dom (user_data_of query_data) = ({[ "Events_URL"; "sessionCookie" ]} : gset string).
Proof. unfold user_data_of. rewrite dom_insert_L, dom_singleton_L. set_solver. Qed.

End Endpoint.

(** ** The stated properties *)

Section Claims.

Context {RT : Runtime}.

(** C1 (what the code does).  When every launch attempt of [trigger_phantom]
    is refused with the "maximum parallelism reached" condition, the attempts
    before the last wait and retry, but on the last attempt the guard
    [attempt < max_retries - 1] of the [continue] fails and control falls
    through to the [raise] of the 500 "Error launching phantom".  The outcome
    after [max_retries] requests is therefore the 500, and the 503 "Maximum
    retry attempts reached while launching phantom" that follows the loop is
    not reached. *)
Theorem trigger_phantom_parallelism_exhausted
    (env : environment) (self : PhantomBusterClient)
    (phantom_id linkedin_cookies search_url : string) (w : world) (n : nat) :
  max_retries self = S n ->
  (forall i, (i <= n)%nat ->
     max_parallelism
       (respond env (tick w + i)
          (launch_request self phantom_id linkedin_cookies search_url)) = true) ->
  exists r,
    respond env (tick w + n) (launch_request self phantom_id linkedin_cookies search_url)
    = Response r
    /\ trigger_phantom env self phantom_id linkedin_cookies search_url w
       = (Raise (HTTPException 500 ("Error launching phantom: " +:+ text r)),
          mkWorld (tick w + S n)
            (trace w
             ++ launch_trace self
                  (launch_request self phantom_id linkedin_cookies search_url)
                  (seq 0 (S n)))
            (store w))
    /\ count_requests
         (launch_trace self (launch_request self phantom_id linkedin_cookies search_url)
            (seq 0 (S n))) = max_retries self.
Proof.
  intros Hmax Hall.
  destruct (launch_attempts_all_refused env self (launch_url self)
              (launch_payload phantom_id linkedin_cookies search_url) n 0%nat w)
    as (r & Hr & Hrun); [now rewrite Hmax|exact Hall|].
  exists r. split; [exact Hr|]. split.
  - unfold trigger_phantom. rewrite Hmax. exact Hrun.
  - unfold launch_request. now rewrite count_requests_launch_trace, length_seq.
Qed.

(** C5.  When every worker of the pool answers RUNNING to each of its
    [max_retries] status checks, [get_available_phantom] makes exactly
    3 * 5 = 15 status checks and raises the 503.  A request that gets as far
    as acquisition (a configured key, and a user whose uid names a document
    of the collection users) ends with that 503, and the only requests it
    made are those status checks: no launch, no job poll, no result fetch,
    and the session store is untouched. *)
Theorem all_workers_running_exhausts_pool
    (env : environment) (query_data : SalesNavQueryData)
    (user : list (string * json)) (key : string) (uid : json) (w : world) :
  PHANTOM_KEY env = Some key ->
  key <> "" ->
  dict_lookup "uid" user = Some uid ->
  document_error "users" (py_str uid) = None ->
  pool_answers env reports_running (init_client key) (tick w)
    (phantom_ids (init_client key)) ->
  let busy := HTTPException 503 "All phantoms are busy and maximum retry attempts reached" in
  let w' :=
    mkWorld (tick w + 15)
      (trace w ++ pool_busy_trace (init_client key) (phantom_ids (init_client key)))
      (store w) in
  get_available_phantom env (init_client key) w = (Raise busy, w')
  /\ search_sales_navigator env query_data user w = (Raise busy, w')
  /\ count_requests (pool_busy_trace (init_client key) (phantom_ids (init_client key)))
     = (length (phantom_ids (init_client key)) * max_retries (init_client key))%nat
  /\ (length (phantom_ids (init_client key)) * max_retries (init_client key) = 15)%nat
  /\ (forall rq,
        In (Request rq) (pool_busy_trace (init_client key) (phantom_ids (init_client key))) ->
        exists phantom_id,
          In phantom_id (phantom_ids (init_client key))
          /\ rq = agent_request (init_client key) phantom_id).
Proof.
  intros Hkey Hne Huid Hdoc Hpool busy w'.
  assert (get_available_phantom env (init_client key) w = (Raise busy, w')) as Hget.
  { unfold get_available_phantom.
    rewrite first_available_busy; [reflexivity|].
    eapply pool_answers_weaken; [|exact Hpool].
    intros rp Hrun. unfold busy_reply. now rewrite Hrun. }
  split; [exact Hget|]. split.
  - eapply search_sales_navigator_acquisition_fails; eauto.
  - split; [apply count_requests_pool_busy_trace|].
    split; [reflexivity|]. apply pool_busy_trace_requests.
Qed.

(** C4 (what the code does).  During worker acquisition a status check
    answered by a provider error (a status code other than 200) is treated
    like one answered RUNNING: the attempt is used up, the fixed delay is
    slept when the worker has attempts left, and the loop goes on with the
    remaining attempts; the step after a RUNNING answer is the same one.  No
    such answer ends acquisition early: a pool whose checks are all answered
    by provider errors or RUNNING is polled to the end of every worker's
    budget before the 503 is raised.  A status check that fails in transport
    is not treated so: [wait_for_phantom_availability] catches
    [HTTPException] only, so the [RequestException] leaves the loop at that
    check, whatever is left of the budget, with no sleep and no further
    attempt. *)
Theorem provider_error_treated_as_busy
    (env : environment) (self : PhantomBusterClient) (phantom_id : string)
    (attempt : nat) (rest : list nat) (w : world) :
  error_response (respond env (tick w) (agent_request self phantom_id)) = true ->
  wait_attempts env self phantom_id (attempt :: rest) w
  = wait_attempts env self phantom_id rest (after_busy_check self phantom_id attempt w)
  /\ after_busy_check self phantom_id attempt w
     = mkWorld (S (tick w))
         (trace w
          ++ Request (agent_request self phantom_id)
             :: (if Nat.ltb attempt (max_retries self - 1)
                 then [Sleep (retry_delay self)] else []))
         (store w)
  /\ (forall env',
        reports_running (respond env' (tick w) (agent_request self phantom_id)) = true ->
        wait_attempts env' self phantom_id (attempt :: rest) w
        = wait_attempts env' self phantom_id rest
            (after_busy_check self phantom_id attempt w))
  /\ (forall w0,
        pool_answers env busy_reply self (tick w0) (phantom_ids self) ->
        get_available_phantom env self w0
        = (Raise (HTTPException 503
                    "All phantoms are busy and maximum retry attempts reached"),
           mkWorld (tick w0 + length (phantom_ids self) * max_retries self)
             (trace w0 ++ pool_busy_trace self (phantom_ids self)) (store w0)))
  /\ (forall env' msg,
        respond env' (tick w) (agent_request self phantom_id) = ConnectionError msg ->
        wait_attempts env' self phantom_id (attempt :: rest) w
        = (Raise (RequestException msg),
           log_event (Request (agent_request self phantom_id)) w)).
Proof.
  intros Herr. split; [now apply wait_attempts_error|]. split; [|split; [|split]].
  - rewrite after_busy_check_eq. unfold busy_trace. cbn [flat_map].
    now rewrite app_nil_r.
  - intros env' Hrun. now apply wait_attempts_running.
  - intros w0 Hpool. now apply first_available_busy.
  - intros env' msg Hdown. now apply wait_attempts_transport.
Qed.

(** C6.  A job whose polls report a status that is not terminal until poll
    [k] (1 <= k <= 30) reports ["finished"]: [check_container_status] returns
    normally after exactly [k] status checks.  A job whose 30 polls all
    report a status that is not terminal: it raises the 504 "Container
    execution timed out" after exactly 30 status checks. *)
Theorem check_container_status_polls
    (env : environment) (self : PhantomBusterClient) (container_id : json)
    (w : world) (k : nat) :
  ((1 <= k <= 30)%nat ->
   (forall i, (i < k - 1)%nat ->
      reports_pending
        (respond env (tick w + i) (container_request self container_id)) = true) ->
   reports_finished
     (respond env (tick w + (k - 1)) (container_request self container_id)) = true ->
   check_container_status env self container_id w
   = (Return tt,
      mkWorld (tick w + k)
        (trace w ++ poll_trace (container_request self container_id) (k - 1)
         ++ [Request (container_request self container_id)])
        (store w))
   /\ count_requests
        (poll_trace (container_request self container_id) (k - 1)
         ++ [Request (container_request self container_id)]) = k)
  /\ ((forall i, (i < 30)%nat ->
         reports_pending
           (respond env (tick w + i) (container_request self container_id)) = true) ->
      check_container_status env self container_id w
      = (Raise (HTTPException 504 "Container execution timed out"),
         mkWorld (tick w + 30)
           (trace w ++ poll_trace (container_request self container_id) 30)
           (store w))
      /\ count_requests (poll_trace (container_request self container_id) 30) = 30%nat).
Proof.
  unfold check_container_status, container_request. split.
  - intros Hk Hpend Hfin. split.
    + replace 30%nat with ((k - 1) + S (30 - k))%nat at 1 by lia.
      rewrite poll_attempts_pending_run by exact Hpend.
      rewrite poll_attempts_finished by exact Hfin.
      unfold log_event. cbn [tick trace store]. rewrite <- app_assoc.
      do 2 f_equal. lia.
    + rewrite count_requests_app, count_requests_poll_trace. cbn. lia.
  - intros Hpend. split.
    + replace 30%nat with (30 + 0)%nat at 1 by lia.
      now rewrite poll_attempts_pending_run by exact Hpend.
    + apply count_requests_poll_trace.
Qed.

(** C9.  During job-status polling, a status fetch answered with a status
    code other than 200 makes [check_container_status] raise the 500 "Failed
    to check container status" at once: after [j] polls that went on, the
    failing poll is the last request, no sleep follows and no further attempt
    is made.  A transport error on the same fetch is caught instead: ten
    seconds are slept and the loop goes on with one attempt less. *)
Theorem poll_error_response_is_fatal
    (env : environment) (self : PhantomBusterClient) (container_id : json)
    (w : world) (j : nat) (r : response) :
  (j < 30)%nat ->
  (forall i, (i < j)%nat ->
     reports_pending
       (respond env (tick w + i) (container_request self container_id)) = true) ->
  respond env (tick w + j) (container_request self container_id) = Response r ->
  status_code r <> 200 ->
  check_container_status env self container_id w
  = (Raise (HTTPException 500 ("Failed to check container status: " +:+ text r)),
     mkWorld (tick w + S j)
       (trace w ++ poll_trace (container_request self container_id) j
        ++ [Request (container_request self container_id)])
       (store w))
  /\ (forall remaining w1 msg,
        respond env (tick w1) (container_request self container_id) = ConnectionError msg ->
        poll_attempts env self (container_url self container_id) (S remaining) w1
        = poll_attempts env self (container_url self container_id) remaining
            (slept 10 (log_event (Request (container_request self container_id)) w1))).
Proof.
  intros Hj Hpend Hr Hc. unfold check_container_status, container_request in *. split.
  - replace 30%nat with (j + S (29 - j))%nat by lia.
    rewrite poll_attempts_pending_run by exact Hpend.
    rewrite (poll_attempts_error _ _ _ _ _ r) by assumption.
    unfold log_event. cbn [tick trace store]. rewrite <- app_assoc.
    do 2 f_equal. lia.
  - intros remaining w1 msg Hmsg. now apply (poll_attempts_transport _ _ _ _ _ msg).
Qed.

(** C2 (amended).  A result payload whose result field is null (or missing)
    is refused: [fetch_and_clean_data] raises the 500 "No data received from
    PhantomBuster", wrapped by the outer handler as "Error processing data".
    The empty sequence is returned, without error, when the result field is
    a string that decodes to null. *)
Theorem null_result_refused_null_text_empty
    (env : environment) (container_id : json) (phantom_client : PhantomBusterClient)
    (w : world) :
  (result_field (respond env (tick w) (result_request phantom_client container_id))
   = Some JNull ->
   fetch_and_clean_data env container_id phantom_client w
   = (Raise (HTTPException 500
               ("Error processing data: "
                +:+ exc_str (HTTPException 500 "No data received from PhantomBuster"))),
      log_event (Request (result_request phantom_client container_id)) w))
  /\ (forall s,
        result_field (respond env (tick w) (result_request phantom_client container_id))
        = Some (JStr s) ->
        json_loads s = Some JNull ->
        fetch_and_clean_data env container_id phantom_client w
        = (Return [], log_event (Request (result_request phantom_client container_id)) w)).
Proof.
  split.
  - apply fetch_and_clean_data_null_field.
  - apply fetch_and_clean_data_null_text.
Qed.

(** C8.  [process_profile] maps the raw record
    [{firstName: A, lastName: B, CompanyUrl: x}] to the record with every
    declared profile field, firstName A, lastName B, companyUrl x,
    sharedConnectionsCount 0 and the empty string elsewhere; and on every
    object it returns a record whose keys are exactly the declared fields, so
    that no object is refused for a missing field and no other key is kept. *)
Theorem process_profile_defaults :
  (forall w,
     process_profile
       (JDict [("firstName", JStr "A"); ("lastName", JStr "B"); ("CompanyUrl", JStr "x")]) w
     = (Return
          [ ("firstName", JStr "A"); ("lastName", JStr "B"); ("title", JStr "");
            ("companyName", JStr ""); ("industry", JStr "");
            ("companyLocation", JStr ""); ("profileLocation", JStr "");
            ("connectionDegree", JStr ""); ("profileImageUrl", JStr "");
            ("sharedConnectionsCount", JInt 0); ("defaultProfileUrl", JStr "");
            ("companyUrl", JStr "x") ], w))
  /\ (forall item w,
        exists p,
          process_profile (JDict item) w = (Return p, w)
          /\ dict_keys p = LinkedInProfile_fields).
Proof.
  split; [reflexivity|]. intros item w. eexists. split; reflexivity.
Qed.

(** C10.  In the record [process_profile] returns, companyUrl is the value at
    key CompanyUrl when that key is present with a non-empty value (a value
    that is true for Python's [or]; for a string, one other than the empty
    string), and otherwise the value at key regularCompanyUrl, the empty
    string when that key is missing.  The record with CompanyUrl the empty
    string and regularCompanyUrl y gets companyUrl y. *)
Theorem process_profile_companyUrl (item : list (string * json)) (w : world) :
  exists p,
    process_profile (JDict item) w = (Return p, w)
    /\ (forall v,
          dict_lookup "CompanyUrl" item = Some v -> py_truthy v = true ->
          dict_lookup "companyUrl" p = Some v)
    /\ (forall s,
          dict_lookup "CompanyUrl" item = Some (JStr s) -> s <> "" ->
          dict_lookup "companyUrl" p = Some (JStr s))
    /\ (dict_lookup "CompanyUrl" item = None
        \/ (exists v, dict_lookup "CompanyUrl" item = Some v /\ py_truthy v = false) ->
        dict_lookup "companyUrl" p = Some (dict_get "regularCompanyUrl" (JStr "") item))
    /\ (item = [("CompanyUrl", JStr ""); ("regularCompanyUrl", JStr "y")] ->
        dict_lookup "companyUrl" p = Some (JStr "y")).
Proof.
  eexists. split; [reflexivity|]. cbn [dict_lookup String.eqb Ascii.eqb Bool.eqb].
  unfold py_or, dict_get. repeat split.
  - intros v -> ->. reflexivity.
  - intros s -> Hs. cbn [py_truthy].
    destruct (String.eqb_spec s ""); [contradiction|reflexivity].
  - intros [->|(v & -> & ->)]; reflexivity.
  - intros ->. reflexivity.
Qed.

(** C3 (amended).  A request that succeeds makes exactly one session-store
    write, after the provider stages and before the result is returned: it
    reads the user's document and then creates it with the two tracked
    fields (search URL and session cookie) when it is absent, or overwrites
    those two fields and keeps the others when it exists.  The data written
    are those two fields and nothing else. *)
Theorem successful_request_writes_session_once
    (env : environment) (query_data : SalesNavQueryData)
    (user : list (string * json)) (w w' : world) (res : scrape_result) :
  search_sales_navigator env query_data user w = (Return res, w') ->
  let ref : docref := ("users", userId res) in
  let fields : gmap string fval :=
    <["sessionCookie" := FStr (q_cookie query_data)]>
      {[ "Events_URL" := FStr (q_url query_data) ]} in
  exists pre write,
    trace w' = trace w ++ pre ++ [StoreGet ref; write]
    /\ List.filter is_store_event pre = []
    /\ List.filter is_store_write (pre ++ [StoreGet ref; write]) = [write]
    /\ ((store w !! ref = None
         /\ write = StoreSet ref (user_data_of query_data)
         /\ store w' = <[ref := fields]> (store w))
        \/ (exists old,
              store w !! ref = Some old
              /\ write = StoreUpdate ref (user_data_of query_data)
              /\ store w' = <[ref := fields ∪ old]> (store w)))
    /\ dom (user_data_of query_data) = ({[ "Events_URL"; "sessionCookie" ]} : gset string)
    /\ message res = q_url query_data.
Proof.
  intros (uid & results & w1 & Huid & _ & -> & [Hstore (pre & Htrace & Hpre)] & Hsession)
    %search_sales_navigator_success ref fields.
  cbn [userId message] in *.
  assert (forall wr, is_store_write wr = true ->
            List.filter is_store_write (pre ++ [StoreGet ref; wr]) = [wr]) as Hone.
  { intros wr Hwr. rewrite List.filter_app. cbn [List.filter is_store_write]. rewrite Hwr.
    replace (List.filter is_store_write pre) with (@nil event); [reflexivity|].
    clear -Hpre. induction pre as [|ev pre IH]; [reflexivity|].
    cbn [List.filter] in *. destruct ev; cbn in *; try discriminate; auto. }
  apply session_stage_inv in Hsession
    as [(Hnone & Ht & Hs)|(old & Hsome & Ht & Hs)];
    rewrite user_data_stored in Hs; rewrite Hstore in *.
  - exists pre, (StoreSet ref (user_data_of query_data)).
    split; [now rewrite Ht, Htrace, <- app_assoc|].
    split; [exact Hpre|]. split; [now apply Hone|].
    split; [left; auto|]. split; [apply user_data_fields|reflexivity].
  - exists pre, (StoreUpdate ref (user_data_of query_data)).
    split; [now rewrite Ht, Htrace, <- app_assoc|].
    split; [exact Hpre|]. split; [now apply Hone|].
    split; [right; eauto|]. split; [apply user_data_fields|reflexivity].
Qed.

End Claims.

(** ** The properties on concrete runs *)

Section Runs.

Import Fixture.

#[local] Existing Instance Fixture.runtime.

Lemma trigger_phantom_parallelism_exhausted_witness :
  max_retries client = 5%nat
  /\ (forall i, (i <= 4)%nat ->
        max_parallelism
          (respond all_refused (tick w0 + i)
             (launch_request client "2696753432671290" (q_cookie query) (q_url query)))
        = true)
  /\ fst (trigger_phantom all_refused client "2696753432671290"
            (q_cookie query) (q_url query) w0)
     = Raise (HTTPException 500 ("Error launching phantom: " +:+ dumps parallelism))
  /\ count_requests
       (trace (snd (trigger_phantom all_refused client "2696753432671290"
                      (q_cookie query) (q_url query) w0))) = 5%nat.
Proof.
  assert (forall i, (i <= 4)%nat ->
            max_parallelism
              (respond all_refused (tick w0 + i)
                 (launch_request client "2696753432671290" (q_cookie query) (q_url query)))
            = true) as Hall by (intros; reflexivity).
  split; [reflexivity|]. split; [exact Hall|].
  destruct (trigger_phantom_parallelism_exhausted all_refused client
              "2696753432671290" (q_cookie query) (q_url query) w0 4 eq_refl Hall)
    as (r & Hr & Hrun & Hcount).
  cbn in Hr. injection Hr as <-. rewrite Hrun. split; [reflexivity|exact Hcount].
Defined.

Lemma all_workers_running_exhausts_pool_witness :
  PHANTOM_KEY all_running = Some "key-1"
  /\ "key-1" <> ""
  /\ dict_lookup "uid" user = Some (JStr "u1")
  /\ document_error "users" (py_str (JStr "u1")) = None
  /\ pool_answers all_running reports_running client (tick w0) (phantom_ids client)
  /\ fst (search_sales_navigator all_running query user w0)
     = Raise (HTTPException 503 "All phantoms are busy and maximum retry attempts reached")
  /\ count_requests (trace (snd (search_sales_navigator all_running query user w0)))
     = 15%nat.
Proof.
  assert (pool_answers all_running reports_running client (tick w0) (phantom_ids client))
    as Hpool by (cbn; repeat split; intros; reflexivity).
  assert ("key-1" <> "") as Hne by discriminate.
  split; [reflexivity|]. split; [exact Hne|]. split; [reflexivity|].
  split; [reflexivity|]. split; [exact Hpool|].
  pose proof (all_workers_running_exhausts_pool all_running query user "key-1" (JStr "u1")
                w0 eq_refl Hne eq_refl eq_refl Hpool) as H.
  cbv zeta in H. destruct H as (_ & Hsearch & Hcount & Hfifteen & _).
  rewrite Hsearch. split; [reflexivity|].
  cbn [snd trace w0 app]. rewrite Hcount. exact Hfifteen.
Defined.

Lemma provider_error_treated_as_busy_witness :
  error_response
    (respond all_failing (tick w0) (agent_request client "2696753432671290")) = true
  /\ wait_attempts all_failing client "2696753432671290" [0; 1; 2; 3; 4]%nat w0
     = wait_attempts all_failing client "2696753432671290" [1; 2; 3; 4]%nat
         (after_busy_check client "2696753432671290" 0 w0).
Proof.
  split; [reflexivity|].
  destruct (provider_error_treated_as_busy all_failing client "2696753432671290"
              0%nat [1; 2; 3; 4]%nat w0 eq_refl) as [Hstep _].
  exact Hstep.
Defined.

(** C4, the failing input: a transport error on the first status check, with
    the whole retry budget left, ends acquisition after that one request, and
    the request ends with a 500. *)
Lemma transport_error_aborts_acquisition :
  respond unreachable (tick w0) (agent_request client "2696753432671290")
  = ConnectionError "connection refused"
  /\ get_available_phantom unreachable client w0
     = (Raise (RequestException "connection refused"),
        mkWorld 1 [Request (agent_request client "2696753432671290")] ∅)
  /\ fst (search_sales_navigator unreachable query user w0)
     = Raise (HTTPException 500 "Internal server error: connection refused").
Proof. repeat split. Qed.

Lemma check_container_status_polls_witness :
  ((1 <= 3 <= 30)%nat
   /\ (forall i, (i < 3 - 1)%nat ->
         reports_pending
           (respond done_on_third (tick w0 + i) (container_request client (JStr "J1")))
         = true)
   /\ reports_finished
        (respond done_on_third (tick w0 + (3 - 1)) (container_request client (JStr "J1")))
      = true
   /\ fst (check_container_status done_on_third client (JStr "J1") w0) = Return tt
   /\ count_requests (trace (snd (check_container_status done_on_third client (JStr "J1") w0)))
      = 3%nat)
  /\ ((forall i, (i < 30)%nat ->
         reports_pending
           (respond never_done (tick w0 + i) (container_request client (JStr "J1")))
         = true)
      /\ fst (check_container_status never_done client (JStr "J1") w0)
         = Raise (HTTPException 504 "Container execution timed out")
      /\ count_requests (trace (snd (check_container_status never_done client (JStr "J1") w0)))
         = 30%nat).
Proof.
  assert (1 <= 3 <= 30)%nat as Hk by lia.
  assert (forall i, (i < 3 - 1)%nat ->
            reports_pending
              (respond done_on_third (tick w0 + i) (container_request client (JStr "J1")))
            = true) as Hpend.
  { intros [|[|i]] Hi; [reflexivity|reflexivity|cbn in Hi; lia]. }
  assert (forall i, (i < 30)%nat ->
            reports_pending
              (respond never_done (tick w0 + i) (container_request client (JStr "J1")))
            = true) as Hnever by (intros; reflexivity).
  split.
  - split; [exact Hk|]. split; [exact Hpend|]. split; [reflexivity|].
    destruct (check_container_status_polls done_on_third client (JStr "J1") w0 3)
      as [Hfin _].
    destruct (Hfin Hk Hpend eq_refl) as [Hrun Hcount].
    rewrite Hrun. split; [reflexivity|exact Hcount].
  - split; [exact Hnever|].
    destruct (check_container_status_polls never_done client (JStr "J1") w0 1)
      as [_ Htimeout].
    destruct (Htimeout Hnever) as [Hrun Hcount].
    rewrite Hrun. split; [reflexivity|exact Hcount].
Defined.

Lemma poll_error_response_is_fatal_witness :
  (1 < 30)%nat
  /\ (forall i, (i < 1)%nat ->
        reports_pending
          (respond gateway_error (tick w0 + i) (container_request client (JStr "J1")))
        = true)
  /\ respond gateway_error (tick w0 + 1) (container_request client (JStr "J1"))
     = Response (mkResponse 502 "null")
  /\ 502 <> 200
  /\ check_container_status gateway_error client (JStr "J1") w0
     = (Raise (HTTPException 500 "Failed to check container status: null"),
        mkWorld 2
          [ Request (container_request client (JStr "J1")); Sleep 10;
            Request (container_request client (JStr "J1")) ]
          ∅).
Proof.
  assert (1 < 30)%nat as Hj by lia.
  assert (forall i, (i < 1)%nat ->
            reports_pending
              (respond gateway_error (tick w0 + i) (container_request client (JStr "J1")))
            = true) as Hpend.
  { intros [|i] Hi; [reflexivity|lia]. }
  assert (502 <> 200) as Hc by discriminate.
  split; [exact Hj|]. split; [exact Hpend|]. split; [reflexivity|]. split; [exact Hc|].
  destruct (poll_error_response_is_fatal gateway_error client (JStr "J1") w0 1
              (mkResponse 502 "null") Hj Hpend eq_refl Hc) as [Hrun _].
  exact Hrun.
Defined.

(** C2 as stated fails: the payload whose result field is null is answered
    with the 500, not with the empty sequence. *)
Lemma null_result_field_raises :
  result_field
    (respond (constant (ok payload_null)) (tick w0) (result_request client (JStr "J1")))
  = Some JNull
  /\ fst (fetch_and_clean_data (constant (ok payload_null)) (JStr "J1") client w0)
     = Raise (HTTPException 500
                "Error processing data: 500: No data received from PhantomBuster").
Proof. split; reflexivity. Qed.

Lemma null_result_refused_null_text_empty_witness :
  (result_field
     (respond (constant (ok payload_null)) (tick w0) (result_request client (JStr "J1")))
   = Some JNull
   /\ fst (fetch_and_clean_data (constant (ok payload_null)) (JStr "J1") client w0)
      = Raise (HTTPException 500
                 ("Error processing data: "
                  +:+ exc_str (HTTPException 500 "No data received from PhantomBuster"))))
  /\ (result_field
        (respond (constant (ok payload_null_text)) (tick w0)
           (result_request client (JStr "J1")))
      = Some (JStr "null")
      /\ json_loads "null" = Some JNull
      /\ fst (fetch_and_clean_data (constant (ok payload_null_text)) (JStr "J1") client w0)
         = Return []).
Proof.
  split.
  - split; [reflexivity|].
    destruct (null_result_refused_null_text_empty (constant (ok payload_null))
                (JStr "J1") client w0) as [Hnull _].
    now rewrite (Hnull eq_refl).
  - split; [reflexivity|]. split; [reflexivity|].
    destruct (null_result_refused_null_text_empty (constant (ok payload_null_text))
                (JStr "J1") client w0) as [_ Htext].
    now rewrite (Htext "null" eq_refl eq_refl).
Defined.

(** C7 as stated fails: a result that is a single JSON object holding a
    ["jsonUrl"] key is followed to that URL, and the list found there (here
    the empty one) is what is returned, not a one-element sequence. *)
Lemma indirect_object_is_not_one_record :
  result_field (respond indirect (tick w0) (result_request client (JStr "J1")))
  = Some (JDict [("jsonUrl", JStr "https://cache.example/result.json")])
  /\ decoded_result (JDict [("jsonUrl", JStr "https://cache.example/result.json")])
     = Some (JDict [("jsonUrl", JStr "https://cache.example/result.json")])
  /\ fetch_and_clean_data indirect (JStr "J1") client w0
     = (Return [],
        mkWorld 2
          [ Request (result_request client (JStr "J1"));
            Request (GET "https://cache.example/result.json" []) ]
          ∅).
Proof. repeat split. Qed.

Lemma single_object_gives_one_record_witness :
  result_field
    (respond (constant (ok payload_object)) (tick w0) (result_request client (JStr "J1")))
  = Some raw_record
  /\ decoded_result raw_record
     = Some (JDict [("firstName", JStr "A"); ("lastName", JStr "B"); ("CompanyUrl", JStr "x")])
  /\ dict_mem "jsonUrl"
       [("firstName", JStr "A"); ("lastName", JStr "B"); ("CompanyUrl", JStr "x")] = false
  /\ exists p,
       process_profile raw_record
         (log_event (Request (result_request client (JStr "J1"))) w0)
       = (Return p, log_event (Request (result_request client (JStr "J1"))) w0)
       /\ fetch_and_clean_data (constant (ok payload_object)) (JStr "J1") client w0
          = (Return [p], log_event (Request (result_request client (JStr "J1"))) w0).
Proof.
  assert (result_field
            (respond (constant (ok payload_object)) (tick w0)
               (result_request client (JStr "J1")))
          = Some raw_record) as Hfield by reflexivity.
  split; [exact Hfield|]. split; [reflexivity|]. split; [reflexivity|].
  apply (single_object_gives_one_record (constant (ok payload_object)) client (JStr "J1") w0
           raw_record
           [("firstName", JStr "A"); ("lastName", JStr "B"); ("CompanyUrl", JStr "x")]
           Hfield eq_refl eq_refl).
Defined.

Lemma process_profile_companyUrl_witness :
  exists p,
    process_profile (JDict [("CompanyUrl", JStr ""); ("regularCompanyUrl", JStr "y")]) w0
    = (Return p, w0)
    /\ dict_lookup "companyUrl" p = Some (JStr "y").
Proof.
  destruct (process_profile_companyUrl
              [("CompanyUrl", JStr ""); ("regularCompanyUrl", JStr "y")] w0)
    as (p & Hp & _ & _ & _ & Hy).
  exists p. split; [exact Hp|exact (Hy eq_refl)].
Defined.

(** C3 as stated fails: the request of the end-to-end scenario succeeds, and
    the one write it makes creates the document with the two tracked fields
    and no last-updated timestamp. *)
Lemma session_write_has_no_timestamp :
  exists res w',
    search_sales_navigator happy query user w0 = (Return res, w')
    /\ List.filter is_store_write (trace w')
       = [StoreSet ("users", "u1") (user_data_of query)]
    /\ user_data_of query !! "last_updated" = None
    /\ store w' !! ("users", "u1")
       = Some (<["sessionCookie" := FStr "sess123"]>
                 {[ "Events_URL" := FStr (q_url query) ]})
    /\ length (events res) = 2%nat.
Proof.
  eexists. eexists. split; [vm_compute; reflexivity|].
  repeat split; vm_compute; reflexivity.
Qed.

Lemma successful_request_writes_session_once_witness :
  exists res w',
    search_sales_navigator happy query user w0 = (Return res, w')
    /\ exists pre write,
         trace w' = trace w0 ++ pre ++ [StoreGet ("users", userId res); write]
         /\ List.filter is_store_write (pre ++ [StoreGet ("users", userId res); write])
            = [write].
Proof.
  destruct (search_sales_navigator happy query user w0) as [[res|e] w'] eqn:Hrun.
  - exists res, w'. split; [reflexivity|].
    pose proof (successful_request_writes_session_once happy query user w0 w' res Hrun) as H.
    cbv zeta in H. destruct H as (pre & write & Htrace & _ & Hone & _).
    exists pre, write. split; [exact Htrace|exact Hone].
  - vm_compute in Hrun. discriminate Hrun.
Defined.

(** [updateUser], which the endpoint does not call, is where a
    [last_updated] timestamp is sent: on its update path only. *)
Lemma updateUser_timestamp :
  List.filter is_store_write
    (trace (snd (updateUser happy "users" "u1" "Events_URL" "x"
                   (mkWorld 0 [] {[ ("users", "u1") := ∅ ]}))))
  = [StoreUpdate ("users", "u1")
       (<["last_updated" := SERVER_TIMESTAMP]> {[ "Events_URL" := WStr "x" ]})]
  /\ List.filter is_store_write
       (trace (snd (updateUser happy "users" "u1" "Events_URL" "x" w0)))
     = [StoreSet ("users", "u1")
          (<["sessionCookie" := WStr ""]> {[ "Events_URL" := WStr "x" ]})].
Proof. split; vm_compute; reflexivity. Qed.

End Runs.

(** ** The loops, pass by pass *)

Section LoopPasses.

Context {RT : Runtime}.
Variable env : environment.
Variable self : PhantomBusterClient.

Lemma wait_attempts_pass phantom_id attempt rest w :
  wait_attempts env self phantom_id (attempt :: rest) w
  = run_pass (wait_pass self attempt (respond env (tick w) (agent_request self phantom_id)))
      (agent_request self phantom_id) (retry_delay self)
      (wait_attempts env self phantom_id rest) w.
Proof.
  cbn [wait_attempts]. unfold bind at 1. unfold try_except, bind at 1.
  unfold is_phantom_running, bind at 1, requests_get, http_call.
  fold (agent_request self phantom_id). unfold wait_pass, run_pass, after_pass.
  destruct (Nat.ltb attempt (max_retries self - 1));
    (destruct (respond env (tick w) (agent_request self phantom_id)) as [r|msg];
     [|reflexivity]);
    (destruct (negb (Z.eqb (status_code r) 200)); [reflexivity|]);
    unfold bind at 1, resp_json;
    (destruct (json_loads (text r)) as [body|]; [|reflexivity]);
    unfold ret at 1, bind at 1;
    destruct body; try reflexivity; cbn [method_get]; unfold ret at 1;
    destruct (eq_str (dict_get "status" JNull items) "RUNNING"); reflexivity.
Qed.

Lemma launch_attempts_pass url payload attempt rest w :
  launch_attempts env self url payload (attempt :: rest) w
  = run_pass (launch_pass self attempt
                (respond env (tick w) (POST url payload (headers self))))
      (POST url payload (headers self)) (retry_delay self)
      (launch_attempts env self url payload rest) w.
Proof.
  cbn [launch_attempts]. unfold bind at 1. unfold try_except, bind at 1.
  unfold requests_post, http_call. unfold launch_pass, run_pass, after_pass.
  destruct (respond env (tick w) (POST url payload (headers self))) as [r|msg].
  - unfold resp_json.
    destruct (json_loads (text r)) as [body|].
    + destruct (Z.eqb (status_code r) 200).
      * unfold bind at 1, ret at 1, bind at 1.
        destruct body; try reflexivity. cbn [subscript].
        destruct (dict_lookup "containerId" items); reflexivity.
      * unfold bind at 1, ret at 1.
        destruct (str_contains "maxParallelismReached" (py_str body));
          destruct (Nat.ltb attempt (max_retries self - 1)); reflexivity.
    + destruct (Z.eqb (status_code r) 200); unfold bind, raise;
        cbn [is_RequestException];
        destruct (Nat.eqb attempt (max_retries self - 1)); reflexivity.
  - cbn [is_RequestException].
    destruct (Nat.eqb attempt (max_retries self - 1)); reflexivity.
Qed.

Lemma poll_attempts_pass url remaining w :
  poll_attempts env self url (S remaining) w
  = run_pass (poll_pass (respond env (tick w) (GET url (headers self))))
      (GET url (headers self)) 10
      (poll_attempts env self url remaining) w.
Proof.
  cbn [poll_attempts]. unfold bind at 1. unfold try_except, bind at 1.
  unfold requests_get, http_call. unfold poll_pass, run_pass, after_pass.
  destruct (respond env (tick w) (GET url (headers self))) as [r|msg];
    [|reflexivity].
  destruct (negb (Z.eqb (status_code r) 200)); [reflexivity|].
  unfold bind at 1, resp_json.
  destruct (json_loads (text r)) as [body|]; [|reflexivity].
  unfold ret at 1, bind at 1.
  destruct body; try reflexivity. cbn [method_get]. unfold ret at 1.
  destruct (eq_str (dict_get "status" JNull items) "finished"); [reflexivity|].
  destruct (eq_str (dict_get "status" JNull items) "failed"); reflexivity.
Qed.

End LoopPasses.

(** ** Launching *)

Section LaunchMore.

Context {RT : Runtime}.
Variable env : environment.
Variable self : PhantomBusterClient.
Variables (url : string) (payload : json).

Let rq : request := POST url payload (headers self).

Lemma launch_pass_retriable attempt rp :
  launch_retriable rp = true ->
  Nat.ltb attempt (max_retries self - 1) = true ->
  launch_pass self attempt rp = Again true.
Proof.
  unfold launch_retriable, launch_pass. intros Hrp Hlt.
  assert (Nat.eqb attempt (max_retries self - 1) = false) as Hne.
  { apply Nat.ltb_lt in Hlt. apply Nat.eqb_neq. lia. }
  rewrite Hne. destruct rp as [r|msg]; [|reflexivity].
  cbn [transport_error] in Hrp. rewrite orb_false_r in Hrp.
  apply max_parallelism_inv in Hrp as (r' & error_data & [= <-] & Hc & Hl & Hm).
  rewrite Hl, Hm, Hlt. destruct (Z.eqb_spec (status_code r) 200); [contradiction|reflexivity].
Qed.

(** On the last attempt no reply leads to another pass. *)
Lemma launch_pass_last attempt rp sleeps :
  attempt = (max_retries self - 1)%nat ->
  launch_pass self attempt rp <> Again sleeps.
Proof.
  intros ->. unfold launch_pass. rewrite Nat.eqb_refl, Nat.ltb_irrefl.
  destruct rp as [r|msg]; [|discriminate].
  destruct (json_loads (text r)) as [body|]; [|discriminate].
  destruct (Z.eqb (status_code r) 200); [|rewrite andb_false_r; discriminate].
  destruct body; try discriminate.
  destruct (dict_lookup "containerId" items); discriminate.
Qed.

(** The only [HTTPException] a pass raises is a 500. *)
Lemma launch_pass_fail attempt rp e :
  launch_pass self attempt rp = Fail e -> http_codes [500] e.
Proof.
  unfold launch_pass.
  destruct rp as [r|msg].
  - destruct (json_loads (text r)) as [body|].
    + destruct (Z.eqb (status_code r) 200).
      * destruct body; try (intros [= <-]; exact I).
        destruct (dict_lookup "containerId" items); [discriminate|intros [= <-]; exact I].
      * destruct (_ && _); [discriminate|intros [= <-]; cbn; auto].
    + destruct (Nat.eqb attempt (max_retries self - 1)); [intros [= <-]; cbn; auto|discriminate].
  - destruct (Nat.eqb attempt (max_retries self - 1)); [intros [= <-]; cbn; auto|discriminate].
Qed.

Lemma launch_trace_retried a n :
  (a + S n <= max_retries self - 1)%nat ->
  forall evs,
    evs ++ launch_trace self rq (seq a (S n))
    = (evs ++ [Request rq; Sleep (retry_delay self)]) ++ launch_trace self rq (seq (S a) n).
Proof.
  intros Ha evs. cbn [seq]. rewrite (launch_trace_cons self url payload a).
  unfold launch_trace at 1. cbn [flat_map].
  assert (Nat.ltb a (max_retries self - 1) = true) as -> by (apply Nat.ltb_lt; lia).
  rewrite app_nil_r, <- app_assoc. reflexivity.
Qed.

(** [n] attempts in a row that are retried, none of them the last one. *)
Lemma launch_attempts_retried_run n :
  forall a w rest,
    (a + n <= max_retries self - 1)%nat ->
    (forall i, (i < n)%nat -> launch_retriable (respond env (tick w + i) rq) = true) ->
    launch_attempts env self url payload (seq a n ++ rest) w
    = launch_attempts env self url payload rest
        (mkWorld (tick w + n) (trace w ++ launch_trace self rq (seq a n)) (store w)).
Proof.
  induction n as [|n IH]; intros a w rest Ha Hall.
  - cbn. rewrite Nat.add_0_r, app_nil_r. now destruct w.
  - cbn [seq app]. rewrite launch_attempts_pass. fold rq.
    rewrite launch_pass_retriable.
    2:{ specialize (Hall 0%nat). rewrite Nat.add_0_r in Hall. apply Hall. lia. }
    2:{ apply Nat.ltb_lt. lia. }
    unfold run_pass, after_pass. rewrite IH.
    + cbn [slept log_event tick trace store].
      rewrite (launch_trace_retried a n) by lia.
      rewrite <- !app_assoc. cbn [app]. do 2 f_equal. lia.
    + lia.
    + intros i Hi. cbn [slept log_event tick].
      replace (S (tick w) + i)%nat with (tick w + S i)%nat by lia.
      apply Hall. lia.
Qed.

Lemma seq_split_at n m :
  (n < m)%nat -> seq 0 m = seq 0 n ++ n :: seq (S n) (m - S n).
Proof.
  intros Hn. replace m with (n + S (m - S n))%nat at 1 by lia.
  now rewrite seq_app.
Qed.

(** The outcome of [trigger_phantom] when the first [n] attempts are retried:
    that of the pass of attempt [n]. *)
Lemma launch_attempts_after_retries n w :
  (n < max_retries self)%nat ->
  (forall i, (i < n)%nat -> launch_retriable (respond env (tick w + i) rq) = true) ->
  launch_attempts env self url payload (seq 0 (max_retries self)) w
  = run_pass (launch_pass self n (respond env (tick w + n) rq)) rq (retry_delay self)
      (launch_attempts env self url payload (seq (S n) (max_retries self - S n)))
      (mkWorld (tick w + n) (trace w ++ launch_trace self rq (seq 0 n)) (store w)).
Proof.
  intros Hn Hall. rewrite (seq_split_at n (max_retries self)) by exact Hn.
  rewrite launch_attempts_retried_run by (first [lia|exact Hall]).
  now rewrite launch_attempts_pass.
Qed.

(** With at least one attempt, the 503 after the loop is out of reach: every
    [HTTPException] of the loop is a 500. *)
Lemma launch_attempts_raises n :
  forall a w e w',
    (a + S n = max_retries self)%nat ->
    launch_attempts env self url payload (seq a (S n)) w = (Raise e, w') ->
    http_codes [500] e.
Proof.
  induction n as [|n IH]; intros a w e w' Ha; cbn [seq];
    rewrite launch_attempts_pass; unfold run_pass;
    destruct (launch_pass self a _) as [cid|e0|sleeps] eqn:Hpass;
    try discriminate;
    try (intros [= <- <-]; now apply launch_pass_fail in Hpass).
  - exfalso. apply (launch_pass_last a _ sleeps) in Hpass; [exact Hpass|lia].
  - apply IH. lia.
Qed.

Lemma launch_pass_accepted attempt rp cid :
  launch_accepted rp = Some cid -> launch_pass self attempt rp = Leave cid.
Proof.
  unfold launch_accepted, launch_pass. destruct rp as [r|msg]; [|discriminate].
  destruct (Z.eqb (status_code r) 200); [|discriminate].
  destruct (json_loads (text r)) as [[]|]; try discriminate.
  now intros ->.
Qed.

Lemma count_sleeps_app evs evs' :
  count_sleeps (evs ++ evs') = (count_sleeps evs + count_sleeps evs')%nat.
Proof. unfold count_sleeps. now rewrite List.filter_app, length_app. Qed.

Lemma launch_trace_retried_counts n :
  forall a,
    (a + n <= max_retries self - 1)%nat ->
    count_requests (launch_trace self rq (seq a n)) = n
    /\ count_sleeps (launch_trace self rq (seq a n)) = n.
Proof.
  induction n as [|n IH]; intros a Ha; [split; reflexivity|].
  pose proof (launch_trace_retried a n Ha []) as Heq. cbn [app] in Heq. rewrite Heq.
  destruct (IH (S a)) as [Hr Hs]; [lia|].
  change ([Request rq; Sleep (retry_delay self)] ++ launch_trace self rq (seq (S a) n))
    with (Request rq :: Sleep (retry_delay self) :: launch_trace self rq (seq (S a) n)).
  unfold count_requests, count_sleeps in *. cbn [List.filter is_request length].
  now rewrite Hr, Hs.
Qed.

End LaunchMore.

Section LaunchProperties.

Context {RT : Runtime}.

(** X1.  [trigger_phantom] returns the container id of the first accepted
    launch: when the first [n] attempts (fewer than [max_retries]) are
    refused for parallelism or fail in transport and the next one is answered
    200 with a ["containerId"], that id is returned after [n + 1] requests
    and [n] sleeps of [retry_delay]. *)
Theorem trigger_phantom_retries_until_accepted
    (env : environment) (self : PhantomBusterClient)
    (phantom_id linkedin_cookies search_url : string) (w : world) (n : nat) (cid : json) :
  (n < max_retries self)%nat ->
  (forall i, (i < n)%nat ->
     launch_retriable
       (respond env (tick w + i)
          (launch_request self phantom_id linkedin_cookies search_url)) = true) ->
  launch_accepted
    (respond env (tick w + n) (launch_request self phantom_id linkedin_cookies search_url))
  = Some cid ->
  trigger_phantom env self phantom_id linkedin_cookies search_url w
  = (Return cid,
     mkWorld (tick w + S n)
       (trace w
        ++ launch_trace self (launch_request self phantom_id linkedin_cookies search_url)
             (seq 0 n)
        ++ [Request (launch_request self phantom_id linkedin_cookies search_url)])
       (store w))
  /\ count_requests
       (launch_trace self (launch_request self phantom_id linkedin_cookies search_url)
          (seq 0 n)
        ++ [Request (launch_request self phantom_id linkedin_cookies search_url)]) = S n
  /\ count_sleeps
       (launch_trace self (launch_request self phantom_id linkedin_cookies search_url)
          (seq 0 n)
        ++ [Request (launch_request self phantom_id linkedin_cookies search_url)]) = n.
Proof.
  intros Hn Hall Hacc. unfold launch_request in *.
  destruct (launch_trace_retried_counts self (launch_url self)
              (launch_payload phantom_id linkedin_cookies search_url) n 0%nat)
    as [Hr Hs]; [lia|].
  split; [|split].
  - unfold trigger_phantom.
    rewrite (launch_attempts_after_retries env self _ _ n w Hn Hall).
    rewrite (launch_pass_accepted self n _ cid Hacc).
    unfold run_pass, log_event. cbn [tick trace store].
    rewrite <- app_assoc. do 2 f_equal. lia.
  - rewrite count_requests_app, Hr. cbn. lia.
  - rewrite count_sleeps_app, Hs. cbn. lia.
Qed.

(** X2.  A launch answered with a status code other than 200 and a body that
    decodes as JSON to a value whose text does not mention
    maxParallelismReached is fatal on any attempt: after [n] retried
    attempts, [trigger_phantom] raises the 500 "Error launching phantom"
    with the answer's text, and makes no further request.  (A body that does
    not decode is another case: [response.json()] raises and the handler of
    [RequestException] takes over.) *)
Theorem trigger_phantom_other_refusal_is_fatal
    (env : environment) (self : PhantomBusterClient)
    (phantom_id linkedin_cookies search_url : string) (w : world) (n : nat)
    (r : response) (error_data : json) :
  (n < max_retries self)%nat ->
  (forall i, (i < n)%nat ->
     launch_retriable
       (respond env (tick w + i)
          (launch_request self phantom_id linkedin_cookies search_url)) = true) ->
  respond env (tick w + n) (launch_request self phantom_id linkedin_cookies search_url)
  = Response r ->
  status_code r <> 200 ->
  json_loads (text r) = Some error_data ->
  str_contains "maxParallelismReached" (py_str error_data) = false ->
  trigger_phantom env self phantom_id linkedin_cookies search_url w
  = (Raise (HTTPException 500 ("Error launching phantom: " +:+ text r)),
     mkWorld (tick w + S n)
       (trace w
        ++ launch_trace self (launch_request self phantom_id linkedin_cookies search_url)
             (seq 0 n)
        ++ [Request (launch_request self phantom_id linkedin_cookies search_url)])
       (store w)).
Proof.
  intros Hn Hall Hr Hc Hl Hm. unfold launch_request in *. unfold trigger_phantom.
  rewrite (launch_attempts_after_retries env self _ _ n w Hn Hall), Hr.
  unfold launch_pass. rewrite Hl, Hm.
  destruct (Z.eqb_spec (status_code r) 200); [contradiction|].
  unfold run_pass, log_event. cbn [tick trace store andb].
  rewrite <- app_assoc. do 2 f_equal. lia.
Qed.

(** X3.  A launch answered 200 with an object that has no ["containerId"]
    key is not retried: the [KeyError] of the subscript is not a
    [RequestException] and leaves [trigger_phantom] as it is, the accepted
    request being the last one made. *)
Theorem trigger_phantom_missing_container_id
    (env : environment) (self : PhantomBusterClient)
    (phantom_id linkedin_cookies search_url : string) (w : world) (n : nat)
    (r : response) (items : list (string * json)) :
  (n < max_retries self)%nat ->
  (forall i, (i < n)%nat ->
     launch_retriable
       (respond env (tick w + i)
          (launch_request self phantom_id linkedin_cookies search_url)) = true) ->
  respond env (tick w + n) (launch_request self phantom_id linkedin_cookies search_url)
  = Response r ->
  status_code r = 200 ->
  json_loads (text r) = Some (JDict items) ->
  dict_lookup "containerId" items = None ->
  trigger_phantom env self phantom_id linkedin_cookies search_url w
  = (Raise (PyError "KeyError" "containerId"),
     mkWorld (tick w + S n)
       (trace w
        ++ launch_trace self (launch_request self phantom_id linkedin_cookies search_url)
             (seq 0 n)
        ++ [Request (launch_request self phantom_id linkedin_cookies search_url)])
       (store w)).
Proof.
  intros Hn Hall Hr Hc Hl Hk. unfold launch_request in *. unfold trigger_phantom.
  rewrite (launch_attempts_after_retries env self _ _ n w Hn Hall), Hr.
  unfold launch_pass. rewrite Hl, Hc, Hk.
  unfold run_pass, log_event. cbn [tick trace store Z.eqb Pos.eqb].
  rewrite <- app_assoc. do 2 f_equal. lia.
Qed.

(** X4.  A transport failure is fatal only on the last attempt: when the
    attempts before the last are retried and the last one fails in transport,
    [trigger_phantom] raises the 500 "Network error launching phantom" after
    [max_retries] requests, without sleeping after the last one. *)
Theorem trigger_phantom_transport_failure_on_last_attempt
    (env : environment) (self : PhantomBusterClient)
    (phantom_id linkedin_cookies search_url : string) (w : world) (n : nat)
    (msg : string) :
  max_retries self = S n ->
  (forall i, (i < n)%nat ->
     launch_retriable
       (respond env (tick w + i)
          (launch_request self phantom_id linkedin_cookies search_url)) = true) ->
  respond env (tick w + n) (launch_request self phantom_id linkedin_cookies search_url)
  = ConnectionError msg ->
  trigger_phantom env self phantom_id linkedin_cookies search_url w
  = (Raise (HTTPException 500
              ("Network error launching phantom: " +:+ exc_str (RequestException msg))),
     mkWorld (tick w + S n)
       (trace w
        ++ launch_trace self (launch_request self phantom_id linkedin_cookies search_url)
             (seq 0 n)
        ++ [Request (launch_request self phantom_id linkedin_cookies search_url)])
       (store w))
  /\ count_sleeps
       (launch_trace self (launch_request self phantom_id linkedin_cookies search_url)
          (seq 0 n)
        ++ [Request (launch_request self phantom_id linkedin_cookies search_url)]) = n.
Proof.
  intros Hmax Hall Hr. unfold launch_request in *.
  destruct (launch_trace_retried_counts self (launch_url self)
              (launch_payload phantom_id linkedin_cookies search_url) n 0%nat)
    as [_ Hs]; [lia|].
  split.
  - unfold trigger_phantom.
    rewrite (launch_attempts_after_retries env self _ _ n w) by (first [lia|exact Hall]).
    rewrite Hr. unfold launch_pass.
    replace (Nat.eqb n (max_retries self - 1)) with true
      by (symmetry; apply Nat.eqb_eq; lia).
    unfold run_pass, log_event. cbn [tick trace store].
    rewrite <- app_assoc. do 2 f_equal. lia.
  - rewrite count_sleeps_app, Hs. cbn. lia.
Qed.

(** X5.  Whatever the provider answers, a [trigger_phantom] that makes at
    least one attempt never raises the 503 "Maximum retry attempts reached":
    every [HTTPException] it raises has status code 500. *)
Theorem trigger_phantom_http_errors_are_500
    (env : environment) (self : PhantomBusterClient)
    (phantom_id linkedin_cookies search_url : string) (w w' : world)
    (code : Z) (detail : string) :
  (0 < max_retries self)%nat ->
  trigger_phantom env self phantom_id linkedin_cookies search_url w
  = (Raise (HTTPException code detail), w') ->
  code = 500.
Proof.
  intros Hmax Hrun. unfold trigger_phantom in Hrun.
  destruct (max_retries self) as [|n] eqn:Hn; [lia|].
  apply (launch_attempts_raises env self _ _ n 0%nat) in Hrun; [|now rewrite Hn].
  cbn in Hrun. destruct Hrun as [<-|[]]. reflexivity.
Qed.

End LaunchProperties.

(** ** Acquiring a worker *)

Section AcquisitionMore.

Context {RT : Runtime}.
Variable env : environment.
Variable self : PhantomBusterClient.

Lemma wait_pass_leave attempt rp b :
  wait_pass self attempt rp = Leave b -> b = true /\ reports_available rp = true.
Proof.
  unfold wait_pass, reports_available, status_of. destruct rp as [r|msg]; [|discriminate].
  destruct (Z.eqb (status_code r) 200); cbn [negb]; [|discriminate].
  destruct (json_loads (text r)) as [[]|]; try discriminate.
  destruct (eq_str (dict_get "status" JNull items) "RUNNING"); [discriminate|].
  now intros [= <-].
Qed.

Lemma wait_pass_fail attempt rp e :
  wait_pass self attempt rp = Fail e -> is_HTTPException e = false.
Proof.
  unfold wait_pass. destruct rp as [r|msg]; [|now intros [= <-]].
  destruct (negb (Z.eqb (status_code r) 200)); [discriminate|].
  destruct (json_loads (text r)) as [[]|]; try (now intros [= <-]).
  destruct (eq_str (dict_get "status" JNull items) "RUNNING"); discriminate.
Qed.

Lemma after_pass_facts rq sleeps seconds w :
  tick (after_pass rq sleeps seconds w) = S (tick w)
  /\ store (after_pass rq sleeps seconds w) = store w
  /\ exists evs,
       trace (after_pass rq sleeps seconds w) = trace w ++ Request rq :: evs
       /\ count_requests evs = 0%nat
       /\ count_sleeps evs = (if sleeps then 1 else 0)%nat.
Proof.
  unfold after_pass, slept, log_event. destruct sleeps; cbn [tick trace store].
  - repeat split. exists [Sleep seconds]. rewrite <- app_assoc. repeat split.
  - repeat split. exists []. repeat split.
Qed.

(** What a run of the wait loop on one worker amounts to, by its outcome. *)
Lemma wait_attempts_outcome phantom_id attempts :
  forall w r w',
    wait_attempts env self phantom_id attempts w = (r, w') ->
    exists evs,
      trace w' = trace w ++ evs
      /\ tick w' = (tick w + count_requests evs)%nat
      /\ (count_requests evs <= length attempts)%nat
      /\ match r with
         | Return true =>
             (exists evs', evs = evs' ++ [Request (agent_request self phantom_id)])
             /\ reports_available
                  (respond env (tick w' - 1) (agent_request self phantom_id)) = true
         | Return false => count_requests evs = length attempts
         | Raise e => is_HTTPException e = false
         end.
Proof.
  induction attempts as [|attempt rest IH]; intros w r w'.
  - cbn. intros [= <- <-]. exists []. rewrite app_nil_r. cbn. repeat split; lia.
  - rewrite wait_attempts_pass. unfold run_pass.
    destruct (wait_pass self attempt _) as [b|e|sleeps] eqn:Hpass.
    + intros [= <- <-]. apply wait_pass_leave in Hpass as [-> Havail].
      exists [Request (agent_request self phantom_id)]. cbn [log_event tick trace].
      split; [reflexivity|]. split; [cbn; lia|]. split; [cbn; lia|].
      split; [now exists []|]. now rewrite Nat.sub_1_r.
    + intros [= <- <-]. apply wait_pass_fail in Hpass.
      exists [Request (agent_request self phantom_id)]. cbn [log_event tick trace].
      split; [reflexivity|]. split; [cbn; lia|]. split; [cbn; lia|exact Hpass].
    + intros Hrun. apply IH in Hrun as (evs & Htrace & Htick & Hle & Hcase).
      destruct (after_pass_facts (agent_request self phantom_id) sleeps
                  (retry_delay self) w) as (Ht & _ & evs1 & Htr & Hr1 & _).
      exists ((Request (agent_request self phantom_id) :: evs1) ++ evs).
      assert (count_requests ((Request (agent_request self phantom_id) :: evs1) ++ evs)
              = S (count_requests evs)) as Hcount.
      { rewrite count_requests_app. unfold count_requests in *.
        cbn [List.filter is_request length]. now rewrite Hr1. }
      rewrite Hcount. split; [now rewrite Htrace, Htr, <- app_assoc|].
      split; [lia|]. split; [cbn [length]; lia|].
      destruct r as [[|]|e]; [| |exact Hcase].
      * destruct Hcase as [[evs' ->] Havail]. split; [|exact Havail].
        exists ((Request (agent_request self phantom_id) :: evs1) ++ evs').
        now rewrite <- app_assoc.
      * cbn [length]. lia.
Qed.

(** What a run of acquisition over the workers [ids] amounts to, by its outcome. *)
Lemma first_available_outcome ids :
  forall w r w',
    first_available env self ids w = (r, w') ->
    exists evs,
      trace w' = trace w ++ evs
      /\ tick w' = (tick w + count_requests evs)%nat
      /\ (count_requests evs <= length ids * max_retries self)%nat
      /\ match r with
         | Return phantom_id =>
             In phantom_id ids
             /\ (exists evs', evs = evs' ++ [Request (agent_request self phantom_id)])
             /\ reports_available
                  (respond env (tick w' - 1) (agent_request self phantom_id)) = true
         | Raise e =>
             is_HTTPException e = false
             \/ (e = HTTPException 503
                       "All phantoms are busy and maximum retry attempts reached"
                 /\ count_requests evs = (length ids * max_retries self)%nat)
         end.
Proof.
  induction ids as [|phantom_id rest IH]; intros w r w'.
  - cbn. intros [= <- <-]. exists []. rewrite app_nil_r. cbn.
    repeat split; try lia. right. split; reflexivity.
  - cbn [first_available]. unfold bind, wait_for_phantom_availability.
    destruct (wait_attempts env self phantom_id _ w) as [[[|]|e] w1] eqn:Hwait;
      apply wait_attempts_outcome in Hwait as (evs1 & Htr1 & Ht1 & Hle1 & Hcase1);
      rewrite length_seq in *.
    + intros [= <- <-]. exists evs1. destruct Hcase1 as [Hlast Havail].
      split; [exact Htr1|]. split; [exact Ht1|]. split; [cbn [length]; lia|].
      split; [now left|]. split; [exact Hlast|exact Havail].
    + intros Hrun. apply IH in Hrun as (evs & Htr & Ht & Hle & Hcase).
      exists (evs1 ++ evs). rewrite count_requests_app.
      split; [now rewrite Htr, Htr1, <- app_assoc|].
      split; [lia|]. split; [cbn [length]; lia|].
      destruct r as [found|e].
      * destruct Hcase as (Hin & [evs' ->] & Havail).
        split; [now right|]. split; [|exact Havail].
        exists (evs1 ++ evs'). now rewrite <- app_assoc.
      * destruct Hcase as [Hnot|[-> Hall]]; [now left|].
        right. split; [reflexivity|]. cbn [length]. lia.
    + intros [= <- <-]. exists evs1.
      split; [exact Htr1|]. split; [exact Ht1|]. split; [cbn [length]; lia|now left].
Qed.

Lemma wait_attempts_busy_prefix phantom_id busy :
  forall rest w,
    (forall i, (i < length busy)%nat ->
       busy_reply (respond env (tick w + i) (agent_request self phantom_id)) = true) ->
    wait_attempts env self phantom_id (busy ++ rest) w
    = wait_attempts env self phantom_id rest
        (mkWorld (tick w + length busy)
           (trace w ++ busy_trace self phantom_id busy) (store w)).
Proof.
  induction busy as [|attempt busy IH]; intros rest w Hbusy.
  - cbn. rewrite Nat.add_0_r, app_nil_r. now destruct w.
  - cbn [app]. rewrite wait_attempts_busy_step.
    2:{ specialize (Hbusy 0%nat). rewrite Nat.add_0_r in Hbusy. apply Hbusy. cbn. lia. }
    rewrite after_busy_check_eq, IH; cbn [tick trace store].
    + rewrite (busy_trace_cons _ _ attempt busy), <- app_assoc.
      do 2 f_equal. cbn [length]. lia.
    + intros i Hi. replace (S (tick w) + i)%nat with (tick w + S i)%nat by lia.
      apply Hbusy. cbn. lia.
Qed.

Lemma first_available_busy_prefix busy_ids :
  forall rest w,
    pool_answers env busy_reply self (tick w) busy_ids ->
    first_available env self (busy_ids ++ rest) w
    = first_available env self rest
        (mkWorld (tick w + length busy_ids * max_retries self)
           (trace w ++ pool_busy_trace self busy_ids) (store w)).
Proof.
  induction busy_ids as [|phantom_id busy_ids IH]; intros rest w Hpool.
  - cbn. rewrite Nat.add_0_r, app_nil_r. now destruct w.
  - destruct Hpool as [Hhere Hrest].
    cbn [app first_available]. unfold bind, wait_for_phantom_availability.
    rewrite wait_attempts_busy by (rewrite length_seq; exact Hhere).
    rewrite length_seq, IH by exact Hrest. cbn [tick trace store].
    unfold pool_busy_trace. cbn [flat_map length]. rewrite <- app_assoc.
    do 2 f_equal. lia.
Qed.

End AcquisitionMore.

Section AcquisitionProperties.

Context {RT : Runtime}.

(** X6.  [get_available_phantom] returns the first worker found available:
    when the workers before it in the pool answer busy (RUNNING, or a
    provider error) to all their checks, and the worker itself answers busy
    to its first [i] checks and then a status other than RUNNING, its id is
    returned at once, after exactly the checks made so far. *)
Theorem get_available_phantom_first_available
    (env : environment) (self : PhantomBusterClient)
    (busy_ids : list string) (phantom_id : string) (later : list string)
    (w : world) (i : nat) :
  phantom_ids self = busy_ids ++ phantom_id :: later ->
  pool_answers env busy_reply self (tick w) busy_ids ->
  (i < max_retries self)%nat ->
  (forall j, (j < i)%nat ->
     busy_reply
       (respond env (tick w + length busy_ids * max_retries self + j)
          (agent_request self phantom_id)) = true) ->
  reports_available
    (respond env (tick w + length busy_ids * max_retries self + i)
       (agent_request self phantom_id)) = true ->
  get_available_phantom env self w
  = (Return phantom_id,
     mkWorld (tick w + length busy_ids * max_retries self + S i)
       (trace w ++ pool_busy_trace self busy_ids
        ++ busy_trace self phantom_id (seq 0 i)
        ++ [Request (agent_request self phantom_id)])
       (store w))
  /\ count_requests
       (pool_busy_trace self busy_ids ++ busy_trace self phantom_id (seq 0 i)
        ++ [Request (agent_request self phantom_id)])
     = (length busy_ids * max_retries self + S i)%nat.
Proof.
  intros Hids Hpool Hi Hbusy Havail. split.
  - unfold get_available_phantom. rewrite Hids.
    rewrite first_available_busy_prefix by exact Hpool.
    cbn [first_available]. unfold bind at 1, wait_for_phantom_availability.
    rewrite (seq_split_at i (max_retries self)) by exact Hi.
    rewrite wait_attempts_busy_prefix by (rewrite length_seq; exact Hbusy).
    unfold reports_available in Havail.
    destruct (status_of _) as [s|] eqn:Hs; [|discriminate].
    rewrite length_seq.
    rewrite (wait_attempts_idle env self phantom_id i _ _ s); cbn [tick];
      [| exact Hs | now apply negb_true_iff].
    unfold log_event. cbn [tick trace store]. rewrite <- !app_assoc.
    do 2 f_equal. lia.
  - rewrite !count_requests_app, count_requests_pool_busy_trace,
      count_requests_busy_trace, length_seq. cbn. lia.
Qed.

(** X7.  A worker returned by [get_available_phantom] is one of the pool,
    and the last thing done was a status check of that worker that was
    answered 200 with a status other than RUNNING.  The only
    [HTTPException] acquisition raises is the 503, and only after
    [max_retries] checks of every worker of the pool. *)
Theorem get_available_phantom_outcome
    (env : environment) (self : PhantomBusterClient) (w w' : world) :
  (forall phantom_id,
     get_available_phantom env self w = (Return phantom_id, w') ->
     In phantom_id (phantom_ids self)
     /\ (exists evs, trace w' = trace w ++ evs ++ [Request (agent_request self phantom_id)])
     /\ reports_available (respond env (tick w' - 1) (agent_request self phantom_id)) = true)
  /\ (forall code detail,
        get_available_phantom env self w = (Raise (HTTPException code detail), w') ->
        code = 503
        /\ detail = "All phantoms are busy and maximum retry attempts reached"
        /\ exists evs,
             trace w' = trace w ++ evs
             /\ count_requests evs = (length (phantom_ids self) * max_retries self)%nat).
Proof.
  unfold get_available_phantom. split.
  - intros phantom_id Hrun.
    apply first_available_outcome in Hrun
      as (evs & Htr & _ & _ & Hin & [evs' ->] & Havail).
    split; [exact Hin|]. split; [now exists evs'|exact Havail].
  - intros code detail Hrun.
    apply first_available_outcome in Hrun as (evs & Htr & _ & _ & [Hnot|[[= -> ->] Hall]]);
      [discriminate|].
    split; [reflexivity|]. split; [reflexivity|]. now exists evs.
Qed.

End AcquisitionProperties.

(** ** Polling a job *)

Section PollingMore.

Context {RT : Runtime}.
Variable env : environment.
Variable self : PhantomBusterClient.
Variable url : string.

Let rq : request := GET url (headers self).

Lemma poll_pass_keeps rp : keeps_polling rp = true -> poll_pass rp = Again true.
Proof.
  unfold keeps_polling, poll_pass. destruct rp as [r|msg]; [|reflexivity].
  destruct (Z.eqb (status_code r) 200); [|discriminate]. cbn [negb andb].
  destruct (json_loads (text r)) as [[]|]; try discriminate; try reflexivity.
  intros [Hfin Hfail]%andb_true_iff. apply negb_true_iff in Hfin, Hfail.
  now rewrite Hfin, Hfail.
Qed.

Lemma poll_pass_failed rp error_message :
  reports_failed rp = Some error_message ->
  poll_pass rp
  = Fail (HTTPException 500 ("Container execution failed: " +:+ py_str error_message)).
Proof.
  unfold reports_failed, poll_pass. destruct rp as [r|msg]; [|discriminate].
  destruct (Z.eqb (status_code r) 200); [|discriminate]. cbn [negb].
  destruct (json_loads (text r)) as [[]|]; try discriminate.
  destruct (eq_str (dict_get "status" JNull items) "failed") eqn:Hfail; [|discriminate].
  intros [= <-].
  destruct (eq_str (dict_get "status" JNull items) "finished") eqn:Hfin; [|reflexivity].
  exfalso. unfold eq_str in *. destruct (dict_get "status" JNull items); try discriminate.
  apply String.eqb_eq in Hfail, Hfin. congruence.
Qed.

Lemma poll_pass_finished rp : reports_finished rp = true -> poll_pass rp = Leave tt.
Proof.
  unfold reports_finished, status_of, poll_pass. destruct rp as [r|msg]; [|discriminate].
  destruct (Z.eqb (status_code r) 200); [|discriminate]. cbn [negb].
  destruct (json_loads (text r)) as [[]|]; try discriminate.
  now intros ->.
Qed.

(** [j] polls in a row that neither end the job nor are fatal. *)
Lemma poll_attempts_keeps_run j :
  forall remaining w,
    (forall i, (i < j)%nat -> keeps_polling (respond env (tick w + i) rq) = true) ->
    poll_attempts env self url (j + remaining) w
    = poll_attempts env self url remaining
        (mkWorld (tick w + j) (trace w ++ poll_trace rq j) (store w)).
Proof.
  induction j as [|j IH]; intros remaining w Hkeep.
  - cbn. rewrite Nat.add_0_r, app_nil_r. now destruct w.
  - cbn [Nat.add]. rewrite poll_attempts_pass. fold rq. rewrite poll_pass_keeps.
    2:{ specialize (Hkeep 0%nat). rewrite Nat.add_0_r in Hkeep. apply Hkeep. lia. }
    unfold run_pass, after_pass. rewrite IH.
    + cbn [slept log_event tick trace store poll_trace].
      rewrite <- !app_assoc. cbn [app]. do 2 f_equal. lia.
    + intros i Hi. cbn [slept log_event tick].
      replace (S (tick w) + i)%nat with (tick w + S i)%nat by lia.
      apply Hkeep. lia.
Qed.

Lemma count_sleeps_poll_trace n : count_sleeps (poll_trace rq n) = n.
Proof.
  induction n as [|n IH]; [reflexivity|].
  unfold count_sleeps in *. cbn. now rewrite IH.
Qed.

(** A job reported finished after [j] polls that went on. *)
Lemma check_container_status_finished_run container_id w j :
  url = container_url self container_id ->
  (j < 30)%nat ->
  (forall i, (i < j)%nat -> keeps_polling (respond env (tick w + i) rq) = true) ->
  reports_finished (respond env (tick w + j) rq) = true ->
  check_container_status env self container_id w
  = (Return tt,
     mkWorld (tick w + S j) (trace w ++ poll_trace rq j ++ [Request rq]) (store w)).
Proof.
  intros Hurl Hj Hkeep Hfin. unfold check_container_status. rewrite <- Hurl.
  replace 30%nat with (j + S (29 - j))%nat by lia.
  rewrite poll_attempts_keeps_run by exact Hkeep.
  rewrite poll_attempts_pass. cbn [tick]. fold rq.
  rewrite (poll_pass_finished _ Hfin).
  unfold run_pass, log_event. cbn [tick trace store]. rewrite <- app_assoc.
  do 2 f_equal. lia.
Qed.

End PollingMore.

Section PollingProperties.

Context {RT : Runtime}.

(** X8.  A job reported ["failed"] ends polling with the 500 "Container
    execution failed" carrying the provider's error message, "Unknown error"
    when the answer has no ["error"] key: after [j] polls that went on, the
    failing poll is the last request and nothing is slept after it. *)
Theorem check_container_status_failed
    (env : environment) (self : PhantomBusterClient) (container_id : json)
    (w : world) (j : nat) (error_message : json) :
  (j < 30)%nat ->
  (forall i, (i < j)%nat ->
     keeps_polling (respond env (tick w + i) (container_request self container_id)) = true) ->
  reports_failed (respond env (tick w + j) (container_request self container_id))
  = Some error_message ->
  check_container_status env self container_id w
  = (Raise (HTTPException 500
              ("Container execution failed: " +:+ py_str error_message)),
     mkWorld (tick w + S j)
       (trace w ++ poll_trace (container_request self container_id) j
        ++ [Request (container_request self container_id)])
       (store w)).
Proof.
  intros Hj Hkeep Hfailed. unfold check_container_status, container_request in *.
  replace 30%nat with (j + S (29 - j))%nat by lia.
  rewrite poll_attempts_keeps_run by exact Hkeep.
  rewrite poll_attempts_pass. cbn [tick].
  rewrite (poll_pass_failed _ _ Hfailed).
  unfold run_pass, log_event. cbn [tick trace store]. rewrite <- app_assoc.
  do 2 f_equal. lia.
Qed.

(** X9.  A poll that fails in transport, or is answered 200 with a body that
    is not JSON, counts like a poll of a job still going: it uses up one of
    the 30 attempts and is followed by a sleep of ten seconds.  A job
    reported ["finished"] after [j] such polls returns after [j + 1]
    requests; 30 such polls end in the 504, after 30 requests and 30 sleeps,
    the last sleep coming after the last poll. *)
Theorem check_container_status_counts_every_poll
    (env : environment) (self : PhantomBusterClient) (container_id : json)
    (w : world) (j : nat) :
  ((j < 30)%nat ->
   (forall i, (i < j)%nat ->
      keeps_polling (respond env (tick w + i) (container_request self container_id))
      = true) ->
   reports_finished (respond env (tick w + j) (container_request self container_id))
   = true ->
   check_container_status env self container_id w
   = (Return tt,
      mkWorld (tick w + S j)
        (trace w ++ poll_trace (container_request self container_id) j
         ++ [Request (container_request self container_id)])
        (store w)))
  /\ ((forall i, (i < 30)%nat ->
         keeps_polling (respond env (tick w + i) (container_request self container_id))
         = true) ->
      check_container_status env self container_id w
      = (Raise (HTTPException 504 "Container execution timed out"),
         mkWorld (tick w + 30)
           (trace w ++ poll_trace (container_request self container_id) 30)
           (store w))
      /\ count_requests (poll_trace (container_request self container_id) 30) = 30%nat
      /\ count_sleeps (poll_trace (container_request self container_id) 30) = 30%nat
      /\ last (poll_trace (container_request self container_id) 30) = Some (Sleep 10)).
Proof.
  unfold check_container_status, container_request. split.
  - intros Hj Hkeep Hfin.
    replace 30%nat with (j + S (29 - j))%nat by lia.
    rewrite poll_attempts_keeps_run by exact Hkeep.
    rewrite poll_attempts_pass. cbn [tick].
    rewrite (poll_pass_finished _ Hfin).
    unfold run_pass, log_event. cbn [tick trace store]. rewrite <- app_assoc.
    do 2 f_equal. lia.
  - intros Hkeep. split; [|split; [|split]].
    + replace 30%nat with (30 + 0)%nat at 1 by lia.
      now rewrite poll_attempts_keeps_run by exact Hkeep.
    + apply count_requests_poll_trace.
    + apply count_sleeps_poll_trace.
    + reflexivity.
Qed.

End PollingProperties.

(** ** Bounds on the retry loops *)

Section Bounds.

Context {RT : Runtime}.
Variable env : environment.
Variable self : PhantomBusterClient.

Lemma wait_pass_again attempt rp sleeps :
  wait_pass self attempt rp = Again sleeps ->
  sleeps = Nat.ltb attempt (max_retries self - 1).
Proof.
  unfold wait_pass. destruct rp as [r|msg]; [|discriminate].
  destruct (negb (Z.eqb (status_code r) 200)); [now intros [= <-]|].
  destruct (json_loads (text r)) as [[]|]; try discriminate.
  destruct (eq_str (dict_get "status" JNull items) "RUNNING"); [now intros [= <-]|discriminate].
Qed.

Lemma filter_ltb_seq m n :
  forall a, (length (List.filter (fun x => Nat.ltb x m) (seq a n)) <= m - a)%nat.
Proof.
  induction n as [|n IH]; intros a; [cbn; lia|].
  cbn [seq List.filter]. specialize (IH (S a)).
  destruct (Nat.ltb_spec a m); cbn [length]; lia.
Qed.

Lemma wait_attempts_bounds phantom_id attempts :
  forall w,
    exists evs,
      trace (snd (wait_attempts env self phantom_id attempts w)) = trace w ++ evs
      /\ (count_requests evs <= length attempts)%nat
      /\ (count_sleeps evs
          <= length (List.filter (fun a => Nat.ltb a (max_retries self - 1)) attempts))%nat.
Proof.
  induction attempts as [|attempt rest IH]; intros w.
  - exists []. cbn. rewrite app_nil_r. repeat split; lia.
  - rewrite wait_attempts_pass. unfold run_pass.
    destruct (wait_pass self attempt _) as [b|e|sleeps] eqn:Hpass;
      try (exists [Request (agent_request self phantom_id)]; cbn; repeat split; lia).
    apply wait_pass_again in Hpass. subst sleeps.
    destruct (after_pass_facts (agent_request self phantom_id)
                (Nat.ltb attempt (max_retries self - 1)) (retry_delay self) w)
      as (_ & _ & evs1 & Htr & Hr1 & Hs1).
    destruct (IH (after_pass (agent_request self phantom_id)
                    (Nat.ltb attempt (max_retries self - 1)) (retry_delay self) w))
      as (evs & Htrace & Hreq & Hsl).
    exists ((Request (agent_request self phantom_id) :: evs1) ++ evs).
    split; [now rewrite Htrace, Htr, <- app_assoc|].
    rewrite count_requests_app, count_sleeps_app.
    change (count_requests (Request (agent_request self phantom_id) :: evs1))
      with (S (count_requests evs1)).
    change (count_sleeps (Request (agent_request self phantom_id) :: evs1))
      with (count_sleeps evs1).
    rewrite Hr1, Hs1. cbn [length List.filter].
    destruct (Nat.ltb attempt (max_retries self - 1)); cbn [length]; lia.
Qed.

Lemma first_available_bounds ids :
  forall w,
    exists evs,
      trace (snd (first_available env self ids w)) = trace w ++ evs
      /\ (count_requests evs <= length ids * max_retries self)%nat
      /\ (count_sleeps evs <= length ids * (max_retries self - 1))%nat.
Proof.
  induction ids as [|phantom_id rest IH]; intros w.
  - exists []. cbn. rewrite app_nil_r. repeat split; lia.
  - cbn [first_available]. unfold bind, wait_for_phantom_availability.
    destruct (wait_attempts_bounds phantom_id (seq 0 (max_retries self)) w)
      as (evs1 & Htr1 & Hr1 & Hs1).
    rewrite length_seq in Hr1.
    pose proof (filter_ltb_seq (max_retries self - 1) (max_retries self) 0) as Hf.
    destruct (wait_attempts env self phantom_id (seq 0 (max_retries self)) w)
      as [[[|]|e] w1]; cbn [snd] in *;
      try (exists evs1; cbn [length]; repeat split; [assumption|lia|lia]).
    destruct (IH w1) as (evs & Htr & Hr & Hs).
    exists (evs1 ++ evs). rewrite count_requests_app, count_sleeps_app.
    split; [now rewrite Htr, Htr1, <- app_assoc|]. cbn [length]. lia.
Qed.

Lemma launch_pass_again attempt rp sleeps :
  launch_pass self attempt rp = Again sleeps ->
  sleeps = true /\ attempt <> (max_retries self - 1)%nat.
Proof.
  intros Hpass. split.
  - revert Hpass. unfold launch_pass. destruct rp as [r|msg].
    + destruct (json_loads (text r)) as [body|].
      * destruct (Z.eqb (status_code r) 200).
        -- destruct body; try discriminate.
           destruct (dict_lookup "containerId" items); discriminate.
        -- destruct (_ && _); [now intros [= <-]|discriminate].
      * destruct (Nat.eqb attempt (max_retries self - 1)); [discriminate|now intros [= <-]].
    + destruct (Nat.eqb attempt (max_retries self - 1)); [discriminate|now intros [= <-]].
  - intros Heq. now apply (launch_pass_last self attempt rp sleeps) in Heq.
Qed.

Lemma launch_attempts_bounds url payload n :
  forall a w,
    (a + n = max_retries self)%nat ->
    exists evs,
      trace (snd (launch_attempts env self url payload (seq a n) w)) = trace w ++ evs
      /\ (count_requests evs <= n)%nat
      /\ (count_sleeps evs <= n - 1)%nat.
Proof.
  induction n as [|n IH]; intros a w Ha.
  - exists []. cbn. rewrite app_nil_r. repeat split; lia.
  - cbn [seq]. rewrite launch_attempts_pass. unfold run_pass.
    destruct (launch_pass self a _) as [cid|e|sleeps] eqn:Hpass;
      try (exists [Request (POST url payload (headers self))]; cbn; repeat split; lia).
    apply launch_pass_again in Hpass as [-> Hne].
    destruct (after_pass_facts (POST url payload (headers self)) true (retry_delay self) w)
      as (_ & _ & evs1 & Htr & Hr1 & Hs1).
    destruct (IH (S a) (after_pass (POST url payload (headers self)) true
                          (retry_delay self) w))
      as (evs & Htrace & Hreq & Hsl); [lia|].
    exists ((Request (POST url payload (headers self)) :: evs1) ++ evs).
    split; [now rewrite Htrace, Htr, <- app_assoc|].
    rewrite count_requests_app, count_sleeps_app.
    change (count_requests (Request (POST url payload (headers self)) :: evs1))
      with (S (count_requests evs1)).
    change (count_sleeps (Request (POST url payload (headers self)) :: evs1))
      with (count_sleeps evs1).
    rewrite Hr1, Hs1. lia.
Qed.

Lemma poll_attempts_bounds url remaining :
  forall w,
    exists evs,
      trace (snd (poll_attempts env self url remaining w)) = trace w ++ evs
      /\ (count_requests evs <= remaining)%nat
      /\ (count_sleeps evs <= remaining)%nat.
Proof.
  induction remaining as [|remaining IH]; intros w.
  - exists []. cbn. rewrite app_nil_r. repeat split; lia.
  - rewrite poll_attempts_pass. unfold run_pass.
    destruct (poll_pass _) as [[]|e|sleeps] eqn:Hpass;
      try (exists [Request (GET url (headers self))]; cbn; repeat split; lia).
    destruct (after_pass_facts (GET url (headers self)) sleeps 10 w)
      as (_ & _ & evs1 & Htr & Hr1 & Hs1).
    destruct (IH (after_pass (GET url (headers self)) sleeps 10 w))
      as (evs & Htrace & Hreq & Hsl).
    exists ((Request (GET url (headers self)) :: evs1) ++ evs).
    split; [now rewrite Htrace, Htr, <- app_assoc|].
    rewrite count_requests_app, count_sleeps_app.
    change (count_requests (Request (GET url (headers self)) :: evs1))
      with (S (count_requests evs1)).
    change (count_sleeps (Request (GET url (headers self)) :: evs1))
      with (count_sleeps evs1).
    rewrite Hr1, Hs1. destruct sleeps; lia.
Qed.

End Bounds.

Section BoundsProperties.

Context {RT : Runtime}.

(** X10.  Whatever the provider answers, the three retry loops stop within
    their budgets: [get_available_phantom] makes at most
    pool size * [max_retries] requests and sleeps at most
    pool size * ([max_retries] - 1) times, [trigger_phantom] makes at most
    [max_retries] requests and sleeps at most [max_retries] - 1 times, and
    [check_container_status] makes at most 30 requests and sleeps at most 30
    times. *)
Theorem retry_loops_are_bounded
    (env : environment) (self : PhantomBusterClient)
    (phantom_id linkedin_cookies search_url : string) (container_id : json) (w : world) :
  (exists evs,
     trace (snd (get_available_phantom env self w)) = trace w ++ evs
     /\ (count_requests evs <= length (phantom_ids self) * max_retries self)%nat
     /\ (count_sleeps evs <= length (phantom_ids self) * (max_retries self - 1))%nat)
  /\ (exists evs,
        trace (snd (trigger_phantom env self phantom_id linkedin_cookies search_url w))
        = trace w ++ evs
        /\ (count_requests evs <= max_retries self)%nat
        /\ (count_sleeps evs <= max_retries self - 1)%nat)
  /\ (exists evs,
        trace (snd (check_container_status env self container_id w)) = trace w ++ evs
        /\ (count_requests evs <= 30)%nat
        /\ (count_sleeps evs <= 30)%nat).
Proof.
  split; [|split].
  - apply first_available_bounds.
  - apply launch_attempts_bounds. reflexivity.
  - apply poll_attempts_bounds.
Qed.

End BoundsProperties.

(** ** Normalizing the result *)

Section NormalizerMore.

Context {RT : Runtime}.
Variable env : environment.
Variable phantom_client : PhantomBusterClient.
Variable container_id : json.

Let rq : request := result_request phantom_client container_id.

(** Enters [fetch_and_clean_data] up to the decoding of the result field. *)
Ltac enter_result Hr Hc Hl Hg :=
  unfold fetch_and_clean_data; unfold bind at 1;
  unfold requests_get, http_call;
  change (GET (result_url phantom_client container_id) (headers phantom_client)) with rq;
  rewrite Hr, Hc; cbn [Z.eqb Pos.eqb negb];
  unfold try_except at 1; unfold bind at 1; unfold resp_json at 1;
  rewrite Hl; unfold ret at 1;
  unfold bind at 1; cbn [method_get]; unfold ret at 1; rewrite Hg.

Lemma for_each_objects items :
  forallb is_object items = true ->
  forall w,
    exists ps,
      for_each process_profile items w = (Return ps, w)
      /\ Forall2 (fun item p => forall w0, process_profile item w0 = (Return p, w0)) items ps.
Proof.
  induction items as [|item rest IH]; intros Hall w.
  - exists []. split; [reflexivity|constructor].
  - cbn [forallb] in Hall. apply andb_true_iff in Hall as [Hitem Hrest].
    destruct item; try discriminate.
    destruct (IH Hrest w) as (ps & Hps & Hall2).
    eexists (_ :: ps). split.
    + cbn [for_each]. unfold bind at 1. cbn [process_profile]. unfold ret at 1.
      unfold bind at 1. rewrite Hps. reflexivity.
    + constructor; [|exact Hall2]. intros w0. reflexivity.
Qed.


Lemma try_except_all_Raise {A} (body : M A) (f : exn -> exn) w e w' :
  try_except body is_Exception (fun e0 => raise (f e0)) w = (Raise e, w') ->
  exists e0, e = f e0.
Proof.
  unfold try_except, raise. destruct (body w) as [[a|e0] w1]; [discriminate|].
  cbn [is_Exception]. intros [= <- <-]. now exists e0.
Qed.

Lemma fetch_and_clean_data_list_run w result items :
  result_field (respond env (tick w) rq) = Some result ->
  decoded_result result = Some (JList items) ->
  forallb is_object items = true ->
  exists ps,
    fetch_and_clean_data env container_id phantom_client w
    = (Return ps, log_event (Request rq) w)
    /\ Forall2 (fun item p => forall w0, process_profile item w0 = (Return p, w0)) items ps.
Proof.
  intros (r & body & Hr & Hc & Hl & Hg)%result_field_inv Hdec Hall.
  destruct (for_each_objects items Hall (log_event (Request rq) w)) as (ps & Hps & Hall2).
  exists ps. split; [|exact Hall2].
  enter_result Hr Hc Hl Hg.
  destruct result; cbn [decoded_result] in Hdec; try discriminate.
  - unfold bind at 1, try_except. rewrite Hdec. unfold ret at 1.
    unfold bind at 1, ret at 1. now rewrite Hps.
  - injection Hdec as ->.
    unfold bind at 1, ret at 1. unfold bind at 1, ret at 1. now rewrite Hps.
Qed.

(** X11.  A result that is a list of objects, given as such or as a string
    that decodes to one, is normalized element by element: the sequence
    returned has one record per element, in order, each the projection
    [process_profile] gives of that element. *)
Theorem fetch_and_clean_data_list w result items :
  result_field (respond env (tick w) rq) = Some result ->
  decoded_result result = Some (JList items) ->
  forallb is_object items = true ->
  exists ps,
    fetch_and_clean_data env container_id phantom_client w
    = (Return ps, log_event (Request rq) w)
    /\ Forall2 (fun item p => forall w0, process_profile item w0 = (Return p, w0)) items ps
    /\ length ps = length items.
Proof.
  intros Hfield Hdec Hall.
  destruct (fetch_and_clean_data_list_run w result items Hfield Hdec Hall)
    as (ps & Hrun & Hall2).
  exists ps. split; [exact Hrun|]. split; [exact Hall2|].
  symmetry. eapply Forall2_length. exact Hall2.
Qed.


(** X13.  A result whose value, decoded when it is a string, is a number, a
    boolean or a string is refused: the call raises the 500 whose detail
    wraps "Unexpected data format received from PhantomBuster" and the type
    of the value. *)
Theorem fetch_and_clean_data_scalar w result v :
  result_field (respond env (tick w) rq) = Some result ->
  decoded_result result = Some v ->
  match v with JBool _ | JInt _ | JFloat _ | JStr _ => True | _ => False end ->
  fetch_and_clean_data env container_id phantom_client w
  = (Raise (HTTPException 500
              ("Error processing data: "
               +:+ exc_str
                     (HTTPException 500
                        ("Unexpected data format received from PhantomBuster: "
                         +:+ py_type v)))),
     log_event (Request rq) w).
Proof.
  intros (r & body & Hr & Hc & Hl & Hg)%result_field_inv Hdec Hv.
  enter_result Hr Hc Hl Hg.
  destruct result; cbn [decoded_result] in Hdec; try discriminate;
    try (injection Hdec as <-; first [contradiction|reflexivity]).
  unfold bind at 1, try_except. rewrite Hdec. unfold ret at 1.
  destruct v; first [contradiction|reflexivity].
Qed.

(** X14.  A result field that is a string which does not decode as JSON is
    refused: the call raises the 500 whose detail wraps "Invalid data format
    received from PhantomBuster". *)
Theorem fetch_and_clean_data_undecodable w s :
  result_field (respond env (tick w) rq) = Some (JStr s) ->
  json_loads s = None ->
  fetch_and_clean_data env container_id phantom_client w
  = (Raise (HTTPException 500
              ("Error processing data: "
               +:+ exc_str
                     (HTTPException 500
                        "Invalid data format received from PhantomBuster"))),
     log_event (Request rq) w).
Proof.
  intros (r & body & Hr & Hc & Hl & Hg)%result_field_inv Hs.
  enter_result Hr Hc Hl Hg.
  unfold bind at 1, try_except. rewrite Hs. cbn [raise is_JSONDecodeError String.eqb].
  reflexivity.
Qed.

(** X15.  The result request itself failing: answered with a status code
    other than 200, the call raises the 500 "Failed to fetch data" with the
    answer's text, not wrapped; failing in transport, the
    [RequestException] leaves the function as it is, the request being made
    outside the [try]. *)
Theorem fetch_and_clean_data_request_fails w :
  (forall r,
     respond env (tick w) rq = Response r ->
     status_code r <> 200 ->
     fetch_and_clean_data env container_id phantom_client w
     = (Raise (HTTPException 500 ("Failed to fetch data: " +:+ text r)),
        log_event (Request rq) w))
  /\ (forall msg,
        respond env (tick w) rq = ConnectionError msg ->
        fetch_and_clean_data env container_id phantom_client w
        = (Raise (RequestException msg), log_event (Request rq) w)).
Proof.
  split.
  - intros r Hr Hc. unfold fetch_and_clean_data, bind at 1, requests_get, http_call.
    change (GET (result_url phantom_client container_id) (headers phantom_client)) with rq.
    rewrite Hr. destruct (Z.eqb_spec (status_code r) 200); [contradiction|reflexivity].
  - intros msg Hr. unfold fetch_and_clean_data, bind at 1, requests_get, http_call.
    change (GET (result_url phantom_client container_id) (headers phantom_client)) with rq.
    now rewrite Hr.
Qed.

(** X16.  Every way [fetch_and_clean_data] can fail: the transport error of
    the result request, the 500 "Failed to fetch data" for an answer other
    than 200, or, for anything that goes wrong once the answer is in, a 500
    whose detail is "Error processing data: " followed by the text of the
    exception caught, the function's own [HTTPException]s included. *)
Theorem fetch_and_clean_data_failures w e w' :
  fetch_and_clean_data env container_id phantom_client w = (Raise e, w') ->
  (exists msg, respond env (tick w) rq = ConnectionError msg /\ e = RequestException msg)
  \/ (exists r,
        respond env (tick w) rq = Response r /\ status_code r <> 200
        /\ e = HTTPException 500 ("Failed to fetch data: " +:+ text r))
  \/ (exists e0, e = HTTPException 500 ("Error processing data: " +:+ exc_str e0)).
Proof.
  unfold fetch_and_clean_data, bind at 1, requests_get, http_call.
  change (GET (result_url phantom_client container_id) (headers phantom_client)) with rq.
  destruct (respond env (tick w) rq) as [r|msg].
  - destruct (Z.eqb_spec (status_code r) 200) as [Hc|Hc]; cbn [negb].
    + intros (e0 & ->)%try_except_all_Raise. right. right. now exists e0.
    + intros [= <- <-]. right. left. now exists r.
  - intros [= <- <-]. left. now exists msg.
Qed.

(** X17.  The ["jsonUrl"] indirection.  When the result, decoded when it is a
    string, is an object whose ["jsonUrl"] is a string, that URL is fetched
    with a plain GET that carries none of the client's headers (so not the
    API key).  An answer other than 200 is fatal.  A 200 answer holding a
    list of objects gives their records; one holding a single object gives
    the one record of that object, also when the object has a ["jsonUrl"] of
    its own: the indirection is followed once. *)
Theorem fetch_and_clean_data_indirection w result obj u :
  result_field (respond env (tick w) rq) = Some result ->
  decoded_result result = Some (JDict obj) ->
  dict_lookup "jsonUrl" obj = Some (JStr u) ->
  let w2 := log_event (Request (GET u [])) (log_event (Request rq) w) in
  (forall r2,
     respond env (S (tick w)) (GET u []) = Response r2 ->
     status_code r2 <> 200 ->
     fetch_and_clean_data env container_id phantom_client w
     = (Raise (HTTPException 500
                 ("Error processing data: "
                  +:+ exc_str (HTTPException 500 "Failed to fetch JSON from external URL"))),
        w2))
  /\ (forall r2 items,
        respond env (S (tick w)) (GET u []) = Response r2 ->
        status_code r2 = 200 ->
        json_loads (text r2) = Some (JList items) ->
        forallb is_object items = true ->
        exists ps,
          fetch_and_clean_data env container_id phantom_client w = (Return ps, w2)
          /\ Forall2 (fun item p => forall w0, process_profile item w0 = (Return p, w0))
               items ps)
  /\ (forall r2 obj2,
        respond env (S (tick w)) (GET u []) = Response r2 ->
        status_code r2 = 200 ->
        json_loads (text r2) = Some (JDict obj2) ->
        exists p,
          fetch_and_clean_data env container_id phantom_client w = (Return [p], w2)
          /\ forall w0, process_profile (JDict obj2) w0 = (Return p, w0)).
Proof.
  intros (r & body & Hr & Hc & Hl & Hg)%result_field_inv Hdec Hurl w2.
  assert (dict_mem "jsonUrl" obj = true) as Hmem by (unfold dict_mem; now rewrite Hurl).
  assert (forall r2,
            respond env (S (tick w)) (GET u []) = Response r2 ->
            fetch_and_clean_data env container_id phantom_client w
            = try_except
                (let* data :=
                   if negb (Z.eqb (status_code r2) 200) then
                     raise (HTTPException 500 "Failed to fetch JSON from external URL")
                   else resp_json r2 in
                 match data with
                 | JNull => ret []
                 | _ =>
                     let data := match data with JDict _ => JList [data] | _ => data end in
                     match data with
                     | JList items => for_each process_profile items
                     | _ =>
                         raise (HTTPException 500
                                  ("Unexpected data format received from PhantomBuster: "
                                   +:+ py_type data))
                     end
                 end)
                is_Exception
                (fun e => raise (HTTPException 500 ("Error processing data: " +:+ exc_str e)))
                w2) as Hfetch.
  { intros r2 Hr2. enter_result Hr Hc Hl Hg.
    destruct result; cbn [decoded_result] in Hdec; try discriminate;
      [ unfold bind at 1, try_except; rewrite Hdec; unfold ret at 1
      | injection Hdec as ->; unfold bind at 1, ret at 1 ];
      rewrite Hmem; unfold bind at 1; unfold bind at 1; cbn [subscript]; rewrite Hurl;
      unfold ret at 1; unfold bind at 1; cbn [log_event tick]; rewrite Hr2;
      reflexivity. }
  split; [|split].
  - intros r2 Hr2 Hc2. rewrite (Hfetch r2 Hr2). unfold try_except, bind.
    destruct (Z.eqb_spec (status_code r2) 200); [contradiction|reflexivity].
  - intros r2 items Hr2 Hc2 Hl2 Hall. rewrite (Hfetch r2 Hr2), Hc2.
    destruct (for_each_objects items Hall w2) as (ps & Hps & Hall2).
    exists ps. split; [|exact Hall2].
    unfold try_except, bind, resp_json. rewrite Hl2. cbn [Z.eqb Pos.eqb negb].
    unfold ret at 1. now rewrite Hps.
  - intros r2 obj2 Hr2 Hc2 Hl2. rewrite (Hfetch r2 Hr2), Hc2.
    eexists. split; [|intros w0; reflexivity].
    unfold try_except, bind, resp_json. rewrite Hl2. reflexivity.
Qed.

End NormalizerMore.

(** ** The profile projection *)

Section ProfileProperties.

Lemma dict_lookup_skip key k v before after :
  k <> key ->
  dict_lookup key (before ++ (k, v) :: after) = dict_lookup key (before ++ after).
Proof.
  intros Hne. induction before as [|[k0 v0] before IH]; cbn [app dict_lookup].
  - destruct (String.eqb_spec k key); [contradiction|reflexivity].
  - now rewrite IH.
Qed.

(** X18.  [process_profile] depends only on the thirteen keys it reads: an
    item with any other key, wherever it stands in the record, gives the
    same record as the item without it. *)
Theorem process_profile_ignores_other_keys
    (before after : list (string * json)) (k : string) (v : json) (w : world) :
  ~ In k profile_source_keys ->
  process_profile (JDict (before ++ (k, v) :: after)) w
  = process_profile (JDict (before ++ after)) w.
Proof.
  intros Hk. cbn [process_profile]. unfold dict_get.
  rewrite !(dict_lookup_skip _ k v before after);
    try (intros ->; apply Hk; unfold profile_source_keys; cbn [In];
         repeat first [left; reflexivity|right]).
  reflexivity.
Qed.

(** X19.  The eleven fields copied as they are keep whatever value the item
    has at the key read, null included; the default (0 for
    sharedConnectionsCount, the empty string elsewhere) is used only when the
    key is missing.  profileLocation is read from the key location. *)
Theorem process_profile_copies_values
    (item : list (string * json)) (src dst : string) (w : world) :
  In (src, dst) profile_direct_fields ->
  exists p,
    process_profile (JDict item) w = (Return p, w)
    /\ (forall v, dict_lookup src item = Some v -> dict_lookup dst p = Some v)
    /\ (dict_lookup src item = None ->
        dict_lookup dst p
        = Some (if String.eqb dst "sharedConnectionsCount" then JInt 0 else JStr "")).
Proof.
  intros Hin. eexists. split; [reflexivity|].
  unfold profile_direct_fields in Hin. cbn [In] in Hin. unfold dict_get.
  repeat (destruct Hin as [[= <- <-]|Hin];
          [cbn [dict_lookup String.eqb Ascii.eqb Bool.eqb];
           split; [now intros v ->|now intros ->]|]).
  destruct Hin.
Qed.

End ProfileProperties.

(** ** The endpoint *)

Section EndpointMore.

Context {RT : Runtime}.
Variable env : environment.

Lemma raises_weaken {A} (P Q : exn -> Prop) (m : M A) :
  (forall e, P e -> Q e) -> raises_only P m -> raises_only Q m.
Proof. intros HPQ Hm w e w' Hrun. eapply HPQ, Hm, Hrun. Qed.

Lemma raises_bind {A B} (P : exn -> Prop) (m : M A) (k : A -> M B) :
  raises_only P m -> (forall a, raises_only P (k a)) -> raises_only P (bind m k).
Proof.
  intros Hm Hk w e w'. unfold bind.
  destruct (m w) as [[a|e0] w1] eqn:Hrun.
  - apply Hk.
  - intros [= <- <-]. eapply Hm, Hrun.
Qed.

Lemma raises_try_wrap {A} (P : exn -> Prop) (body : M A) (f : exn -> exn) :
  (forall e, P (f e)) ->
  raises_only P (try_except body is_Exception (fun e => raise (f e))).
Proof.
  intros Hf w e w' (e0 & ->)%try_except_all_Raise. apply Hf.
Qed.

Lemma http_codes_incl codes codes' e :
  incl codes codes' -> http_codes codes e -> http_codes codes' e.
Proof. intros Hincl. destruct e; cbn; auto. Qed.

Lemma raises_get_available_phantom self :
  raises_only (http_codes [503]) (get_available_phantom env self).
Proof.
  intros w e w' Hrun. unfold get_available_phantom in Hrun.
  apply first_available_outcome in Hrun as (_ & _ & _ & _ & [Hnot|[-> _]]).
  - destruct e; [discriminate|exact I|exact I].
  - cbn. auto.
Qed.

Lemma raises_trigger_phantom self phantom_id linkedin_cookies search_url :
  (0 < max_retries self)%nat ->
  raises_only (http_codes [500])
    (trigger_phantom env self phantom_id linkedin_cookies search_url).
Proof.
  intros Hmax w e w' Hrun. unfold trigger_phantom in Hrun.
  destruct (max_retries self) as [|n] eqn:Hn; [lia|].
  apply (launch_attempts_raises env self _ _ n 0%nat) in Hrun; [exact Hrun|now rewrite Hn].
Qed.

Lemma poll_pass_fail rp e : poll_pass rp = Fail e -> http_codes [500] e.
Proof.
  unfold poll_pass. destruct rp as [r|msg]; [|discriminate].
  destruct (negb (Z.eqb (status_code r) 200)); [intros [= <-]; cbn; auto|].
  destruct (json_loads (text r)) as [[]|]; try discriminate; try (intros [= <-]; exact I).
  destruct (eq_str (dict_get "status" JNull items) "finished"); [discriminate|].
  destruct (eq_str (dict_get "status" JNull items) "failed"); [|discriminate].
  intros [= <-]. cbn. auto.
Qed.

Lemma raises_check_container_status self container_id :
  raises_only (http_codes [500; 504]) (check_container_status env self container_id).
Proof.
  unfold check_container_status. generalize 30%nat. intros remaining.
  induction remaining as [|remaining IH]; intros w e w'.
  - cbn. intros [= <- <-]. cbn. auto.
  - rewrite poll_attempts_pass. unfold run_pass.
    destruct (poll_pass _) as [[]|e0|sleeps] eqn:Hpass; [discriminate| |apply IH].
    intros [= <- <-]. apply poll_pass_fail in Hpass.
    eapply http_codes_incl; [|exact Hpass]. intros c [<-|[]]. now left.
Qed.

Lemma raises_fetch_and_clean_data container_id phantom_client :
  raises_only (http_codes [500]) (fetch_and_clean_data env container_id phantom_client).
Proof.
  intros w e w'. unfold fetch_and_clean_data, bind at 1, requests_get, http_call.
  destruct (respond env (tick w) _) as [r|msg]; [|intros [= <- <-]; exact I].
  destruct (negb (Z.eqb (status_code r) 200)); [intros [= <- <-]; cbn; auto|].
  intros (e0 & ->)%try_except_all_Raise. cbn. auto.
Qed.

Lemma raises_bind_ret {A B} (P : exn -> Prop) (a : A) (k : A -> M B) :
  raises_only P (k a) -> raises_only P (bind (ret a) k).
Proof. intros Hk w e w'. apply Hk. Qed.

Lemma raises_subscript (P : exn -> Prop) v key :
  (forall kind msg, P (PyError kind msg)) -> raises_only P (subscript v key).
Proof.
  intros HP w e w'. destruct v; cbn [subscript]; try (intros [= <- <-]; apply HP).
  destruct (dict_lookup key items); [discriminate|intros [= <- <-]; apply HP].
Qed.

Lemma raises_document (P : exn -> Prop) collection_name document_id :
  (forall kind msg, P (PyError kind msg)) ->
  raises_only P (document collection_name document_id).
Proof.
  intros HP w e w'. unfold document.
  destruct (document_error collection_name document_id);
    [intros [= <- <-]; apply HP|discriminate].
Qed.

(** Every exception the endpoint's handler raises is an [HTTPException] with
    one of four status codes. *)
Lemma raises_search_sales_navigator query_data user w e w' :
  search_sales_navigator env query_data user w = (Raise e, w') ->
  exists code detail, e = HTTPException code detail /\ In code [400; 500; 503; 504].
Proof.
  unfold search_sales_navigator, try_except.
  match goal with
  | |- context [match ?body w with _ => _ end] =>
      assert (raises_only (http_codes [400; 500; 503; 504]) body) as Hbody;
      [|destruct (body w) as [[res|e0] w1] eqn:Hrun; [discriminate|]]
  end.
  - destruct (negb (py_truthy (JDict user)) || negb (dict_mem "uid" user)).
    { intros w0 e0 w0' [= <- <-]. cbn. auto. }
    unfold new_client.
    destruct (PHANTOM_KEY env) as [key|]; [|intros w0 e0 w0' [= <- <-]; exact I].
    destruct (String.eqb key ""); [intros w0 e0 w0' [= <- <-]; exact I|].
    apply raises_bind_ret.
    apply raises_bind; [apply raises_subscript; intros; exact I|intros uid].
    cbv zeta.
    apply raises_bind; [apply raises_document; intros; exact I|intros user_doc_ref].
    apply raises_bind; [|intros phantom_id].
    { eapply raises_weaken; [|apply raises_get_available_phantom].
      intros e0. apply http_codes_incl. intros c [<-|[]]. cbn. auto. }
    apply raises_bind; [|intros container_id].
    { eapply raises_weaken; [|apply raises_trigger_phantom; cbn; lia].
      intros e0. apply http_codes_incl. intros c [<-|[]]. cbn. auto. }
    apply raises_bind; [|intros []].
    { eapply raises_weaken; [|apply raises_check_container_status].
      intros e0. apply http_codes_incl. intros c [<-|[<-|[]]]; cbn; auto. }
    apply raises_bind; [|intros results].
    { eapply raises_weaken; [|apply raises_fetch_and_clean_data].
      intros e0. apply http_codes_incl. intros c [<-|[]]. cbn. auto. }
    apply raises_bind; [|intros []; intros w0 e0 w0' [=]].
    apply raises_try_wrap. intros e0. cbn. auto.
  - apply Hbody in Hrun. destruct e0 as [code detail|msg|kind msg]; cbn [is_HTTPException negb].
    + intros [= <- <-]. now exists code, detail.
    + intros [= <- <-]. eexists _, _. split; [reflexivity|cbn; auto].
    + intros [= <- <-]. eexists _, _. split; [reflexivity|cbn; auto].
Qed.

(** X20.  Every failure of the endpoint is an [HTTPException] with status
    code 400, 401, 500, 503 or 504: no other exception leaves it.  The 401
    is raised only for a token that does not verify. *)
Theorem scrape_errors_are_http token query_data w e w' :
  scrape env token query_data w = (Raise e, w') ->
  exists code detail,
    e = HTTPException code detail
    /\ In code [400; 401; 500; 503; 504]
    /\ (code = 401 -> verify_id_token env token = None).
Proof.
  unfold scrape, bind, verify_token.
  destruct (verify_id_token env token) as [user|].
  - unfold ret. intros (code & detail & -> & Hin)%raises_search_sales_navigator.
    exists code, detail. split; [reflexivity|].
    cbn in Hin. split; [cbn; intuition auto|]. intros ->. intuition discriminate.
  - intros [= <- <-]. eexists _, _. split; [reflexivity|]. split; [cbn; auto|reflexivity].
Qed.

(** X21.  Requests rejected before anything is sent: a token that does not
    verify gets the 401, a decoded token that is empty or has no uid gets
    the 400, and a missing or empty PHANTOM_KEY gets the 500 "Internal
    server error" wrapping the [ValueError] of the client's constructor.  In
    each case no request is made, nothing is slept and the session store is
    not called. *)
Theorem request_rejected_without_effects token query_data w :
  (verify_id_token env token = None ->
   scrape env token query_data w
   = (Raise (HTTPException 401 "Invalid authentication credentials"), w))
  /\ (forall user,
        user = [] \/ dict_mem "uid" user = false ->
        search_sales_navigator env query_data user w
        = (Raise (HTTPException 400 "Invalid user data"), w))
  /\ (forall user,
        dict_mem "uid" user = true ->
        PHANTOM_KEY env = None \/ PHANTOM_KEY env = Some "" ->
        search_sales_navigator env query_data user w
        = (Raise (HTTPException 500
                    ("Internal server error: "
                     +:+ exc_str
                           (PyError "ValueError"
                              "PhantomBuster API key not found in environment variables"))),
           w)).
Proof.
  split; [|split].
  - intros Htoken. unfold scrape, bind, verify_token. now rewrite Htoken.
  - intros user Huser. unfold search_sales_navigator, try_except.
    assert (negb (py_truthy (JDict user)) || negb (dict_mem "uid" user) = true) as ->.
    { destruct Huser as [Hu|Hu]; rewrite Hu; [reflexivity|apply orb_true_r]. }
    reflexivity.
  - intros user Huid Hkey. unfold search_sales_navigator, try_except.
    assert (py_truthy (JDict user) = true) as ->
      by (destruct user; [discriminate|reflexivity]).
    rewrite Huid. cbn [negb orb]. unfold bind at 1, new_client.
    destruct Hkey as [Hk|Hk]; rewrite Hk; reflexivity.
Qed.

Lemma quiet_document collection_name document_id :
  quiet (document collection_name document_id).
Proof.
  unfold document.
  destruct (document_error collection_name document_id); [apply quiet_raise|apply quiet_ret].
Qed.

Lemma ends_with_session_quiet {A} (m : M A) : quiet m -> ends_with_session m.
Proof.
  intros Hq w. destruct (Hq w) as [Hstore (evs & Htrace & Hevs)].
  exists evs, []. rewrite app_nil_r. repeat split; auto; cbn; lia.
Qed.

Lemma ends_with_session_bind {A B} (m : M A) (k : A -> M B) :
  quiet m -> (forall a, ends_with_session (k a)) -> ends_with_session (bind m k).
Proof.
  intros Hq Hk w. unfold bind.
  destruct (Hq w) as [Hstore (evs & Htrace & Hevs)].
  destruct (m w) as [[a|e] w1]; cbn [snd] in *.
  - destruct (Hk a w1) as (pre & post & Htr & Hpre & Hpost & Hone & Hfail).
    exists (evs ++ pre), post.
    split; [now rewrite Htr, Htrace, <- !app_assoc|].
    split; [now rewrite List.filter_app, Hevs, Hpre|].
    split; [exact Hpost|]. split; [exact Hone|].
    intros e He. rewrite (Hfail e He). exact Hstore.
  - exists evs, []. rewrite app_nil_r. repeat split; auto; cbn; lia.
Qed.

Lemma ends_with_session_try {A} (body : M A) catches (f : exn -> exn) :
  ends_with_session body ->
  ends_with_session (try_except body catches (fun e => raise (f e))).
Proof.
  intros Hb w. destruct (Hb w) as (pre & post & Htr & Hpre & Hpost & Hone & Hfail).
  exists pre, post. unfold try_except, raise.
  destruct (body w) as [[a|e] w1]; cbn [fst snd] in *.
  - split; [exact Htr|split; [exact Hpre|split; [exact Hpost|split; [exact Hone|]]]].
    discriminate.
  - destruct (catches e); cbn [fst snd];
      (split; [exact Htr|split; [exact Hpre|split; [exact Hpost|split; [exact Hone|]]]]);
      intros e' _; now apply (Hfail e).
Qed.

Lemma ends_with_session_then_ret {A B} (m : M A) (b : B) :
  ends_with_session m -> ends_with_session (bind m (fun _ => ret b)).
Proof.
  intros Hm w. destruct (Hm w) as (pre & post & Htr & Hpre & Hpost & Hone & Hfail).
  exists pre, post. unfold bind, ret.
  destruct (m w) as [[a|e] w1]; cbn [fst snd] in *;
    (split; [exact Htr|split; [exact Hpre|split; [exact Hpost|split; [exact Hone|]]]]).
  - discriminate.
  - intros e' _. now apply (Hfail e).
Qed.

Lemma ends_with_session_stage ref data :
  ends_with_session
    (let* user_doc := doc_get env ref in
     if negb (snapshot_exists user_doc) then doc_set env ref data
     else doc_update env ref data).
Proof.
  intros w. exists []. unfold bind, doc_get, store_call.
  destruct (store_fault env (tick w)) as [msg|].
  - exists [StoreGet ref]. cbn. repeat split; auto.
  - destruct (store w !! ref) as [old|] eqn:Hold; cbn [snapshot_exists negb];
      unfold doc_update, doc_set, store_call; cbn [tick trace store];
      destruct (store_fault env (S (tick w))) as [msg|]; try rewrite Hold;
      cbn [fst snd trace store log_event];
      [ exists [StoreGet ref; StoreUpdate ref data]
      | exists [StoreGet ref; StoreUpdate ref data]
      | exists [StoreGet ref; StoreSet ref data]
      | exists [StoreGet ref; StoreSet ref data] ];
      (split; [now rewrite <- app_assoc|]);
      repeat split; auto; discriminate.
Qed.

(** X22.  On every run of the handler, also one that fails, all calls to the
    session store come after the last request to the provider, at most one
    of them is a write, and a request that fails leaves the store as it
    was. *)
Theorem search_sales_navigator_store_calls query_data user w :
  exists pre post,
    trace (snd (search_sales_navigator env query_data user w)) = trace w ++ pre ++ post
    /\ List.filter is_store_event pre = []
    /\ List.filter is_request post = []
    /\ (length (List.filter is_store_write post) <= 1)%nat
    /\ (forall e,
          fst (search_sales_navigator env query_data user w) = Raise e ->
          store (snd (search_sales_navigator env query_data user w)) = store w).
Proof.
  revert w. change (ends_with_session (search_sales_navigator env query_data user)).
  unfold search_sales_navigator. apply ends_with_session_try.
  destruct (negb (py_truthy (JDict user)) || negb (dict_mem "uid" user));
    [apply ends_with_session_quiet, quiet_raise|].
  apply ends_with_session_bind; [apply quiet_new_client|intros phantom_client].
  apply ends_with_session_bind; [apply quiet_subscript|intros uid]. cbv zeta.
  apply ends_with_session_bind; [apply quiet_document|intros user_doc_ref].
  apply ends_with_session_bind; [apply quiet_get_available_phantom|intros phantom_id].
  apply ends_with_session_bind; [apply quiet_trigger_phantom|intros container_id].
  apply ends_with_session_bind; [apply quiet_check_container_status|intros []].
  apply ends_with_session_bind; [apply quiet_fetch_and_clean_data|intros results].
  apply ends_with_session_then_ret, ends_with_session_try, ends_with_session_stage.
Qed.

(** X23.  The stages compose.  With a configured key and a token carrying a
    uid that names a document of the collection users (the reference to it
    is built without a [ValueError]), when the first worker of the pool is
    found available on its first check, the launch on that worker is
    accepted with a container id, the job with that id is reported finished
    after [j] polls that went on, the result fetched for that id is a list
    of objects, and the two calls to the session store succeed, then the
    handler returns the records of the list with the uid and the submitted
    URL, having made 4 + [j] requests and written the two tracked fields into
    the user's document. *)
Theorem search_sales_navigator_end_to_end
    (query_data : SalesNavQueryData) (user : list (string * json)) (key : string)
    (uid cid result : json) (items : list json) (j : nat) (w : world) :
  PHANTOM_KEY env = Some key ->
  key <> "" ->
  dict_lookup "uid" user = Some uid ->
  document_error "users" (py_str uid) = None ->
  reports_available
    (respond env (tick w) (agent_request (init_client key) "2696753432671290")) = true ->
  launch_accepted
    (respond env (tick w + 1)
       (launch_request (init_client key) "2696753432671290"
          (q_cookie query_data) (q_url query_data))) = Some cid ->
  (j < 30)%nat ->
  (forall i, (i < j)%nat ->
     keeps_polling
       (respond env (tick w + 2 + i) (container_request (init_client key) cid)) = true) ->
  reports_finished
    (respond env (tick w + 2 + j) (container_request (init_client key) cid)) = true ->
  result_field (respond env (tick w + 3 + j) (result_request (init_client key) cid))
  = Some result ->
  decoded_result result = Some (JList items) ->
  forallb is_object items = true ->
  store_fault env (tick w + 4 + j) = None ->
  store_fault env (tick w + 5 + j) = None ->
  exists ps w',
    search_sales_navigator env query_data user w
    = (Return (mkResult ps (py_str uid) (q_url query_data)), w')
    /\ Forall2 (fun item p => forall w0, process_profile item w0 = (Return p, w0)) items ps
    /\ trace w'
       = trace w
         ++ [ Request (agent_request (init_client key) "2696753432671290");
              Request (launch_request (init_client key) "2696753432671290"
                         (q_cookie query_data) (q_url query_data)) ]
         ++ poll_trace (container_request (init_client key) cid) j
         ++ [ Request (container_request (init_client key) cid);
              Request (result_request (init_client key) cid);
              StoreGet ("users", py_str uid);
              match store w !! ("users", py_str uid) with
              | Some _ => StoreUpdate ("users", py_str uid) (user_data_of query_data)
              | None => StoreSet ("users", py_str uid) (user_data_of query_data)
              end ]
    /\ store w'
       = <[("users", py_str uid) :=
             (<["sessionCookie" := FStr (q_cookie query_data)]>
                {[ "Events_URL" := FStr (q_url query_data) ]})
             ∪ default ∅ (store w !! ("users", py_str uid))]> (store w).
Proof.
  intros Hkey Hne Huid Hdoc Havail Hacc Hj Hkeep Hfin Hfield Hdec Hall Hf1 Hf2.
  set (c := init_client key) in *.
  set (a := agent_request c "2696753432671290") in *.
  set (l := launch_request c "2696753432671290" (q_cookie query_data) (q_url query_data))
    in *.
  set (p := container_request c cid) in *.
  set (r := result_request c cid) in *.
  set (ref := ("users", py_str uid) : docref).
  set (w1 := log_event (Request a) w).
  set (w2 := log_event (Request l) w1).
  set (w3 := mkWorld (tick w2 + S j) (trace w2 ++ poll_trace p j ++ [Request p]) (store w2)).
  set (w4 := log_event (Request r) w3).
  assert (get_available_phantom env c w = (Return "2696753432671290", w1)) as H1.
  { unfold reports_available in Havail.
    destruct (status_of _) as [s|] eqn:Hs; [|discriminate].
    unfold get_available_phantom, c. cbn [phantom_ids init_client first_available].
    unfold bind at 1, wait_for_phantom_availability.
    cbn [max_retries init_client seq].
    rewrite (wait_attempts_idle env (init_client key) "2696753432671290" _ _ _ s Hs);
      [reflexivity|now apply negb_true_iff]. }
  assert (trigger_phantom env c "2696753432671290" (q_cookie query_data)
            (q_url query_data) w1 = (Return cid, w2)) as H2.
  { unfold trigger_phantom, c. cbn [max_retries init_client seq].
    rewrite launch_attempts_pass.
    change (POST _ _ _) with l.
    rewrite (launch_pass_accepted (init_client key) 0 _ cid); [reflexivity|].
    cbn [w1 log_event tick]. rewrite <- Hacc. do 2 f_equal. lia. }
  assert (check_container_status env c cid w2 = (Return tt, w3)) as H3.
  { apply (check_container_status_finished_run env c (container_url c cid) cid w2 j
             eq_refl Hj).
    - intros i Hi. cbn [w2 w1 log_event tick]. rewrite <- (Hkeep i Hi).
      do 2 f_equal. lia.
    - cbn [w2 w1 log_event tick]. rewrite <- Hfin. do 2 f_equal. lia. }
  destruct (fetch_and_clean_data_list_run env c cid w3 result items) as (ps & H4 & Hps);
    [|exact Hdec|exact Hall|].
  { cbn [w3 w2 w1 log_event tick]. rewrite <- Hfield. do 2 f_equal. lia. }
  fold r in H4. fold w4 in H4.
  assert (tick w4 = (tick w + 4 + j)%nat) as Ht4 by (cbn; lia).
  assert (store w4 = store w) as Hs4 by reflexivity.
  assert (forall w',
            (let* user_doc := doc_get env ref in
             if negb (snapshot_exists user_doc)
             then doc_set env ref (user_data_of query_data)
             else doc_update env ref (user_data_of query_data)) w4 = (Return tt, w') ->
            search_sales_navigator env query_data user w
            = (Return (mkResult ps (py_str uid) (q_url query_data)), w')) as Hrun.
  { intros w' H5.
    unfold search_sales_navigator, try_except.
    assert (py_truthy (JDict user) = true) as ->.
    { destruct user; [discriminate|reflexivity]. }
    unfold dict_mem. rewrite Huid. cbn [negb orb].
    unfold bind at 1, new_client. rewrite Hkey.
    destruct (String.eqb_spec key ""); [contradiction|]. unfold ret at 1.
    unfold bind at 1. cbn [subscript]. rewrite Huid. unfold ret at 1.
    unfold bind at 1, document. rewrite Hdoc. unfold ret at 1.
    fold c. fold ref.
    unfold bind at 1. rewrite H1.
    unfold bind at 1. rewrite H2.
    unfold bind at 1. rewrite H3.
    unfold bind at 1. rewrite H4.
    unfold bind at 1, try_except. rewrite H5. reflexivity. }
  exists ps.
  unfold bind, doc_get, store_call in Hrun. rewrite Ht4, Hf1, Hs4 in Hrun.
  fold ref.
  destruct (store w !! ref) as [old|] eqn:Hold; cbn [snapshot_exists negb] in Hrun;
    unfold doc_update, doc_set, store_call in Hrun; cbn [tick trace store] in Hrun;
    replace (S (tick w + 4 + j)) with (tick w + 5 + j)%nat in Hrun by lia;
    rewrite Hf2, ?Hold in Hrun.
  - assert (store w !! ("users", py_str uid) = Some old) as Hm by exact Hold.
    eexists. split; [apply Hrun; reflexivity|split; [exact Hps|]].
    cbn [trace store w4 w3 w2 w1 log_event]. unfold ref. rewrite Hm. cbn [default].
    rewrite user_data_stored, <- !app_assoc. split; reflexivity.
  - assert (store w !! ("users", py_str uid) = None) as Hm by exact Hold.
    eexists. split; [apply Hrun; reflexivity|split; [exact Hps|]].
    cbn [trace store w4 w3 w2 w1 log_event]. unfold ref. rewrite Hm. cbn [default].
    rewrite user_data_stored, map_union_empty, <- !app_assoc. split; reflexivity.
Qed.

(** X27.  A verified token whose uid does not name a document of the
    collection users: the reference to the user's document is built before
    worker acquisition and outside the handler of the session stage, so its
    [ValueError] ends the request with the 500 "Internal server error"
    before any request is made, anything is slept or the session store is
    called. *)
Theorem request_with_bad_uid_is_rejected
    (token : string) (query_data : SalesNavQueryData) (user : list (string * json))
    (key : string) (uid : json) (msg : string) (w : world) :
  verify_id_token env token = Some user ->
  PHANTOM_KEY env = Some key ->
  key <> "" ->
  dict_lookup "uid" user = Some uid ->
  document_error "users" (py_str uid) = Some msg ->
  scrape env token query_data w
  = (Raise (HTTPException 500
              ("Internal server error: " +:+ exc_str (PyError "ValueError" msg))),
     w).
Proof.
  intros Htoken Hkey Hne Huid Hdoc.
  unfold scrape, bind at 1, verify_token. rewrite Htoken. unfold ret at 1.
  now apply (search_sales_navigator_bad_reference env query_data user key uid msg w).
Qed.

End EndpointMore.

(** ** The user documents *)

Section StoreProperties.

Context {RT : Runtime}.
Variable env : environment.

(** [check_user_exists] reads once, never raises, and answers [False] when
    the read fails. *)
Lemma check_user_exists_run user_id w :
  check_user_exists env user_id w
  = (Return (match store_fault env (tick w) with
             | Some _ => false
             | None => snapshot_exists (store w !! (("users", user_id) : docref))
             end),
     log_event (StoreGet ("users", user_id)) w).
Proof.
  unfold check_user_exists, try_except, bind, doc_get, store_call.
  destruct (store_fault env (tick w)); reflexivity.
Qed.




(** X26.  Every failure of [updateUser] is the 500 "Failed to process user
    data", whatever went wrong inside, the 500 of [create_new_user]
    included, and it leaves the store as it was.  One way to get it: the
    user exists in the collection users but the collection given has no
    document with that id. *)
Theorem updateUser_failures
    (collection_name document_id field_name field_value : string) (w : world) :
  (forall e w',
     updateUser env collection_name document_id field_name field_value w = (Raise e, w') ->
     e = HTTPException 500 "Failed to process user data" /\ store w' = store w)
  /\ (forall profile,
        store_fault env (tick w) = None ->
        store_fault env (S (tick w)) = None ->
        store w !! (("users", document_id) : docref) = Some profile ->
        store w !! ((collection_name, document_id) : docref) = None ->
        fst (updateUser env collection_name document_id field_name field_value w)
        = Raise (HTTPException 500 "Failed to process user data")).
Proof.
  split.
  - intros e w'. unfold updateUser, try_except. unfold bind at 1.
    rewrite check_user_exists_run.
    set (found := match store_fault env (tick w) with
                  | Some _ => false
                  | None => snapshot_exists (store w !! (("users", document_id) : docref))
                  end).
    destruct found; cbn [negb].
    + unfold bind, doc_update, store_call. cbn [log_event tick store trace].
      destruct (store_fault env (S (tick w))).
      * intros [= <- <-]. split; reflexivity.
      * match goal with
        | |- context [match ?x with Some _ => _ | None => _ end] => destruct x
        end; [discriminate|intros [= <- <-]; split; reflexivity].
    + unfold create_new_user, try_except, bind, doc_set, store_call.
      cbn [log_event tick store trace].
      destruct (store_fault env (S (tick w)));
        [intros [= <- <-]; split; reflexivity|discriminate].
  - intros profile Hf1 Hf2 Husers Htarget.
    unfold updateUser, try_except. unfold bind at 1.
    rewrite check_user_exists_run, Hf1, Husers. cbn [snapshot_exists negb].
    unfold bind, doc_update, store_call. cbn [log_event tick store].
    rewrite Hf2, Htarget. reflexivity.
Qed.

End StoreProperties.

(** ** The further properties on concrete runs *)

Section RunsMore.

Import Fixture Scenario.

#[local] Existing Instance Scenario.runtime.

Let launch : request := launch_request client first_id (q_cookie query) (q_url query).

Lemma trigger_phantom_retries_until_accepted_witness :
  (2 < max_retries client)%nat
  /\ (forall i, (i < 2)%nat ->
        launch_retriable (respond accepted_on_third (tick w0 + i) launch) = true)
  /\ launch_accepted (respond accepted_on_third (tick w0 + 2) launch) = Some (JStr "J1")
  /\ trigger_phantom accepted_on_third client first_id (q_cookie query) (q_url query) w0
     = (Return (JStr "J1"),
        mkWorld 3
          [Request launch; Sleep 60; Request launch; Sleep 60; Request launch] ∅).
Proof.
  assert (2 < max_retries client)%nat as Hn by (cbn; lia).
  assert (forall i, (i < 2)%nat ->
            launch_retriable (respond accepted_on_third (tick w0 + i) launch) = true)
    as Hall.
  { intros [|[|i]] Hi; [reflexivity|reflexivity|lia]. }
  assert (launch_accepted (respond accepted_on_third (tick w0 + 2) launch)
          = Some (JStr "J1")) as Hacc by reflexivity.
  split; [exact Hn|]. split; [exact Hall|]. split; [exact Hacc|].
  destruct (trigger_phantom_retries_until_accepted accepted_on_third client first_id
              (q_cookie query) (q_url query) w0 2 (JStr "J1") Hn Hall Hacc)
    as [Hrun _].
  exact Hrun.
Defined.

Lemma trigger_phantom_other_refusal_is_fatal_witness :
  (1 < max_retries client)%nat
  /\ (forall i, (i < 1)%nat ->
        launch_retriable (respond refused_for_good (tick w0 + i) launch) = true)
  /\ respond refused_for_good (tick w0 + 1) launch
     = Response (mkResponse 404 (dumps agent_not_found))
  /\ 404 <> 200
  /\ json_loads (dumps agent_not_found) = Some agent_not_found
  /\ str_contains "maxParallelismReached" (py_str agent_not_found) = false
  /\ trigger_phantom refused_for_good client first_id (q_cookie query) (q_url query) w0
     = (Raise (HTTPException 500 ("Error launching phantom: " +:+ dumps agent_not_found)),
        mkWorld 2 [Request launch; Sleep 60; Request launch] ∅).
Proof.
  assert (1 < max_retries client)%nat as Hn by (cbn; lia).
  assert (forall i, (i < 1)%nat ->
            launch_retriable (respond refused_for_good (tick w0 + i) launch) = true)
    as Hall.
  { intros [|i] Hi; [reflexivity|lia]. }
  assert (404 <> 200) as Hc by discriminate.
  assert (json_loads (dumps agent_not_found) = Some agent_not_found) as Hl by reflexivity.
  assert (str_contains "maxParallelismReached" (py_str agent_not_found) = false)
    as Hm by reflexivity.
  split; [exact Hn|]. split; [exact Hall|]. split; [reflexivity|]. split; [exact Hc|].
  split; [exact Hl|]. split; [exact Hm|].
  exact (trigger_phantom_other_refusal_is_fatal refused_for_good client first_id
           (q_cookie query) (q_url query) w0 1
           (mkResponse 404 (dumps agent_not_found)) agent_not_found
           Hn Hall eq_refl Hc Hl Hm).
Defined.

Lemma trigger_phantom_missing_container_id_witness :
  (1 < max_retries client)%nat
  /\ (forall i, (i < 1)%nat ->
        launch_retriable (respond accepted_with_no_id (tick w0 + i) launch) = true)
  /\ respond accepted_with_no_id (tick w0 + 1) launch
     = Response (mkResponse 200 (dumps accepted_without_id))
  /\ json_loads (dumps accepted_without_id) = Some (JDict [("status", JStr "success")])
  /\ dict_lookup "containerId" [("status", JStr "success")] = None
  /\ trigger_phantom accepted_with_no_id client first_id (q_cookie query) (q_url query) w0
     = (Raise (PyError "KeyError" "containerId"),
        mkWorld 2 [Request launch; Sleep 60; Request launch] ∅).
Proof.
  assert (1 < max_retries client)%nat as Hn by (cbn; lia).
  assert (forall i, (i < 1)%nat ->
            launch_retriable (respond accepted_with_no_id (tick w0 + i) launch) = true)
    as Hall.
  { intros [|i] Hi; [reflexivity|lia]. }
  assert (json_loads (dumps accepted_without_id) = Some (JDict [("status", JStr "success")]))
    as Hl by reflexivity.
  split; [exact Hn|]. split; [exact Hall|]. split; [reflexivity|]. split; [exact Hl|].
  split; [reflexivity|].
  exact (trigger_phantom_missing_container_id accepted_with_no_id client first_id
           (q_cookie query) (q_url query) w0 1
           (mkResponse 200 (dumps accepted_without_id)) [("status", JStr "success")]
           Hn Hall eq_refl eq_refl Hl eq_refl).
Defined.

Lemma trigger_phantom_transport_failure_on_last_attempt_witness :
  max_retries client = 5%nat
  /\ (forall i, (i < 4)%nat ->
        launch_retriable (respond unreachable (tick w0 + i) launch) = true)
  /\ respond unreachable (tick w0 + 4) launch = ConnectionError "connection refused"
  /\ trigger_phantom unreachable client first_id (q_cookie query) (q_url query) w0
     = (Raise (HTTPException 500 "Network error launching phantom: connection refused"),
        mkWorld 5
          [ Request launch; Sleep 60; Request launch; Sleep 60; Request launch; Sleep 60;
            Request launch; Sleep 60; Request launch ] ∅).
Proof.
  assert (forall i, (i < 4)%nat ->
            launch_retriable (respond unreachable (tick w0 + i) launch) = true)
    as Hall by (intros; reflexivity).
  split; [reflexivity|]. split; [exact Hall|]. split; [reflexivity|].
  destruct (trigger_phantom_transport_failure_on_last_attempt unreachable client first_id
              (q_cookie query) (q_url query) w0 4 "connection refused"
              eq_refl Hall eq_refl) as [Hrun _].
  exact Hrun.
Defined.

Lemma trigger_phantom_http_errors_are_500_witness :
  (0 < max_retries client)%nat
  /\ trigger_phantom all_refused client first_id (q_cookie query) (q_url query) w0
     = (Raise (HTTPException 500 ("Error launching phantom: " +:+ dumps parallelism)),
        snd (trigger_phantom all_refused client first_id (q_cookie query) (q_url query) w0))
  /\ 500 = 500.
Proof.
  assert (0 < max_retries client)%nat as Hmax by (cbn; lia).
  assert (trigger_phantom all_refused client first_id (q_cookie query) (q_url query) w0
          = (Raise (HTTPException 500 ("Error launching phantom: " +:+ dumps parallelism)),
             snd (trigger_phantom all_refused client first_id (q_cookie query)
                    (q_url query) w0))) as Hrun by reflexivity.
  split; [exact Hmax|]. split; [exact Hrun|].
  exact (trigger_phantom_http_errors_are_500 all_refused client first_id
           (q_cookie query) (q_url query) w0 _ 500 _ Hmax Hrun).
Defined.

Lemma get_available_phantom_first_available_witness :
  phantom_ids client = [first_id] ++ second_id :: [third_id]
  /\ pool_answers second_worker_free busy_reply client (tick w0) [first_id]
  /\ (1 < max_retries client)%nat
  /\ (forall j, (j < 1)%nat ->
        busy_reply
          (respond second_worker_free
             (tick w0 + length [first_id] * max_retries client + j)
             (agent_request client second_id)) = true)
  /\ reports_available
       (respond second_worker_free
          (tick w0 + length [first_id] * max_retries client + 1)
          (agent_request client second_id)) = true
  /\ fst (get_available_phantom second_worker_free client w0) = Return second_id
  /\ count_requests (trace (snd (get_available_phantom second_worker_free client w0)))
     = 7%nat.
Proof.
  assert (pool_answers second_worker_free busy_reply client (tick w0) [first_id]) as Hpool.
  { split; [|exact I]. intros [|[|[|[|[|i]]]]] Hi; try reflexivity. cbn in Hi. lia. }
  assert (1 < max_retries client)%nat as Hi by (cbn; lia).
  assert (forall j, (j < 1)%nat ->
            busy_reply
              (respond second_worker_free
                 (tick w0 + length [first_id] * max_retries client + j)
                 (agent_request client second_id)) = true) as Hbusy.
  { intros [|j] Hj; [reflexivity|lia]. }
  assert (reports_available
            (respond second_worker_free
               (tick w0 + length [first_id] * max_retries client + 1)
               (agent_request client second_id)) = true) as Havail by reflexivity.
  split; [reflexivity|]. split; [exact Hpool|]. split; [exact Hi|].
  split; [exact Hbusy|]. split; [exact Havail|].
  destruct (get_available_phantom_first_available second_worker_free client
              [first_id] second_id [third_id] w0 1 eq_refl Hpool Hi Hbusy Havail)
    as [Hrun _].
  rewrite Hrun. split; reflexivity.
Defined.

Lemma get_available_phantom_outcome_witness :
  (get_available_phantom second_worker_free client w0
   = (Return second_id, snd (get_available_phantom second_worker_free client w0))
   /\ In second_id (phantom_ids client)
   /\ reports_available
        (respond second_worker_free
           (tick (snd (get_available_phantom second_worker_free client w0)) - 1)
           (agent_request client second_id)) = true)
  /\ (get_available_phantom all_running client w0
      = (Raise (HTTPException 503
                  "All phantoms are busy and maximum retry attempts reached"),
         snd (get_available_phantom all_running client w0))
      /\ exists evs,
           trace (snd (get_available_phantom all_running client w0)) = trace w0 ++ evs
           /\ count_requests evs = (length (phantom_ids client) * max_retries client)%nat).
Proof.
  assert (get_available_phantom second_worker_free client w0
          = (Return second_id, snd (get_available_phantom second_worker_free client w0)))
    as Hfree by reflexivity.
  assert (get_available_phantom all_running client w0
          = (Raise (HTTPException 503
                      "All phantoms are busy and maximum retry attempts reached"),
             snd (get_available_phantom all_running client w0)))
    as Hbusy by reflexivity.
  split.
  - split; [exact Hfree|].
    destruct (get_available_phantom_outcome second_worker_free client w0
                (snd (get_available_phantom second_worker_free client w0)))
      as [Hret _].
    destruct (Hret second_id Hfree) as (Hin & _ & Havail).
    split; [exact Hin|exact Havail].
  - split; [exact Hbusy|].
    destruct (get_available_phantom_outcome all_running client w0
                (snd (get_available_phantom all_running client w0)))
      as [_ Hraise].
    destruct (Hraise _ _ Hbusy) as (_ & _ & Hevs). exact Hevs.
Defined.

Let poll : request := container_request client (JStr "J1").

Lemma check_container_status_failed_witness :
  (1 < 30)%nat
  /\ (forall i, (i < 1)%nat ->
        keeps_polling (respond fails_on_second_poll (tick w0 + i) poll) = true)
  /\ reports_failed (respond fails_on_second_poll (tick w0 + 1) poll)
     = Some (JStr "Invalid session cookie")
  /\ check_container_status fails_on_second_poll client (JStr "J1") w0
     = (Raise (HTTPException 500 "Container execution failed: Invalid session cookie"),
        mkWorld 2 [Request poll; Sleep 10; Request poll] ∅)
  /\ reports_failed (respond fails_without_message (tick w0 + 0) poll)
     = Some (JStr "Unknown error")
  /\ check_container_status fails_without_message client (JStr "J1") w0
     = (Raise (HTTPException 500 "Container execution failed: Unknown error"),
        mkWorld 1 [Request poll] ∅).
Proof.
  assert (1 < 30)%nat as Hj by lia.
  assert (0 < 30)%nat as Hz by lia.
  assert (forall i, (i < 1)%nat ->
            keeps_polling (respond fails_on_second_poll (tick w0 + i) poll) = true)
    as Hkeep.
  { intros [|i] Hi; [reflexivity|lia]. }
  assert (forall i, (i < 0)%nat ->
            keeps_polling (respond fails_without_message (tick w0 + i) poll) = true)
    as Hnone by (intros i Hi; lia).
  assert (reports_failed (respond fails_on_second_poll (tick w0 + 1) poll)
          = Some (JStr "Invalid session cookie")) as Hfailed by reflexivity.
  assert (reports_failed (respond fails_without_message (tick w0 + 0) poll)
          = Some (JStr "Unknown error")) as Hplain by reflexivity.
  split; [exact Hj|]. split; [exact Hkeep|]. split; [exact Hfailed|].
  split; [|split; [exact Hplain|]].
  - exact (check_container_status_failed fails_on_second_poll client (JStr "J1") w0 1
             (JStr "Invalid session cookie") Hj Hkeep Hfailed).
  - exact (check_container_status_failed fails_without_message client (JStr "J1") w0 0
             (JStr "Unknown error") Hz Hnone Hplain).
Defined.

Lemma check_container_status_counts_every_poll_witness :
  ((2 < 30)%nat
   /\ (forall i, (i < 2)%nat ->
         keeps_polling (respond done_after_failed_polls (tick w0 + i) poll) = true)
   /\ reports_finished (respond done_after_failed_polls (tick w0 + 2) poll) = true
   /\ check_container_status done_after_failed_polls client (JStr "J1") w0
      = (Return tt,
         mkWorld 3 [Request poll; Sleep 10; Request poll; Sleep 10; Request poll] ∅))
  /\ ((forall i, (i < 30)%nat ->
         keeps_polling (respond unreachable (tick w0 + i) poll) = true)
      /\ check_container_status unreachable client (JStr "J1") w0
         = (Raise (HTTPException 504 "Container execution timed out"),
            mkWorld 30 (poll_trace poll 30) ∅)).
Proof.
  assert (2 < 30)%nat as Hj by lia.
  assert (forall i, (i < 2)%nat ->
            keeps_polling (respond done_after_failed_polls (tick w0 + i) poll) = true)
    as Hkeep.
  { intros [|[|i]] Hi; [reflexivity|reflexivity|lia]. }
  assert (reports_finished (respond done_after_failed_polls (tick w0 + 2) poll) = true)
    as Hfin by reflexivity.
  assert (forall i, (i < 30)%nat ->
            keeps_polling (respond unreachable (tick w0 + i) poll) = true)
    as Hnever by (intros; reflexivity).
  split.
  - split; [exact Hj|]. split; [exact Hkeep|]. split; [exact Hfin|].
    destruct (check_container_status_counts_every_poll done_after_failed_polls client
                (JStr "J1") w0 2) as [Hdone _].
    exact (Hdone Hj Hkeep Hfin).
  - split; [exact Hnever|].
    destruct (check_container_status_counts_every_poll unreachable client
                (JStr "J1") w0 0) as [_ Hout].
    destruct (Hout Hnever) as [Hrun _]. exact Hrun.
Defined.

Let fetch : request := result_request client (JStr "J1").

Lemma fetch_and_clean_data_list_witness :
  result_field (respond (constant (ok payload_two_text)) (tick w0) fetch)
  = Some (JStr "[{}, {}]")
  /\ decoded_result (JStr "[{}, {}]") = Some (JList [JDict []; JDict []])
  /\ forallb is_object [JDict []; JDict []] = true
  /\ exists ps,
       fetch_and_clean_data (constant (ok payload_two_text)) (JStr "J1") client w0
       = (Return ps, log_event (Request fetch) w0)
       /\ length ps = 2%nat.
Proof.
  assert (result_field (respond (constant (ok payload_two_text)) (tick w0) fetch)
          = Some (JStr "[{}, {}]")) as Hres by reflexivity.
  assert (decoded_result (JStr "[{}, {}]") = Some (JList [JDict []; JDict []]))
    as Hdec by reflexivity.
  split; [exact Hres|]. split; [exact Hdec|]. split; [reflexivity|].
  destruct (fetch_and_clean_data_list (constant (ok payload_two_text)) client (JStr "J1")
              w0 (JStr "[{}, {}]") [JDict []; JDict []] Hres Hdec eq_refl)
    as (ps & Hrun & _ & Hlen).
  exists ps. split; [exact Hrun|exact Hlen].
Defined.


Lemma fetch_and_clean_data_scalar_witness :
  result_field (respond (constant (ok payload_number)) (tick w0) fetch) = Some (JInt 42)
  /\ decoded_result (JInt 42) = Some (JInt 42)
  /\ fetch_and_clean_data (constant (ok payload_number)) (JStr "J1") client w0
     = (Raise (HTTPException 500
                 ("Error processing data: "
                  +:+ exc_str
                        (HTTPException 500
                           ("Unexpected data format received from PhantomBuster: "
                            +:+ py_type (JInt 42))))),
        log_event (Request fetch) w0).
Proof.
  assert (result_field (respond (constant (ok payload_number)) (tick w0) fetch)
          = Some (JInt 42)) as Hres by reflexivity.
  split; [exact Hres|]. split; [reflexivity|].
  exact (fetch_and_clean_data_scalar (constant (ok payload_number)) client (JStr "J1")
           w0 (JInt 42) (JInt 42) Hres eq_refl I).
Defined.

Lemma fetch_and_clean_data_undecodable_witness :
  result_field (respond (constant (ok payload_garbage)) (tick w0) fetch)
  = Some (JStr "not json")
  /\ json_loads "not json" = None
  /\ fetch_and_clean_data (constant (ok payload_garbage)) (JStr "J1") client w0
     = (Raise (HTTPException 500
                 ("Error processing data: "
                  +:+ exc_str
                        (HTTPException 500
                           "Invalid data format received from PhantomBuster"))),
        log_event (Request fetch) w0).
Proof.
  assert (result_field (respond (constant (ok payload_garbage)) (tick w0) fetch)
          = Some (JStr "not json")) as Hres by reflexivity.
  assert (json_loads "not json" = None) as Hnone by reflexivity.
  split; [exact Hres|]. split; [exact Hnone|].
  exact (fetch_and_clean_data_undecodable (constant (ok payload_garbage)) client
           (JStr "J1") w0 "not json" Hres Hnone).
Defined.

Lemma fetch_and_clean_data_request_fails_witness :
  (respond all_failing (tick w0) fetch = Response (mkResponse 500 "null")
   /\ 500 <> 200
   /\ fetch_and_clean_data all_failing (JStr "J1") client w0
      = (Raise (HTTPException 500 "Failed to fetch data: null"),
         log_event (Request fetch) w0))
  /\ (respond unreachable (tick w0) fetch = ConnectionError "connection refused"
      /\ fetch_and_clean_data unreachable (JStr "J1") client w0
         = (Raise (RequestException "connection refused"), log_event (Request fetch) w0)).
Proof.
  assert (500 <> 200) as Hcode by discriminate.
  split.
  - split; [reflexivity|]. split; [exact Hcode|].
    destruct (fetch_and_clean_data_request_fails all_failing client (JStr "J1") w0)
      as [Hrefused _].
    exact (Hrefused (mkResponse 500 "null") eq_refl Hcode).
  - split; [reflexivity|].
    destruct (fetch_and_clean_data_request_fails unreachable client (JStr "J1") w0)
      as [_ Hdown].
    exact (Hdown "connection refused" eq_refl).
Defined.

Lemma fetch_and_clean_data_failures_witness :
  fetch_and_clean_data (constant (ok payload_null)) (JStr "J1") client w0
  = (Raise (HTTPException 500
              ("Error processing data: "
               +:+ exc_str (HTTPException 500 "No data received from PhantomBuster"))),
     log_event (Request fetch) w0)
  /\ exists e0,
       HTTPException 500
         ("Error processing data: "
          +:+ exc_str (HTTPException 500 "No data received from PhantomBuster"))
       = HTTPException 500 ("Error processing data: " +:+ exc_str e0).
Proof.
  assert (fetch_and_clean_data (constant (ok payload_null)) (JStr "J1") client w0
          = (Raise (HTTPException 500
                      ("Error processing data: "
                       +:+ exc_str
                             (HTTPException 500 "No data received from PhantomBuster"))),
             log_event (Request fetch) w0)) as Hrun by reflexivity.
  split; [exact Hrun|].
  destruct (fetch_and_clean_data_failures (constant (ok payload_null)) client (JStr "J1")
              w0 _ _ Hrun) as [(msg & Hrp & _)|[(r & _ & Hcode & _)|He0]].
  - discriminate Hrp.
  - exists (HTTPException 500 "No data received from PhantomBuster"). reflexivity.
  - exact He0.
Defined.

Let cache : string := "https://cache.example/result.json".

Lemma fetch_and_clean_data_indirection_witness :
  (result_field (respond indirect_forbidden (tick w0) fetch)
   = Some (JDict [("jsonUrl", JStr cache)])
   /\ decoded_result (JDict [("jsonUrl", JStr cache)])
      = Some (JDict [("jsonUrl", JStr cache)])
   /\ dict_lookup "jsonUrl" [("jsonUrl", JStr cache)] = Some (JStr cache)
   /\ respond indirect_forbidden (S (tick w0)) (GET cache [])
      = Response (mkResponse 403 "null")
   /\ 403 <> 200
   /\ fst (fetch_and_clean_data indirect_forbidden (JStr "J1") client w0)
      = Raise (HTTPException 500
                 ("Error processing data: "
                  +:+ exc_str
                        (HTTPException 500 "Failed to fetch JSON from external URL"))))
  /\ (result_field (respond indirect_list (tick w0) fetch)
      = Some (JDict [("jsonUrl", JStr cache)])
      /\ respond indirect_list (S (tick w0)) (GET cache [])
         = Response (mkResponse 200 "[{}, {}]")
      /\ json_loads "[{}, {}]" = Some (JList [JDict []; JDict []])
      /\ forallb is_object [JDict []; JDict []] = true
      /\ exists ps,
           fetch_and_clean_data indirect_list (JStr "J1") client w0
           = (Return ps, mkWorld 2 [Request fetch; Request (GET cache [])] ∅)
           /\ length ps = 2%nat)
  /\ (result_field (respond indirect_twice (tick w0) fetch)
      = Some (JDict [("jsonUrl", JStr cache)])
      /\ respond indirect_twice (S (tick w0)) (GET cache [])
         = Response (mkResponse 200 (dumps indirect_object))
      /\ json_loads (dumps indirect_object) = Some (JDict [("jsonUrl", JStr cache)])
      /\ exists p,
           fetch_and_clean_data indirect_twice (JStr "J1") client w0
           = (Return [p], mkWorld 2 [Request fetch; Request (GET cache [])] ∅)).
Proof.
  assert (decoded_result (JDict [("jsonUrl", JStr cache)])
          = Some (JDict [("jsonUrl", JStr cache)])) as Hdec by reflexivity.
  assert (dict_lookup "jsonUrl" [("jsonUrl", JStr cache)] = Some (JStr cache))
    as Hurl by reflexivity.
  assert (result_field (respond indirect_forbidden (tick w0) fetch)
          = Some (JDict [("jsonUrl", JStr cache)])) as Hres1 by reflexivity.
  assert (result_field (respond indirect_list (tick w0) fetch)
          = Some (JDict [("jsonUrl", JStr cache)])) as Hres2 by reflexivity.
  assert (result_field (respond indirect_twice (tick w0) fetch)
          = Some (JDict [("jsonUrl", JStr cache)])) as Hres3 by reflexivity.
  assert (403 <> 200) as Hcode by discriminate.
  assert (json_loads "[{}, {}]" = Some (JList [JDict []; JDict []])) as Hlist
    by reflexivity.
  assert (json_loads (dumps indirect_object) = Some (JDict [("jsonUrl", JStr cache)]))
    as Hobj by reflexivity.
  split; [|split].
  - split; [exact Hres1|]. split; [exact Hdec|]. split; [exact Hurl|].
    split; [reflexivity|]. split; [exact Hcode|].
    destruct (fetch_and_clean_data_indirection indirect_forbidden client (JStr "J1") w0
                _ _ cache Hres1 Hdec Hurl) as [Hbad _].
    now rewrite (Hbad (mkResponse 403 "null") eq_refl Hcode).
  - split; [exact Hres2|]. split; [reflexivity|]. split; [exact Hlist|].
    split; [reflexivity|].
    destruct (fetch_and_clean_data_indirection indirect_list client (JStr "J1") w0
                _ _ cache Hres2 Hdec Hurl) as (_ & Hitems & _).
    destruct (Hitems (mkResponse 200 "[{}, {}]") [JDict []; JDict []]
                eq_refl eq_refl Hlist eq_refl) as (ps & Hrun & Hall).
    exists ps. split; [exact Hrun|].
    apply Forall2_length in Hall. now rewrite <- Hall.
  - split; [exact Hres3|]. split; [reflexivity|]. split; [exact Hobj|].
    destruct (fetch_and_clean_data_indirection indirect_twice client (JStr "J1") w0
                _ _ cache Hres3 Hdec Hurl) as (_ & _ & Hone).
    destruct (Hone (mkResponse 200 (dumps indirect_object)) [("jsonUrl", JStr cache)]
                eq_refl eq_refl Hobj) as (p & Hrun & _).
    exists p. exact Hrun.
Defined.

Lemma process_profile_ignores_other_keys_witness :
  ~ In "extra" profile_source_keys
  /\ process_profile
       (JDict ([("firstName", JStr "A")] ++ ("extra", JInt 1) :: [("lastName", JStr "B")]))
       w0
     = process_profile (JDict ([("firstName", JStr "A")] ++ [("lastName", JStr "B")])) w0.
Proof.
  assert (~ In "extra" profile_source_keys) as Hk.
  { intros H. repeat (destruct H as [H|H]; [discriminate H|]). exact H. }
  split; [exact Hk|].
  exact (process_profile_ignores_other_keys [("firstName", JStr "A")]
           [("lastName", JStr "B")] "extra" (JInt 1) w0 Hk).
Defined.

Lemma process_profile_copies_values_witness :
  In ("title", "title") profile_direct_fields
  /\ exists p,
       process_profile (JDict [("title", JNull)]) w0 = (Return p, w0)
       /\ dict_lookup "title" p = Some JNull.
Proof.
  assert (In ("title", "title") profile_direct_fields) as Hin.
  { unfold profile_direct_fields. repeat (first [left; reflexivity | right]). }
  split; [exact Hin|].
  destruct (process_profile_copies_values [("title", JNull)] "title" "title" w0 Hin)
    as (p & Hrun & Hsome & _).
  exists p. split; [exact Hrun|]. apply Hsome. reflexivity.
Defined.

Lemma scrape_errors_are_http_witness :
  scrape happy "bad" query w0
  = (Raise (HTTPException 401 "Invalid authentication credentials"), w0)
  /\ In 401 [400; 401; 500; 503; 504]
  /\ verify_id_token happy "bad" = None.
Proof.
  assert (scrape happy "bad" query w0
          = (Raise (HTTPException 401 "Invalid authentication credentials"), w0))
    as Hrun by reflexivity.
  split; [exact Hrun|].
  destruct (scrape_errors_are_http happy "bad" query w0 _ _ Hrun)
    as (code & detail & He & Hin & Hauth).
  injection He as <- _. split; [exact Hin|]. now apply Hauth.
Defined.

Let unconfigured : environment :=
  mkEnv None (fun _ _ => ConnectionError "unscripted") (fun _ => None) (fun _ => None).

Lemma request_rejected_without_effects_witness :
  (verify_id_token happy "bad" = None
   /\ scrape happy "bad" query w0
      = (Raise (HTTPException 401 "Invalid authentication credentials"), w0))
  /\ (dict_mem "uid" [("email", JStr "a@b.c")] = false
      /\ search_sales_navigator happy query [("email", JStr "a@b.c")] w0
         = (Raise (HTTPException 400 "Invalid user data"), w0))
  /\ (dict_mem "uid" user = true
      /\ PHANTOM_KEY unconfigured = None
      /\ search_sales_navigator unconfigured query user w0
         = (Raise (HTTPException 500
                     ("Internal server error: "
                      +:+ exc_str
                            (PyError "ValueError"
                               "PhantomBuster API key not found in environment variables"))),
            w0)).
Proof.
  split; [|split].
  - split; [reflexivity|].
    destruct (request_rejected_without_effects happy "bad" query w0) as [Hauth _].
    exact (Hauth eq_refl).
  - split; [reflexivity|].
    destruct (request_rejected_without_effects happy "bad" query w0) as (_ & Huser & _).
    exact (Huser [("email", JStr "a@b.c")] (or_intror eq_refl)).
  - split; [reflexivity|]. split; [reflexivity|].
    destruct (request_rejected_without_effects unconfigured "good" query w0)
      as (_ & _ & Hkey).
    exact (Hkey user eq_refl (or_introl eq_refl)).
Defined.

Lemma search_sales_navigator_end_to_end_witness :
  PHANTOM_KEY happy = Some "key-1"
  /\ "key-1" <> ""
  /\ dict_lookup "uid" user = Some (JStr "u1")
  /\ document_error "users" (py_str (JStr "u1")) = None
  /\ reports_available
       (respond happy (tick w0) (agent_request (init_client "key-1") "2696753432671290"))
     = true
  /\ launch_accepted
       (respond happy (tick w0 + 1)
          (launch_request (init_client "key-1") "2696753432671290"
             (q_cookie query) (q_url query))) = Some (JStr "J1")
  /\ (2 < 30)%nat
  /\ (forall i, (i < 2)%nat ->
        keeps_polling
          (respond happy (tick w0 + 2 + i)
             (container_request (init_client "key-1") (JStr "J1"))) = true)
  /\ reports_finished
       (respond happy (tick w0 + 2 + 2)
          (container_request (init_client "key-1") (JStr "J1"))) = true
  /\ result_field
       (respond happy (tick w0 + 3 + 2) (result_request (init_client "key-1") (JStr "J1")))
     = Some (JStr "[{}, {}]")
  /\ decoded_result (JStr "[{}, {}]") = Some (JList [JDict []; JDict []])
  /\ forallb is_object [JDict []; JDict []] = true
  /\ store_fault happy (tick w0 + 4 + 2) = None
  /\ store_fault happy (tick w0 + 5 + 2) = None
  /\ exists ps w',
       search_sales_navigator happy query user w0
       = (Return (mkResult ps "u1" (q_url query)), w')
       /\ length ps = 2%nat
       /\ count_requests (trace w') = 6%nat
       /\ store w'
          = {[ ("users", "u1") :=
                 <["sessionCookie" := FStr "sess123"]>
                   {[ "Events_URL" := FStr (q_url query) ]} ]}.
Proof.
  assert ("key-1" <> "") as Hkey by discriminate.
  assert (2 < 30)%nat as Hj by lia.
  assert (forall i, (i < 2)%nat ->
            keeps_polling
              (respond happy (tick w0 + 2 + i)
                 (container_request (init_client "key-1") (JStr "J1"))) = true) as Hkeep.
  { intros [|[|i]] Hi; [reflexivity|reflexivity|lia]. }
  assert (decoded_result (JStr "[{}, {}]") = Some (JList [JDict []; JDict []]))
    as Hdec by reflexivity.
  assert (result_field
            (respond happy (tick w0 + 3 + 2)
               (result_request (init_client "key-1") (JStr "J1")))
          = Some (JStr "[{}, {}]")) as Hres by reflexivity.
  assert (reports_available
            (respond happy (tick w0)
               (agent_request (init_client "key-1") "2696753432671290")) = true)
    as Havail by reflexivity.
  assert (launch_accepted
            (respond happy (tick w0 + 1)
               (launch_request (init_client "key-1") "2696753432671290"
                  (q_cookie query) (q_url query))) = Some (JStr "J1"))
    as Hacc by reflexivity.
  assert (reports_finished
            (respond happy (tick w0 + 2 + 2)
               (container_request (init_client "key-1") (JStr "J1"))) = true)
    as Hfin by reflexivity.
  assert (forallb is_object [JDict []; JDict []] = true) as Hobj by reflexivity.
  assert (document_error "users" (py_str (JStr "u1")) = None) as Hpath by reflexivity.
  split; [reflexivity|]. split; [exact Hkey|]. split; [reflexivity|].
  split; [exact Hpath|].
  split; [exact Havail|]. split; [exact Hacc|]. split; [exact Hj|].
  split; [exact Hkeep|]. split; [exact Hfin|]. split; [exact Hres|].
  split; [exact Hdec|]. split; [exact Hobj|]. split; [reflexivity|].
  split; [reflexivity|].
  destruct (search_sales_navigator_end_to_end happy query user "key-1"
              (JStr "u1") (JStr "J1") (JStr "[{}, {}]") [JDict []; JDict []] 2 w0
              eq_refl Hkey eq_refl Hpath Havail Hacc Hj Hkeep Hfin Hres Hdec
              Hobj eq_refl eq_refl)
    as (ps & w' & Hrun & Hall & Htrace & Hstore).
  exists ps, w'. split; [exact Hrun|]. split; [|split].
  - apply Forall2_length in Hall. now rewrite <- Hall.
  - rewrite Htrace. reflexivity.
  - rewrite Hstore. vm_compute. reflexivity.
Defined.

Let slash_user : environment :=
  mkEnv (Some "key-1") (fun _ _ => ok idle) (fun _ => None)
    (fun _ => Some [("uid", JStr "a/b")]).

Lemma request_with_bad_uid_is_rejected_witness :
  verify_id_token slash_user "good" = Some [("uid", JStr "a/b")]
  /\ PHANTOM_KEY slash_user = Some "key-1"
  /\ "key-1" <> ""
  /\ dict_lookup "uid" [("uid", JStr "a/b")] = Some (JStr "a/b")
  /\ document_error "users" (py_str (JStr "a/b"))
     = Some "A document must have an even number of path elements"
  /\ scrape slash_user "good" query w0
     = (Raise (HTTPException 500
                 ("Internal server error: "
                  +:+ exc_str
                        (PyError "ValueError"
                           "A document must have an even number of path elements"))),
        w0).
Proof.
  assert ("key-1" <> "") as Hkey by discriminate.
  assert (document_error "users" (py_str (JStr "a/b"))
          = Some "A document must have an even number of path elements")
    as Hpath by reflexivity.
  split; [reflexivity|]. split; [reflexivity|]. split; [exact Hkey|].
  split; [reflexivity|]. split; [exact Hpath|].
  exact (request_with_bad_uid_is_rejected slash_user "good" query [("uid", JStr "a/b")]
           "key-1" (JStr "a/b") _ w0 eq_refl eq_refl Hkey eq_refl Hpath).
Defined.



Lemma updateUser_failures_witness :
  store_fault happy (tick known_user) = None
  /\ store_fault happy (S (tick known_user)) = None
  /\ store known_user !! (("users", "u1") : docref)
     = Some (<["plan" := FStr "pro"]> {[ "Events_URL" := FStr "https://old.example" ]})
  /\ store known_user !! (("sessions", "u1") : docref) = None
  /\ fst (updateUser happy "sessions" "u1" "plan" "free" known_user)
     = Raise (HTTPException 500 "Failed to process user data")
  /\ store (snd (updateUser happy "sessions" "u1" "plan" "free" known_user))
     = store known_user.
Proof.
  assert (store known_user !! (("users", "u1") : docref)
          = Some (<["plan" := FStr "pro"]> {[ "Events_URL" := FStr "https://old.example" ]}))
    as Hdoc by reflexivity.
  assert (store known_user !! (("sessions", "u1") : docref) = None) as Hnone
    by reflexivity.
  split; [reflexivity|]. split; [reflexivity|]. split; [exact Hdoc|].
  split; [exact Hnone|].
  destruct (updateUser_failures happy "sessions" "u1" "plan" "free" known_user)
    as [Hall Hmissing].
  pose proof (Hmissing _ eq_refl eq_refl Hdoc Hnone) as Hrun.
  split; [exact Hrun|].
  destruct (updateUser happy "sessions" "u1" "plan" "free" known_user) as [o w'] eqn:Hu.
  cbn [fst snd] in *. subst o.
  destruct (Hall _ _ eq_refl) as [_ Hstore]. exact Hstore.
Defined.

End RunsMore.
